(** * Google News scraper: a shallow embedding and its verified properties

    The development follows the layout of the Python sources:

    - [extractors/utils_date_filter.py]: [build_time_range],
      [parse_since_from_relative_config], [filter_articles_by_published_at];
    - [extractors/google_news_parser.py]: the field extractors, the redirect
      resolver and [search];
    - [outputs/exporters.py]: [export_to_json].

    Python [str] values are modelled by [string]; every [ascii] stands for
    one character (code points below 256).  Python [int] is [Z].  A [dict]
    whose iteration order is observable (an article record that gets
    serialised) is an association list in insertion order, a [dict] that is
    only looked up (tag attributes, the relative-time configuration) is a
    [gmap]. *)

From Stdlib Require Import ZArith String Ascii List Bool Lia.
From Stdlib Require Import DecimalString DecimalZ DecimalFacts.
From stdpp Require Import gmap strings.
Import ListNotations.

Local Open Scope string_scope.
Local Open Scope Z_scope.

(** ** Python string methods *)

(** [not s] for a string: the empty string is falsy. *)
Definition str_nonempty (s : string) : bool :=
  match s with
  | EmptyString => false
  | String _ _ => true
  end.

(** [s.startswith(p)] *)
Fixpoint startswith (p s : string) : bool :=
  match p with
  | EmptyString => true
  | String a p' =>
      match s with
      | EmptyString => false
      | String b s' => Ascii.eqb a b && startswith p' s'
      end
  end.

(** [c in chars] for a single character. *)
Fixpoint char_in (c : ascii) (chars : string) : bool :=
  match chars with
  | EmptyString => false
  | String a r => Ascii.eqb c a || char_in c r
  end.

(** The characters [str.strip()] and [str.split()] treat as whitespace,
    among the code points below 256. *)
Definition is_space (c : ascii) : bool :=
  let n := nat_of_ascii c in
  ((9 <=? n)%nat && (n <=? 13)%nat) || ((28 <=? n)%nat && (n <=? 32)%nat)
  || (n =? 133)%nat || (n =? 160)%nat.

Fixpoint lstrip_by (p : ascii -> bool) (s : string) : string :=
  match s with
  | EmptyString => EmptyString
  | String c r => if p c then lstrip_by p r else s
  end.

Fixpoint rstrip_by (p : ascii -> bool) (s : string) : string :=
  match s with
  | EmptyString => EmptyString
  | String c r =>
      match rstrip_by p r with
      | EmptyString => if p c then EmptyString else String c EmptyString
      | r' => String c r'
      end
  end.

(** [s.lstrip(chars)]: drops every leading character that occurs in
    [chars] (a set of characters, not a prefix). *)
Definition lstrip (chars s : string) : string :=
  lstrip_by (fun c => char_in c chars) s.

(** [s.strip()] *)
Definition strip (s : string) : string :=
  lstrip_by is_space (rstrip_by is_space s).

Fixpoint str_rev_append (acc s : string) : string :=
  match acc with
  | EmptyString => s
  | String c r => str_rev_append r (String c s)
  end.

(** [s.split()]: the maximal runs of non-whitespace characters.  [cur]
    holds the current run, reversed. *)
Fixpoint split_ws_aux (cur : string) (s : string) : list string :=
  match s with
  | EmptyString =>
      if str_nonempty cur then [str_rev_append cur ""] else []
  | String c r =>
      if is_space c then
        (if str_nonempty cur then [str_rev_append cur ""] else [])
          ++ split_ws_aux "" r
      else split_ws_aux (String c cur) r
  end.

Definition split_ws (s : string) : list string := split_ws_aux "" s.

(** [s.split(sep)] for a non-empty separator.  [skip] counts the characters
    of a separator occurrence still to be passed over. *)
Fixpoint split_aux (sep : string) (skip : nat) (cur : string) (s : string)
  : list string :=
  match s with
  | EmptyString => [str_rev_append cur ""]
  | String c r =>
      match skip with
      | S k => split_aux sep k cur r
      | O =>
          if startswith sep s
          then str_rev_append cur "" :: split_aux sep (String.length sep - 1) "" r
          else split_aux sep O (String c cur) r
      end
  end.

Definition split (sep s : string) : list string := split_aux sep O "" s.

(** [sep.join(parts)] *)
Fixpoint join (sep : string) (parts : list string) : string :=
  match parts with
  | [] => ""
  | [p] => p
  | p :: rest => p ++ sep ++ join sep rest
  end.

(** [s.find(sub)]: the index of the first occurrence; [None] stands for
    Python's [-1]. *)
Fixpoint find_from (sub s : string) (i : nat) : option nat :=
  if startswith sub s then Some i
  else match s with
       | EmptyString => None
       | String _ r => find_from sub r (S i)
       end.

Definition find (sub s : string) : option nat := find_from sub s O.

(** [sub in s] *)
Definition contains (sub s : string) : bool :=
  match find sub s with Some _ => true | None => false end.

(** [s[n:]] and [s[:n]] *)
Fixpoint drop_str (n : nat) (s : string) : string :=
  match n, s with
  | O, _ => s
  | S k, String _ r => drop_str k r
  | S _, EmptyString => EmptyString
  end.

Fixpoint take_str (n : nat) (s : string) : string :=
  match n, s with
  | S k, String c r => String c (take_str k r)
  | _, _ => EmptyString
  end.

(** [s.replace(c, "")] for a single character [c]. *)
Fixpoint remove_char (c : ascii) (s : string) : string :=
  match s with
  | EmptyString => EmptyString
  | String a r => if Ascii.eqb a c then remove_char c r else String a (remove_char c r)
  end.

Definition is_ascii_upper (c : ascii) : bool :=
  let n := nat_of_ascii c in (65 <=? n)%nat && (n <=? 90)%nat.
Definition is_ascii_lower (c : ascii) : bool :=
  let n := nat_of_ascii c in (97 <=? n)%nat && (n <=? 122)%nat.
Definition is_ascii_digit (c : ascii) : bool :=
  let n := nat_of_ascii c in (48 <=? n)%nat && (n <=? 57)%nat.

(** [s.lower()] on ASCII letters. *)
Fixpoint lower (s : string) : string :=
  match s with
  | EmptyString => EmptyString
  | String c r =>
      String (if is_ascii_upper c then ascii_of_nat (nat_of_ascii c + 32) else c)
             (lower r)
  end.

(** *** [str(n)] and [int(s)] *)

(** [str(n)] for an [int]: decimal digits, a leading ["-"] when negative. *)
Definition str_of_int (n : Z) : string :=
  NilZero.string_of_int (Z.to_int n).

(** The digits part of an integer literal as [int()] reads it: decimal
    digits, single underscores allowed between two digits. *)
Fixpoint int_digits (prev_digit : bool) (acc : Z) (s : string) : option Z :=
  match s with
  | EmptyString => if prev_digit then Some acc else None
  | String c r =>
      if is_ascii_digit c
      then int_digits true (10 * acc + (Z.of_nat (nat_of_ascii c) - 48)) r
      else if Ascii.eqb c "_" && prev_digit
           then match r with
                | String d _ => if is_ascii_digit d then int_digits false acc r else None
                | EmptyString => None
                end
           else None
  end.

(** The whitespace [int()] ignores around a literal, among the code points
    below 256 (the separators 28-31 are not part of it). *)
Definition is_int_space (c : ascii) : bool :=
  let n := nat_of_ascii c in
  ((9 <=? n)%nat && (n <=? 13)%nat) || (n =? 32)%nat
  || (n =? 133)%nat || (n =? 160)%nat.

(** [int(s)] for a string: surrounding whitespace is ignored, then an
    optional sign and the digits; [None] stands for [ValueError]. *)
Definition int_of_str (s : string) : option Z :=
  match lstrip_by is_int_space (rstrip_by is_int_space s) with
  | String "+" r => int_digits false 0 r
  | String "-" r => option_map Z.opp (int_digits false 0 r)
  | t => int_digits false 0 t
  end.


(** ** Python values, exceptions *)

(** The values a JSON-loaded configuration or an article record holds. *)
Inductive PyVal : Type :=
  | PyNone
  | PyBool (b : bool)
  | PyInt (n : Z)
  | PyStr (s : string).

(** Truth value of an object ([if v:], [not v], [a or b]). *)
Definition truthy (v : PyVal) : bool :=
  match v with
  | PyNone => false
  | PyBool b => b
  | PyInt n => negb (n =? 0)
  | PyStr s => str_nonempty s
  end.

(** [str(v)] *)
Definition py_str (v : PyVal) : string :=
  match v with
  | PyNone => "None"
  | PyBool true => "True"
  | PyBool false => "False"
  | PyInt n => str_of_int n
  | PyStr s => s
  end.

(** What a failed network round trip of [requests] raises. *)
Inductive NetFailure : Type :=
  | ConnectTimeout
  | ReadTimeout
  | DNSFailure
  | ConnectionRefused
  | TooManyRedirects
  | OtherNetFailure (detail : string).

(** The exceptions of the modelled code; all of them are subclasses of
    Python's [Exception], which is what [except Exception] catches. *)
Inductive exn : Type :=
  | TypeError
  | ValueError
  | OverflowError
  | OSError
  | RequestException (f : NetFailure)
  | HTTPError (status : Z).

(** A computation that returns a value or raises. *)
Inductive exc (A : Type) : Type :=
  | Ok (a : A)
  | Raise (e : exn).
Arguments Ok {A} a.
Arguments Raise {A} e.

Definition exc_bind {A B : Type} (m : exc A) (k : A -> exc B) : exc B :=
  match m with
  | Ok a => k a
  | Raise e => Raise e
  end.

Notation "'let*' x ':=' m 'in' k" := (exc_bind m (fun x => k))
  (at level 10, x name, m at level 100, k at level 200).

(** [int(v)] *)
Definition py_int (v : PyVal) : exc Z :=
  match v with
  | PyNone => Raise TypeError
  | PyBool b => Ok (if b then 1 else 0)
  | PyInt n => Ok n
  | PyStr s => match int_of_str s with
               | Some n => Ok n
               | None => Raise ValueError
               end
  end.

(** [d.get(key)] on a [dict] used as a lookup table: [None] when the key is
    missing. *)
Definition cfg_get (cfg : gmap string PyVal) (key : string) : PyVal :=
  match cfg !! key with
  | Some v => v
  | None => PyNone
  end.

(** ** [datetime] and [timedelta] *)

(** An instant is a number of microseconds since 0001-01-01T00:00:00 UTC;
    [datetime] represents the instants of the years 1 to 9999. *)
Definition MICROS_PER_SECOND : Z := 1000000.
Definition MICROS_PER_HOUR : Z := 3600 * MICROS_PER_SECOND.
Definition MICROS_PER_DAY : Z := 24 * MICROS_PER_HOUR.
Definition MAX_ORDINAL_DAYS : Z := 3652059.
Definition MAX_DELTA_DAYS : Z := 999999999.

Definition datetime_in_range (t : Z) : bool :=
  (0 <=? t) && (t <? MAX_ORDINAL_DAYS * MICROS_PER_DAY).

(** [timedelta(hours=h)] and [timedelta(days=d)], as a number of
    microseconds; the constructor raises [OverflowError] beyond
    999999999 days. *)
Definition timedelta_of_micros (us : Z) : exc Z :=
  if (- MAX_DELTA_DAYS <=? us / MICROS_PER_DAY) && (us / MICROS_PER_DAY <=? MAX_DELTA_DAYS)
  then Ok us else Raise OverflowError.

Definition timedelta_hours (h : Z) : exc Z := timedelta_of_micros (h * MICROS_PER_HOUR).
Definition timedelta_days (d : Z) : exc Z := timedelta_of_micros (d * MICROS_PER_DAY).

(** [t - delta] on a [datetime]: [OverflowError] outside the years 1-9999. *)
Definition datetime_sub (t delta : Z) : exc Z :=
  if datetime_in_range (t - delta) then Ok (t - delta) else Raise OverflowError.

(** A [datetime] as a parser returns it: the wall-clock reading in
    microseconds since 0001-01-01T00:00:00, and the UTC offset of its
    [tzinfo] ([None] for a naive value). *)
Record PyDatetime : Type := mkDatetime {
  wall : Z;
  utcoffset : option Z
}.

(** [d.replace(tzinfo=timezone.utc)] *)
Definition replace_tzinfo_utc (d : PyDatetime) : PyDatetime :=
  mkDatetime (wall d) (Some 0).

(** [d.astimezone(timezone.utc)] for an aware [d]: the wall clock moves by
    the offset, and the shifted value must itself be a [datetime]. *)
Definition astimezone_utc (d : PyDatetime) (offset : Z) : exc PyDatetime :=
  let* t := datetime_sub (wall d) offset in Ok (mkDatetime t (Some 0)).

(** ** extractors/utils_date_filter.py *)

(** [v is not None and v > 0] *)
Definition is_positive (v : option Z) : bool :=
  match v with
  | Some n => 0 <? n
  | None => false
  end.

(** The f-string [f"{v}{unit}"] for an optional [int]. *)
Definition format_window (v : option Z) (unit : string) : string :=
  match v with
  | Some n => str_of_int n ++ unit
  | None => "None" ++ unit
  end.

(** [build_time_range(hours, days, years)] *)
Definition build_time_range (hours days years : option Z) : option string :=
  if is_positive hours then Some (format_window hours "h")
  else if is_positive days then Some (format_window days "d")
  else if is_positive years then Some (format_window years "y")
  else None.

(** [parse_since_from_relative_config(cfg)]; [now] is the reading of
    [datetime.utcnow()], made aware with [tzinfo=utc]. *)
Definition parse_since_from_relative_config (now : Z) (cfg : gmap string PyVal)
  : exc (option Z) :=
  let hours := cfg_get cfg "hours" in
  let days := cfg_get cfg "days" in
  let years := cfg_get cfg "years" in
  if truthy hours then
    let* h := py_int hours in
    let* delta := timedelta_hours h in
    let* t := datetime_sub now delta in
    Ok (Some t)
  else if truthy days then
    let* d := py_int days in
    let* delta := timedelta_days d in
    let* t := datetime_sub now delta in
    Ok (Some t)
  else if truthy years then
    let* y := py_int years in
    let* delta := timedelta_days (y * 365) in
    let* t := datetime_sub now delta in
    Ok (Some t)
  else Ok None.


(** An article record as [search] returns it and [export_to_json] writes
    it: a [dict] in insertion order. *)
Definition PyDict : Type := list (string * PyVal).

(** [d.get(key)]: [None] when the key is missing. *)
Fixpoint dict_get (d : PyDict) (key : string) : PyVal :=
  match d with
  | [] => PyNone
  | (k, v) :: rest => if String.eqb k key then v else dict_get rest key
  end.

(** What [filter_articles_by_published_at] does besides returning: the
    calls to the date parser and the debug records it logs. *)
Inductive FilterEvent : Type :=
  | EvParse (text : string)
  | EvLogParseFailure (published_raw : PyVal).

Section DateFilter.

(** [dateutil.parser.parse(text)]; it raises on text it cannot read. *)
Variable date_parser_parse : string -> exc PyDatetime.

(** The body of the [try] block: parse, then normalise to UTC. *)
Definition parse_published_utc (published_raw : PyVal) : exc PyDatetime :=
  let* parsed_dt := date_parser_parse (py_str published_raw) in
  match utcoffset parsed_dt with
  | None => Ok (replace_tzinfo_utc parsed_dt)
  | Some offset => astimezone_utc parsed_dt offset
  end.

(** The [for] loop of [filter_articles_by_published_at]; [filtered] is
    the list being appended to, [log] the events so far. *)
Fixpoint filter_loop (articles : list PyDict) (since_utc : Z)
         (filtered : list PyDict) (log : list FilterEvent)
  : list PyDict * list FilterEvent :=
  match articles with
  | [] => (filtered, log)
  | art :: rest =>
      let published_raw := dict_get art "publishedAt" in
      if negb (truthy published_raw) then
        filter_loop rest since_utc (filtered ++ [art]) log
      else
        match parse_published_utc published_raw with
        | Raise _ =>
            filter_loop rest since_utc (filtered ++ [art])
              (log ++ [EvParse (py_str published_raw);
                       EvLogParseFailure published_raw])
        | Ok parsed_dt =>
            if since_utc <=? wall parsed_dt
            then filter_loop rest since_utc (filtered ++ [art])
                   (log ++ [EvParse (py_str published_raw)])
            else filter_loop rest since_utc filtered
                   (log ++ [EvParse (py_str published_raw)])
        end
  end.

(** [filter_articles_by_published_at(articles, since)].  [since] is an
    aware UTC [datetime] (the only kind
    [parse_since_from_relative_config] produces), given by its instant,
    so [since.astimezone(timezone.utc)] is [since] itself. *)
Definition filter_articles_by_published_at_traced
           (articles : list PyDict) (since : Z)
  : list PyDict * list FilterEvent :=
  let since_utc := since in
  filter_loop articles since_utc [] [].

Definition filter_articles_by_published_at
           (articles : list PyDict) (since : Z) : list PyDict :=
  fst (filter_articles_by_published_at_traced articles since).

End DateFilter.

(** ** The parsed page *)

(** A node of the tree BeautifulSoup builds: a text node ([NavigableString],
    of the kinds [get_text] collects) or an element ([Tag]). *)
Inductive PageElement (T : Type) : Type :=
  | NavigableString (text : string)
  | Element (t : T).
Arguments NavigableString {T} text.
Arguments Element {T} t.

#[warnings="-register-all"]
Inductive Tag : Type :=
  | mkTag (name : string) (attrs : gmap string string)
          (contents : list (PageElement Tag)).

Definition tag_name (t : Tag) : string :=
  match t with mkTag n _ _ => n end.
Definition tag_attrs (t : Tag) : gmap string string :=
  match t with mkTag _ a _ => a end.
Definition tag_contents (t : Tag) : list (PageElement Tag) :=
  match t with mkTag _ _ c => c end.

(** [tag.descendants]: every node below [t], in document order. *)
Fixpoint descendants (t : Tag) : list (PageElement Tag) :=
  match t with
  | mkTag _ _ cs =>
      (fix go (l : list (PageElement Tag)) : list (PageElement Tag) :=
         match l with
         | [] => []
         | NavigableString s :: r => NavigableString s :: go r
         | Element c :: r => Element c :: (descendants c ++ go r)
         end) cs
  end.

Fixpoint tags_of (l : list (PageElement Tag)) : list Tag :=
  match l with
  | [] => []
  | NavigableString _ :: r => tags_of r
  | Element c :: r => c :: tags_of r
  end.

Fixpoint strings_of (l : list (PageElement Tag)) : list string :=
  match l with
  | [] => []
  | NavigableString s :: r => s :: strings_of r
  | Element _ :: r => strings_of r
  end.

(** [tag.find_all(name)] *)
Definition find_all (name : string) (t : Tag) : list Tag :=
  List.filter (fun c => String.eqb (tag_name c) name) (tags_of (descendants t)).

(** [tag.find(name)]: the first match or [None]. *)
Definition find_tag (name : string) (t : Tag) : option Tag :=
  List.head (find_all name t).

(** [tag.get(key)] *)
Definition tag_get (t : Tag) (key : string) : option string :=
  tag_attrs t !! key.

(** [tag.find(name, href=True)]: the first [name] element that carries an
    [href] attribute, whatever its value. *)
Definition find_tag_with_href (name : string) (t : Tag) : option Tag :=
  List.head (List.filter (fun c => match tag_get c "href" with
                                   | Some _ => true
                                   | None => false
                                   end) (find_all name t)).

(** [tag.get_text(separator, strip)] *)
Definition get_text (separator : string) (strip_each : bool) (t : Tag) : string :=
  let strings := strings_of (descendants t) in
  join separator
       (if strip_each
        then List.filter str_nonempty (List.map strip strings)
        else strings).

(** [a or b] on optional strings: [a] when it is a non-empty string. *)
Definition or_else (a b : option string) : option string :=
  match a with
  | Some s => if str_nonempty s then a else b
  | None => b
  end.

(** ** urllib.parse: [urljoin]

    The library's algorithm on [str] arguments, with fragments allowed. *)

Definition uses_relative : list string :=
  [""; "ftp"; "http"; "gopher"; "nntp"; "imap"; "wais"; "file"; "https";
   "shttp"; "mms"; "prospero"; "rtsp"; "rtspu"; "sftp"; "svn"; "svn+ssh";
   "ws"; "wss"].

Definition uses_netloc : list string :=
  [""; "ftp"; "http"; "gopher"; "nntp"; "telnet"; "imap"; "wais"; "file";
   "mms"; "https"; "shttp"; "snews"; "prospero"; "rtsp"; "rtspu"; "rsync";
   "svn"; "svn+ssh"; "sftp"; "nfs"; "git"; "git+ssh"; "ws"; "wss"].

Definition uses_params : list string :=
  [""; "ftp"; "hdl"; "prospero"; "http"; "imap"; "https"; "shttp"; "rtsp";
   "rtspu"; "sip"; "sips"; "mms"; "sftp"; "tel"].

Definition scheme_chars : string :=
  "abcdefghijklmnopqrstuvwxyzABCDEFGHIJKLMNOPQRSTUVWXYZ0123456789+-.".

(** [s in l] for a list of strings. *)
Definition str_in (s : string) (l : list string) : bool :=
  existsb (String.eqb s) l.

(** The characters of [_WHATWG_C0_CONTROL_OR_SPACE]. *)
Definition is_c0_control_or_space (c : ascii) : bool :=
  (nat_of_ascii c <=? 32)%nat.

(** Removal of the characters of [_UNSAFE_URL_BYTES_TO_REMOVE]. *)
Definition remove_unsafe (s : string) : string :=
  remove_char "010" (remove_char "013" (remove_char "009" s)).

Fixpoint all_chars (p : ascii -> bool) (s : string) : bool :=
  match s with
  | EmptyString => true
  | String c r => p c && all_chars p r
  end.

(** The longest prefix without a character of [stop], and the rest. *)
Fixpoint span_until (stop : string) (s : string) : string * string :=
  match s with
  | EmptyString => (EmptyString, EmptyString)
  | String c r =>
      if char_in c stop then (EmptyString, s)
      else let (a, b) := span_until stop r in (String c a, b)
  end.

(** [s.rfind(c)] for a single character. *)
Fixpoint rfind_char_from (c : ascii) (s : string) (i : nat) (last : option nat)
  : option nat :=
  match s with
  | EmptyString => last
  | String a r =>
      rfind_char_from c r (S i) (if Ascii.eqb a c then Some i else last)
  end.

Definition rfind_char (c : ascii) (s : string) : option nat :=
  rfind_char_from c s O None.

Record SplitResult : Type := mkSplit {
  sr_scheme : string;
  sr_netloc : string;
  sr_path : string;
  sr_query : string;
  sr_fragment : string
}.

Record ParseResult : Type := mkParse {
  pr_scheme : string;
  pr_netloc : string;
  pr_path : string;
  pr_params : string;
  pr_query : string;
  pr_fragment : string
}.

(** [_splitnetloc(url, 2)] *)
Definition _splitnetloc (url : string) : string * string :=
  span_until "/?#" (drop_str 2 url).

(** [_splitparams(url)] *)
Definition _splitparams (url : string) : string * string :=
  match rfind_char "/" url with
  | Some j =>
      match find ";" (drop_str j url) with
      | Some k => (take_str (j + k) url, drop_str (j + k + 1) url)
      | None => (url, "")
      end
  | None =>
      match find ";" url with
      | Some i => (take_str i url, drop_str (i + 1) url)
      | None =>
          (* [i = -1]: [url[:-1]] and [url[0:]]; unreachable from
             [urlparse], which asks for a semicolon first *)
          (take_str (String.length url - 1) url, url)
      end
  end.

(** [urlunsplit((scheme, netloc, url, query, fragment))] *)
Definition urlunsplit (scheme netloc url query fragment : string) : string :=
  let url :=
    if str_nonempty netloc
       || (str_nonempty scheme && str_in scheme uses_netloc
           && negb (startswith "//" url))
    then "//" ++ netloc
         ++ (if str_nonempty url && negb (startswith "/" url)
             then "/" ++ url else url)
    else url in
  let url := if str_nonempty scheme then scheme ++ ":" ++ url else url in
  let url := if str_nonempty query then url ++ "?" ++ query else url in
  if str_nonempty fragment then url ++ "#" ++ fragment else url.

(** [urlunparse((scheme, netloc, url, params, query, fragment))] *)
Definition urlunparse (scheme netloc url params query fragment : string) : string :=
  let url := if str_nonempty params then url ++ ";" ++ params else url in
  urlunsplit scheme netloc url query fragment.

(** [segments[1:-1] = filter(None, segments[1:-1])] *)
Definition drop_empty_inner (segments : list string) : list string :=
  match segments with
  | first :: (_ :: _) as rest =>
      (first :: List.filter str_nonempty (removelast rest) ++ [List.last rest ""])%list
  | _ => segments
  end.

(** The loop over [segments] that builds [resolved_path]. *)
Fixpoint resolve_segments (segments resolved_path : list string) : list string :=
  match segments with
  | [] => resolved_path
  | seg :: rest =>
      if String.eqb seg ".." then resolve_segments rest (removelast resolved_path)
      else if String.eqb seg "." then resolve_segments rest resolved_path
      else resolve_segments rest (resolved_path ++ [seg])%list
  end.

Section Urllib.

(** Whether [_check_bracketed_netloc] accepts a network location holding
    both ["["] and ["]"] (an IPv6 or IPvFuture literal); it raises
    [ValueError] otherwise. *)
Variable bracketed_netloc_ok : string -> bool.

(** [urlsplit(url, scheme)].  The last check of the library,
    [_checknetloc], only concerns characters whose NFKC form holds one of
    [/?#@:]; no code point below 256 has such a form, so it never raises
    here. *)
Definition urlsplit (url scheme : string) : exc SplitResult :=
  let url := lstrip_by is_c0_control_or_space url in
  let scheme :=
    lstrip_by is_c0_control_or_space (rstrip_by is_c0_control_or_space scheme) in
  let url := remove_unsafe url in
  let scheme := remove_unsafe scheme in
  let '(scheme, url) :=
    match find ":" url, url with
    | Some (S i), String c0 _ =>
        if (is_ascii_upper c0 || is_ascii_lower c0)
           && all_chars (fun c => char_in c scheme_chars) (take_str (S i) url)
        then (lower (take_str (S i) url), drop_str (S (S i)) url)
        else (scheme, url)
    | _, _ => (scheme, url)
    end in
  let* located :=
    if startswith "//" url then
      let '(netloc, rest) := _splitnetloc url in
      let ob := char_in "[" netloc in
      let cb := char_in "]" netloc in
      if (ob && negb cb) || (cb && negb ob) then Raise ValueError
      else if ob && cb && negb (bracketed_netloc_ok netloc) then Raise ValueError
      else Ok (netloc, rest)
    else Ok ("", url) in
  let '(netloc, url) := located in
  let '(url, fragment) :=
    match find "#" url with
    | Some i => (take_str i url, drop_str (S i) url)
    | None => (url, "")
    end in
  let '(url, query) :=
    match find "?" url with
    | Some i => (take_str i url, drop_str (S i) url)
    | None => (url, "")
    end in
  Ok (mkSplit scheme netloc url query fragment).

(** [urlparse(url, scheme)] *)
Definition urlparse (url scheme : string) : exc ParseResult :=
  let* r := urlsplit url scheme in
  let '(url, params) :=
    if str_in (sr_scheme r) uses_params && char_in ";" (sr_path r)
    then _splitparams (sr_path r)
    else (sr_path r, "") in
  Ok (mkParse (sr_scheme r) (sr_netloc r) url params (sr_query r) (sr_fragment r)).

(** [urljoin(base, url)] *)
Definition urljoin (base url : string) : exc string :=
  if negb (str_nonempty base) then Ok url
  else if negb (str_nonempty url) then Ok base
  else
    let* b := urlparse base "" in
    let* u := urlparse url (pr_scheme b) in
    let scheme := pr_scheme u in
    if negb (String.eqb scheme (pr_scheme b)) || negb (str_in scheme uses_relative)
    then Ok url
    else if str_in scheme uses_netloc && str_nonempty (pr_netloc u)
    then Ok (urlunparse scheme (pr_netloc u) (pr_path u) (pr_params u)
                        (pr_query u) (pr_fragment u))
    else
      let netloc := if str_in scheme uses_netloc then pr_netloc b else pr_netloc u in
      if negb (str_nonempty (pr_path u)) && negb (str_nonempty (pr_params u))
      then
        let query := if negb (str_nonempty (pr_query u))
                     then pr_query b else pr_query u in
        Ok (urlunparse scheme netloc (pr_path b) (pr_params b) query (pr_fragment u))
      else
        let base_parts := split "/" (pr_path b) in
        let base_parts :=
          if negb (String.eqb (List.last base_parts "") "")
          then removelast base_parts else base_parts in
        let segments :=
          if startswith "/" (pr_path u) then split "/" (pr_path u)
          else drop_empty_inner (base_parts ++ split "/" (pr_path u))%list in
        let resolved_path := resolve_segments segments [] in
        let resolved_path :=
          if String.eqb (List.last segments "") "."
             || String.eqb (List.last segments "") ".."
          then (resolved_path ++ [""])%list else resolved_path in
        let joined := join "/" resolved_path in
        Ok (urlunparse scheme netloc
                       (if str_nonempty joined then joined else "/")
                       (pr_params u) (pr_query u) (pr_fragment u)).

End Urllib.


(** [quote_plus(s)] of urllib.parse: letters, digits and [_.-~] are kept, a
    space becomes [+], every other character is percent-encoded from its
    UTF-8 bytes. *)
Definition hex_digit (n : nat) : ascii :=
  if (n <? 10)%nat then ascii_of_nat (48 + n) else ascii_of_nat (55 + n).

Definition percent_byte (n : nat) : string :=
  String "%" (String (hex_digit (n / 16)) (String (hex_digit (n mod 16)) "")).

Definition quote_plus_char (c : ascii) : string :=
  let n := nat_of_ascii c in
  if is_ascii_upper c || is_ascii_lower c || is_ascii_digit c || char_in c "_.-~"
  then String c ""
  else if (n =? 32)%nat then "+"
  else if (n <? 128)%nat then percent_byte n
  else percent_byte (192 + n / 64) ++ percent_byte (128 + n mod 64).

Fixpoint quote_plus (s : string) : string :=
  match s with
  | EmptyString => EmptyString
  | String c r => quote_plus_char c ++ quote_plus r
  end.

(** [urlencode(params)] for a [dict] of strings, in insertion order. *)
Definition urlencode (params : list (string * string)) : string :=
  join "&" (List.map (fun kv => quote_plus (fst kv) ++ "=" ++ quote_plus (snd kv)) params).

(** ** extractors/google_news_parser.py *)

Definition GOOGLE_NEWS_BASE : string := "https://news.google.com".

(** The dataclass [GoogleNewsArticle]. *)
Record GoogleNewsArticle : Type := mkArticle {
  googleNewsUrl : string;
  articleUrl : string;
  decodedArticleUrl : option string;
  title : string;
  publishedAt : option string;
  imageUrl : option string;
  source : option string;
  sourceIconUrl : option string;
  author : option string
}.

Definition py_of_opt (o : option string) : PyVal :=
  match o with
  | Some s => PyStr s
  | None => PyNone
  end.

(** [GoogleNewsArticle.to_dict], that is [asdict(self)]: the fields in
    declaration order. *)
Definition to_dict (a : GoogleNewsArticle) : PyDict :=
  [("googleNewsUrl", PyStr (googleNewsUrl a));
   ("articleUrl", PyStr (articleUrl a));
   ("decodedArticleUrl", py_of_opt (decodedArticleUrl a));
   ("title", PyStr (title a));
   ("publishedAt", py_of_opt (publishedAt a));
   ("imageUrl", py_of_opt (imageUrl a));
   ("source", py_of_opt (source a));
   ("sourceIconUrl", py_of_opt (sourceIconUrl a));
   ("author", py_of_opt (author a))].

(** The fields of a [GoogleNewsScraper] the modelled methods read. *)
Record GoogleNewsScraper : Type := mkScraper {
  language : string;
  region : string;
  timeout : Z;
  decode_articles : bool
}.

(** [build_search_url(query, when)] *)
Definition build_search_url (self : GoogleNewsScraper) (query : string)
           (when : option string) : string :=
  let q := strip query in
  let q :=
    match when with
    | Some w =>
        if str_nonempty w && negb (contains ("when:" ++ w) q)
        then q ++ " when:" ++ w else q
    | None => q
    end in
  let params :=
    [("q", q);
     ("hl", language self ++ "-" ++ region self);
     ("gl", region self);
     ("ceid", region self ++ ":" ++ language self)] in
  GOOGLE_NEWS_BASE ++ "/search?" ++ urlencode params.

(** [_extract_article_elements(soup)] *)
Definition _extract_article_elements (soup : Tag) : list Tag :=
  find_all "article" soup.

(** [_extract_title(article)] *)
Definition _extract_title (article : Tag) : string :=
  match find_tag "a" article with
  | None => ""
  | Some link => get_text "" true link
  end.

(** [_extract_source(article)]: the loop over the [span] candidates. *)
Fixpoint first_short_text (candidates : list Tag) : option string :=
  match candidates with
  | [] => None
  | span :: rest =>
      let txt := get_text "" true span in
      if str_nonempty txt && (List.length (split_ws txt) <=? 5)%nat
      then Some txt
      else first_short_text rest
  end.

Definition _extract_source (article : Tag) : option string :=
  first_short_text (find_all "span" article).

(** [_extract_image(article)] *)
Definition _extract_image (article : Tag) : option string :=
  match find_tag "img" article with
  | None => None
  | Some img => or_else (tag_get img "src") (tag_get img "data-src")
  end.

(** [int(v)] for an attribute value: [TypeError] on [None], [ValueError]
    on text that is no integer literal. *)
Definition int_of_attr (v : option string) : exc Z :=
  match v with
  | None => Raise TypeError
  | Some s => py_int (PyStr s)
  end.

(** [int(w) * int(h)] for the [width] and [height] of an image. *)
Definition image_area (img : Tag) : exc Z :=
  let* w := int_of_attr (tag_get img "width") in
  let* h := int_of_attr (tag_get img "height") in
  Ok (w * h).

(** The loop of [_extract_source_icon]; the state is the pair
    [smallest], [smallest_area], which are set together. *)
Fixpoint smallest_image (imgs : list Tag) (smallest : option (Tag * Z))
  : option (Tag * Z) :=
  match imgs with
  | [] => smallest
  | img :: rest =>
      match image_area img with
      | Raise _ => smallest_image rest smallest
      | Ok area =>
          match smallest with
          | None => smallest_image rest (Some (img, area))
          | Some (_, smallest_area) =>
              if area <? smallest_area
              then smallest_image rest (Some (img, area))
              else smallest_image rest smallest
          end
      end
  end.

(** [_extract_source_icon(article)] *)
Definition _extract_source_icon (article : Tag) : option string :=
  match find_all "img" article with
  | [] => None
  | imgs =>
      match smallest_image imgs None with
      | None => None
      | Some (smallest, _) =>
          or_else (tag_get smallest "src") (tag_get smallest "data-src")
      end
  end.

(** [_extract_author(article)] *)
Definition _extract_author (article : Tag) : option string :=
  let text := get_text " " true article in
  if negb (str_nonempty text) then None
  else
    let marker := "By " in
    match find marker text with
    | None => None
    | Some idx =>
        let segment :=
          strip (List.hd "" (split "  " (drop_str (idx + String.length marker) text))) in
        if str_nonempty segment && (String.length segment <=? 80)%nat
        then Some ("By " ++ segment)
        else None
    end.

(** A [requests.Response], as far as the scraper reads it. *)
Record Response : Type := mkResponse {
  resp_url : string;
  status_code : Z;
  is_redirect : bool;
  history : list string;
  resp_text : string
}.

(** [resp.raise_for_status()] *)
Definition raise_for_status (resp : Response) : exc unit :=
  if (400 <=? status_code resp) && (status_code resp <? 600)
  then Raise (HTTPError (status_code resp))
  else Ok tt.

(** [try: body except Exception: handler]; every modelled exception is an
    [Exception]. *)
Definition try_except {A W : Type} (body : exc A * W) (handler : exn -> exc A)
  : exc A * W :=
  match body with
  | (Ok a, w) => (Ok a, w)
  | (Raise e, w) => (handler e, w)
  end.

Section Scraper.

(** The outside world the scraper talks to, and the calls that change
    it: [session.head] and [session.get] (with the scraper's timeout and
    proxies, following redirects) and [time.sleep(0.05)]. *)
Variable World : Type.
Variable session_head : string -> World -> exc Response * World.
Variable session_get : string -> World -> exc Response * World.
Variable time_sleep : World -> World.

(** [BeautifulSoup(html, "html.parser")] *)
Variable BeautifulSoup : string -> Tag.

(** [dateutil.parser.parse(text, fuzzy=True)] and [dt.isoformat()] *)
Variable date_parser_parse_fuzzy : string -> exc PyDatetime.
Variable isoformat : PyDatetime -> string.

Variable bracketed_netloc_ok : string -> bool.

Variable self : GoogleNewsScraper.

(** [_get(url)] *)
Definition _get (url : string) (w : World) : exc string * World :=
  match session_get url w with
  | (Raise e, w1) => (Raise e, w1)
  | (Ok resp, w1) =>
      (let* _ := raise_for_status resp in Ok (resp_text resp), w1)
  end.

(** The body of the [try] block of [_resolve_redirect]. *)
Definition resolve_redirect_body (url : string) (w : World)
  : exc (option string) * World :=
  match session_head url w with
  | (Raise e, w1) => (Raise e, w1)
  | (Ok resp, w1) =>
      if is_redirect resp || negb (Nat.eqb (List.length (history resp)) 0)
      then (Ok (Some (resp_url resp)), w1)
      else if 400 <=? status_code resp
      then match session_get url w1 with
           | (Raise e, w2) => (Raise e, w2)
           | (Ok resp2, w2) => (Ok (Some (resp_url resp2)), w2)
           end
      else (Ok (Some (resp_url resp)), w1)
  end.

(** [_resolve_redirect(url)] *)
Definition _resolve_redirect (url : string) (w : World)
  : exc (option string) * World :=
  try_except (resolve_redirect_body url w) (fun _ => Ok None).

(** [_extract_raw_article_url(article)] *)
Definition _extract_raw_article_url (article : Tag) : exc (option string) :=
  match find_tag_with_href "a" article with
  | None => Ok None
  | Some link =>
      match tag_get link "href" with
      | None => Ok None
      | Some href =>
          if startswith "./" href || startswith "/" href
          then let* u := urljoin bracketed_netloc_ok GOOGLE_NEWS_BASE (lstrip "./" href) in
               Ok (Some u)
          else if startswith "http://" href || startswith "https://" href
          then Ok (Some href)
          else let* u := urljoin bracketed_netloc_ok GOOGLE_NEWS_BASE href in
               Ok (Some u)
      end
  end.

(** [_extract_published_at(article)] *)
Definition _extract_published_at (article : Tag) : option string :=
  match find_tag "time" article with
  | None => None
  | Some time_tag =>
      match or_else (tag_get time_tag "datetime") None with
      | Some datetime_attr => Some datetime_attr
      | None =>
          let text := get_text "" true time_tag in
          if str_nonempty text then
            match date_parser_parse_fuzzy text with
            | Ok d => Some (isoformat d)
            | Raise _ => Some text
            end
          else None
      end
  end.

(** The [for] loop of [search] over the remaining article elements;
    [articles] is the list being appended to. *)
Fixpoint search_loop (search_url : string) (max_items : Z)
         (tags : list Tag) (articles : list GoogleNewsArticle) (w : World)
  : exc (list GoogleNewsArticle) * World :=
  match tags with
  | [] => (Ok articles, w)
  | article_tag :: rest =>
      match _extract_raw_article_url article_tag with
      | Raise e => (Raise e, w)
      | Ok None => search_loop search_url max_items rest articles w
      | Ok (Some raw_url) =>
          if negb (str_nonempty raw_url)
          then search_loop search_url max_items rest articles w
          else
            match (if decode_articles self
                   then let '(r, w1) := _resolve_redirect raw_url w in
                        (r, time_sleep w1)
                   else (Ok None, w)) with
            | (Raise e, w1) => (Raise e, w1)
            | (Ok decoded_url, w1) =>
                let item :=
                  mkArticle search_url raw_url decoded_url
                            (_extract_title article_tag)
                            (_extract_published_at article_tag)
                            (_extract_image article_tag)
                            (_extract_source article_tag)
                            (_extract_source_icon article_tag)
                            (_extract_author article_tag) in
                let articles := (articles ++ [item])%list in
                if max_items <=? Z.of_nat (List.length articles)
                then (Ok articles, w1)
                else search_loop search_url max_items rest articles w1
            end
      end
  end.

(** [search(query, when, max_items)] *)
Definition search (query : string) (when : option string) (max_items : Z)
           (w : World) : exc (list PyDict) * World :=
  let search_url := build_search_url self query when in
  match _get search_url w with
  | (Raise e, w1) => (Raise e, w1)
  | (Ok html, w1) =>
      let soup := BeautifulSoup html in
      match search_loop search_url max_items
                        (_extract_article_elements soup) [] w1 with
      | (Raise e, w2) => (Raise e, w2)
      | (Ok articles, w2) => (Ok (List.map to_dict articles), w2)
      end
  end.

End Scraper.

(** ** json: [dump] and [load]

    The encoder with [ensure_ascii=False], for a list of article records
    whose values are [None], booleans, integers or strings. *)

Definition hex_digit_lower (n : nat) : ascii :=
  if (n <? 10)%nat then ascii_of_nat (48 + n) else ascii_of_nat (87 + n).

(** The replacement [json] makes for one character of a string
    ([ESCAPE_DCT]): the quote, the backslash and the control characters are
    escaped, everything else is written as it is. *)
Definition json_escape_char (c : ascii) : string :=
  let n := nat_of_ascii c in
  if (n =? 34)%nat then String "\" (String "034" "")
  else if (n =? 92)%nat then "\\"
  else if (n =? 10)%nat then "\n"
  else if (n =? 13)%nat then "\r"
  else if (n =? 9)%nat then "\t"
  else if (n =? 8)%nat then "\b"
  else if (n =? 12)%nat then "\f"
  else if (n <? 32)%nat
  then "\u00" ++ String (hex_digit_lower (n / 16))
                        (String (hex_digit_lower (n mod 16)) "")
  else String c "".

Fixpoint json_escape (s : string) : string :=
  match s with
  | EmptyString => EmptyString
  | String c r => json_escape_char c ++ json_escape r
  end.

Definition json_quote : ascii := "034"%char.

(** [py_encode_basestring(s)] *)
Definition json_encode_str (s : string) : string :=
  String json_quote (json_escape s ++ String json_quote "").

Definition json_encode_val (v : PyVal) : string :=
  match v with
  | PyNone => "null"
  | PyBool true => "true"
  | PyBool false => "false"
  | PyInt n => str_of_int n
  | PyStr s => json_encode_str s
  end.

(** One [dict] of the array; [pretty] selects [indent=2] (members on their
    own lines, ["key": value]) or [separators=(",", ":")]. *)
Definition json_encode_member (pretty : bool) (kv : string * PyVal) : string :=
  json_encode_str (fst kv) ++ (if pretty then ": " else ":") ++ json_encode_val (snd kv).

Definition newline : string := String "010" "".

Definition json_encode_dict (pretty : bool) (d : PyDict) : string :=
  match d with
  | [] => "{}"
  | _ =>
      if pretty
      then "{" ++ newline ++ "    "
           ++ join ("," ++ newline ++ "    ") (List.map (json_encode_member true) d)
           ++ newline ++ "  " ++ "}"
      else "{" ++ join "," (List.map (json_encode_member false) d) ++ "}"
  end.

(** The text [json.dump(articles, f, ...)] writes. *)
Definition json_dumps (pretty : bool) (articles : list PyDict) : string :=
  match articles with
  | [] => "[]"
  | _ =>
      if pretty
      then "[" ++ newline ++ "  "
           ++ join ("," ++ newline ++ "  ") (List.map (json_encode_dict true) articles)
           ++ newline ++ "]"
      else "[" ++ join "," (List.map (json_encode_dict false) articles) ++ "]"
  end.

(** The decoder, on documents of the shape the exporter writes: an array of
    objects whose values are [null], booleans, integers or strings.  A
    document of another shape, or a string with a code point beyond 255,
    is outside the model and reported like malformed text ([None]). *)

Definition is_json_ws (c : ascii) : bool :=
  let n := nat_of_ascii c in
  (n =? 32)%nat || (n =? 9)%nat || (n =? 10)%nat || (n =? 13)%nat.

Definition skip_ws (s : string) : string := lstrip_by is_json_ws s.

Definition hex_value (c : ascii) : option nat :=
  let n := nat_of_ascii c in
  if is_ascii_digit c then Some (n - 48)%nat
  else if (97 <=? n)%nat && (n <=? 102)%nat then Some (n - 87)%nat
  else if (65 <=? n)%nat && (n <=? 70)%nat then Some (n - 55)%nat
  else None.

(** The characters of a string literal after its opening quote, up to the
    closing quote: the decoded string and the text that follows. *)
Fixpoint json_scan_string (s : string) : option (string * string) :=
  match s with
  | EmptyString => None
  | String c r =>
      if Ascii.eqb c json_quote then Some (EmptyString, r)
      else if Ascii.eqb c "\" then
        match r with
        | String "u" (String h1 (String h2 (String h3 (String h4 r')))) =>
            match hex_value h1, hex_value h2, hex_value h3, hex_value h4 with
            | Some a, Some b, Some c3, Some d =>
                if ((a =? 0) && (b =? 0))%nat then
                  match json_scan_string r' with
                  | Some (t, rest) => Some (String (ascii_of_nat (16 * c3 + d)) t, rest)
                  | None => None
                  end
                else None
            | _, _, _, _ => None
            end
        | String e r' =>
            match (if Ascii.eqb e json_quote then Some json_quote
                   else if Ascii.eqb e "\" then Some "\"%char
                   else if Ascii.eqb e "/" then Some "/"%char
                   else if Ascii.eqb e "b" then Some "008"%char
                   else if Ascii.eqb e "f" then Some "012"%char
                   else if Ascii.eqb e "n" then Some "010"%char
                   else if Ascii.eqb e "r" then Some "013"%char
                   else if Ascii.eqb e "t" then Some "009"%char
                   else None) with
            | Some ch =>
                match json_scan_string r' with
                | Some (t, rest) => Some (String ch t, rest)
                | None => None
                end
            | None => None
            end
        | EmptyString => None
        end
      else if (nat_of_ascii c <? 32)%nat then None
      else match json_scan_string r with
           | Some (t, rest) => Some (String c t, rest)
           | None => None
           end
  end.

(** The digits of a number, most significant first. *)
Fixpoint json_scan_digits (acc : Z) (s : string) : Z * string :=
  match s with
  | String c r =>
      if is_ascii_digit c
      then json_scan_digits (10 * acc + (Z.of_nat (nat_of_ascii c) - 48)) r
      else (acc, s)
  | EmptyString => (acc, s)
  end.

(** Whether the text after the integer part goes on as a number: a
    further digit (after a leading zero), a fraction or an exponent. *)
Definition continues_number (s : string) : bool :=
  match s with
  | String c _ => is_ascii_digit c || char_in c ".eE"
  | EmptyString => false
  end.

(** The integer part [0] or [[1-9][0-9]*] of a number. *)
Definition json_scan_nat (s : string) : option (Z * string) :=
  match s with
  | String c r =>
      if Ascii.eqb c "0" then
        if continues_number r then None else Some (0, r)
      else if is_ascii_digit c then
        let '(n, rest) := json_scan_digits 0 s in
        if continues_number rest then None else Some (n, rest)
      else None
  | EmptyString => None
  end.

(** A scalar value. *)
Definition json_scan_val (s : string) : option (PyVal * string) :=
  match s with
  | String c r =>
      if Ascii.eqb c json_quote then
        match json_scan_string r with
        | Some (t, rest) => Some (PyStr t, rest)
        | None => None
        end
      else if Ascii.eqb c "-" then
        match json_scan_nat r with
        | Some (n, rest) => Some (PyInt (- n), rest)
        | None => None
        end
      else if startswith "null" s then Some (PyNone, drop_str 4 s)
      else if startswith "true" s then Some (PyBool true, drop_str 4 s)
      else if startswith "false" s then Some (PyBool false, drop_str 5 s)
      else match json_scan_nat s with
           | Some (n, rest) => Some (PyInt n, rest)
           | None => None
           end
  | EmptyString => None
  end.

(** [d[key] = value] on a [dict] in insertion order: an existing key keeps
    its place. *)
Fixpoint dict_set (d : PyDict) (key : string) (value : PyVal) : PyDict :=
  match d with
  | [] => [(key, value)]
  | (k, v) :: rest =>
      if String.eqb k key then (k, value) :: rest
      else (k, v) :: dict_set rest key value
  end.

(** The members of an object, from the first key on; [acc] is the [dict]
    built so far. *)
Fixpoint json_scan_members (fuel : nat) (s : string) (acc : PyDict)
  : option (PyDict * string) :=
  match fuel with
  | O => None
  | S fuel' =>
      match s with
      | String c r =>
          if Ascii.eqb c json_quote then
            match json_scan_string r with
            | Some (key, rest) =>
                match skip_ws rest with
                | String ":" rest1 =>
                    match json_scan_val (skip_ws rest1) with
                    | Some (v, rest2) =>
                        let acc := dict_set acc key v in
                        match skip_ws rest2 with
                        | String "," rest3 => json_scan_members fuel' (skip_ws rest3) acc
                        | String "}" rest3 => Some (acc, rest3)
                        | _ => None
                        end
                    | None => None
                    end
                | _ => None
                end
            | None => None
            end
          else None
      | EmptyString => None
      end
  end.

(** An object. *)
Definition json_scan_object (fuel : nat) (s : string) : option (PyDict * string) :=
  match s with
  | String "{" r =>
      match skip_ws r with
      | String "}" rest => Some ([], rest)
      | r' => json_scan_members fuel r' []
      end
  | _ => None
  end.

(** The items of an array, from the first one on. *)
Fixpoint json_scan_items (fuel : nat) (s : string) (acc : list PyDict)
  : option (list PyDict * string) :=
  match fuel with
  | O => None
  | S fuel' =>
      match json_scan_object fuel' s with
      | Some (d, rest) =>
          let acc := (acc ++ [d])%list in
          match skip_ws rest with
          | String "," rest1 => json_scan_items fuel' (skip_ws rest1) acc
          | String "]" rest1 => Some (acc, rest1)
          | _ => None
          end
      | None => None
      end
  end.

(** [json.loads(text)]; [None] stands for [JSONDecodeError]. *)
Definition json_loads (text : string) : option (list PyDict) :=
  let fuel := S (String.length text) in
  match skip_ws text with
  | String "[" r =>
      match (match skip_ws r with
             | String "]" rest => Some ([], rest)
             | r' => json_scan_items fuel r' []
             end) with
      | Some (items, rest) =>
          match skip_ws rest with
          | EmptyString => Some items
          | _ => None
          end
      | None => None
      end
  | _ => None
  end.


(** ** outputs/exporters.py *)

(** A [pathlib.Path] is the list of its components below the root; the
    file system has directories and text files. *)
Record FileSystem : Type := mkFS {
  fs_dirs : gset (list string);
  fs_files : gmap (list string) string
}.

(** [path.parent] *)
Definition path_parent (path : list string) : list string := removelast path.

Definition is_dir (fs : FileSystem) (path : list string) : bool :=
  bool_decide (path = [] \/ path ∈ fs_dirs fs).

Definition is_file (fs : FileSystem) (path : list string) : bool :=
  bool_decide (is_Some (fs_files fs !! path)).

(** [path.exists()] *)
Definition path_exists (fs : FileSystem) (path : list string) : bool :=
  is_dir fs path || is_file fs path.

(** [path.mkdir(parents=True, exist_ok=True)]: [todo] are the components
    still to descend into, [done] the directory reached.  A component
    that exists as a file makes it raise. *)
Fixpoint mkdir_parents (fs : FileSystem) (done todo : list string) : exc FileSystem :=
  match todo with
  | [] => Ok fs
  | c :: rest =>
      let here := (done ++ [c])%list in
      if is_file fs here then Raise OSError
      else mkdir_parents (mkFS ({[here]} ∪ fs_dirs fs) (fs_files fs)) here rest
  end.

(** [_ensure_parent_dir(path)] *)
Definition _ensure_parent_dir (path : list string) (fs : FileSystem) : exc FileSystem :=
  if negb (path_exists fs (path_parent path))
  then mkdir_parents fs [] (path_parent path)
  else Ok fs.

(** [with path.open("w", encoding="utf-8") as f: f.write(text)]: the file
    is replaced; opening fails on a directory or below something that is
    no directory. *)
Definition write_text (path : list string) (text : string) (fs : FileSystem)
  : exc FileSystem :=
  if is_dir fs path then Raise OSError
  else if negb (is_dir fs (path_parent path)) then Raise OSError
  else Ok (mkFS (fs_dirs fs) (<[path := text]> (fs_files fs))).

(** [export_to_json(articles, output_path, pretty)]; [articles] is a list
    already, so [list(articles)] has nothing to convert.  On the records
    modelled here (scalars, text of code points below 256) the encoder
    cannot fail; what [json.dump] raises on other values is outside the
    model, so the effects of an export are stated for an export that
    returned. *)
Definition export_to_json (articles : list PyDict) (output_path : list string)
           (pretty : bool) (fs : FileSystem) : exc FileSystem :=
  let* fs1 := _ensure_parent_dir output_path fs in
  write_text output_path (json_dumps pretty articles) fs1.

(** Reading the file back: [json.load(path.open())]. *)
Definition json_load (path : list string) (fs : FileSystem) : option (list PyDict) :=
  match fs_files fs !! path with
  | Some text => json_loads text
  | None => None
  end.

(** ** Notions the statements below use *)

(** An argument of [build_time_range] that selects nothing: missing, zero
    or negative. *)
Definition absent_or_nonpositive (v : option Z) : Prop :=
  v = None \/ exists n, v = Some n /\ n <= 0.

Section DateFilterContract.

Variable date_parser_parse : string -> exc PyDatetime.

(** The post-filter's contract for one record: a record without a
    [publishedAt] value is kept, a record whose [publishedAt] cannot be
    read as an instant is kept, any other record is kept when its instant
    is not before the cutoff. *)
Definition retained_since (since : Z) (art : PyDict) : bool :=
  let v := dict_get art "publishedAt" in
  if truthy v then
    match parse_published_utc date_parser_parse v with
    | Ok d => since <=? wall d
    | Raise _ => true
    end
  else true.

(** The events one record causes. *)
Definition events_of (art : PyDict) : list FilterEvent :=
  let v := dict_get art "publishedAt" in
  if truthy v then
    match parse_published_utc date_parser_parse v with
    | Ok _ => [EvParse (py_str v)]
    | Raise _ => [EvParse (py_str v); EvLogParseFailure v]
    end
  else [].

End DateFilterContract.

(** A stand-in for the date parser in examples: it reads a decimal count of
    microseconds as a naive timestamp and rejects anything else. *)
Definition micros_parser (text : string) : exc PyDatetime :=
  match int_of_str text with
  | Some n => Ok (mkDatetime n None)
  | None => Raise ValueError
  end.

(** Records for the examples of the post-filter, with the cutoff at
    instant 100: no timestamp, an empty one, an unreadable one, one just
    before the cutoff and one exactly at it. *)
Definition record_without_date : PyDict :=
  [("title", PyStr "a"); ("publishedAt", PyNone)].
Definition record_empty_date : PyDict :=
  [("title", PyStr "b"); ("publishedAt", PyStr "")].
Definition record_unreadable_date : PyDict :=
  [("title", PyStr "c"); ("publishedAt", PyStr "not-a-date")].
Definition record_before_cutoff : PyDict :=
  [("title", PyStr "d"); ("publishedAt", PyStr "99")].
Definition record_at_cutoff : PyDict :=
  [("title", PyStr "e"); ("publishedAt", PyStr "100")].
Definition sample_records : list PyDict :=
  [record_without_date; record_before_cutoff; record_empty_date;
   record_at_cutoff; record_unreadable_date].

(** ** Notions and sample data for the scraper's properties *)

(** The URL [search] keeps for a card: what [_extract_raw_article_url]
    returns, when that is a non-empty string. *)
Definition resolvable_url (bracketed_netloc_ok : string -> bool) (card : Tag)
  : option string :=
  match _extract_raw_article_url bracketed_netloc_ok card with
  | Ok (Some u) => if str_nonempty u then Some u else None
  | Ok None => None
  | Raise _ => None
  end.

(** The number of records [search] collects before it stops, given the
    number already collected: it checks the limit after each append. *)
Definition records_to_collect (max_items : Z) (collected : nat) : nat :=
  Z.to_nat (Z.max 1 (max_items - Z.of_nat collected)).

Section DecodeStep.

Variable World : Type.
Variable session_head : string -> World -> exc Response * World.
Variable session_get : string -> World -> exc Response * World.
Variable time_sleep : World -> World.
Variable self : GoogleNewsScraper.

(** What [search] does for a card with a URL before it builds the
    record: resolution of the link (if enabled) followed by the pause.
    It gives the resolved URL, or absent, and the world afterwards. *)
Definition decode_step (raw_url : string) (w : World) : option string * World :=
  if decode_articles self
  then match _resolve_redirect World session_head session_get raw_url w with
       | (Ok r, w1) => (r, time_sleep w1)
       | (Raise _, w1) => (None, time_sleep w1)
       end
  else (None, w).

End DecodeStep.

(** A world for examples: it counts the network round trips.  Offline,
    every request fails; online, every link answers directly with status
    200 and no redirect. *)
Definition offline_head (url : string) (w : nat) : exc Response * nat :=
  (Raise (RequestException DNSFailure), S w).
Definition offline_get (url : string) (w : nat) : exc Response * nat :=
  (Raise (RequestException ConnectTimeout), S w).
Definition direct_head (url : string) (w : nat) : exc Response * nat :=
  (Ok (mkResponse url 200 false [] ""), S w).
Definition page_get (url : string) (w : nat) : exc Response * nat :=
  (Ok (mkResponse url 200 false [] "<html>"), S w).

(** An HTTP client that reports the URL it requested in normalised form,
    here with the empty path written out as a slash; the answer is a
    plain 200 without any redirect. *)
Definition normalising_head (url : string) (w : nat) : exc Response * nat :=
  (Ok (mkResponse (url ++ "/") 200 false [] ""), S w).

(** A card with three images: 100 by 100, 10 by 10, and one without
    dimensions. *)
Definition img_large : Tag :=
  mkTag "img" {[ "width" := "100"; "height" := "100"; "src" := "https://example.com/large.png" ]} [].
Definition img_icon : Tag :=
  mkTag "img" {[ "width" := "10"; "height" := "10"; "src" := "https://example.com/icon.png" ]} [].
Definition img_unsized : Tag :=
  mkTag "img" {[ "src" := "https://example.com/unsized.png" ]} [].
Definition card_three_images : Tag :=
  mkTag "article" ∅
        [Element img_large;
         Element (mkTag "div" ∅ [Element img_icon; NavigableString "text"]);
         Element img_unsized].









(** Cards for the examples of the raw-URL rule. *)
Definition link_to (href text : string) : Tag :=
  mkTag "a" {[ "href" := href ]} [NavigableString text].
Definition card_with_link (href : string) : Tag :=
  mkTag "article" ∅ [Element (mkTag "h3" ∅ [Element (link_to href "Title")])].
Definition card_without_link : Tag :=
  mkTag "article" ∅
        [Element (mkTag "a" ∅ [NavigableString "no target"]);
         Element (mkTag "span" ∅ [NavigableString "Source"])].

(** Pages for the examples of [search]: one card; ten cards with links, a
    card without a link after the first of them. *)
Definition page_one_card : Tag :=
  mkTag "[document]" ∅ [Element (card_with_link "https://example.com/a")].

Definition page_ten_cards : Tag :=
  mkTag "[document]" ∅
        [Element (card_with_link "https://example.com/0");
         Element card_without_link;
         Element (card_with_link "https://example.com/1");
         Element (card_with_link "./articles/2");
         Element (card_with_link "https://example.com/3");
         Element (card_with_link "https://example.com/4");
         Element (card_with_link "https://example.com/5");
         Element (card_with_link "https://example.com/6");
         Element (card_with_link "https://example.com/7");
         Element (card_with_link "https://example.com/8");
         Element (card_with_link "https://example.com/9")].

(** The stand-in for [isoformat] that goes with [micros_parser]. *)
Definition micros_isoformat (d : PyDatetime) : string := str_of_int (wall d).

Definition sample_scraper : GoogleNewsScraper := mkScraper "en" "US" 10 true.

(** [search] on a fixed page, in the world that counts round trips, with
    article links that cannot be resolved. *)
Definition search_page (page : Tag) (max_items : Z) : exc (list PyDict) * nat :=
  search nat offline_head page_get S (fun _ => page) micros_parser micros_isoformat
         (fun _ => true) sample_scraper "banana" None max_items O.

(** The number a run of decimal digits denotes, after the digits read so
    far. *)
Fixpoint uint_value (d : Decimal.uint) (acc : Z) : Z :=
  match d with
  | Decimal.Nil => acc
  | Decimal.D0 l => uint_value l (10 * acc + 0)
  | Decimal.D1 l => uint_value l (10 * acc + 1)
  | Decimal.D2 l => uint_value l (10 * acc + 2)
  | Decimal.D3 l => uint_value l (10 * acc + 3)
  | Decimal.D4 l => uint_value l (10 * acc + 4)
  | Decimal.D5 l => uint_value l (10 * acc + 5)
  | Decimal.D6 l => uint_value l (10 * acc + 6)
  | Decimal.D7 l => uint_value l (10 * acc + 7)
  | Decimal.D8 l => uint_value l (10 * acc + 8)
  | Decimal.D9 l => uint_value l (10 * acc + 9)
  end.

(** The [dict] a sequence of assignments [d[key] = value] builds on top
    of [acc]. *)
Definition dict_of_pairs (pairs : list (string * PyVal)) (acc : PyDict) : PyDict :=
  fold_left (fun a kv => dict_set a (fst kv) (snd kv)) pairs acc.

(** A well-formed [dict]: no key occurs twice. *)
Definition unique_keys (d : PyDict) : Prop := List.NoDup (List.map fst d).

(** The number of items and members of a list of records. *)
Fixpoint total_size (l : list PyDict) : nat :=
  match l with
  | [] => O
  | d :: rest => (1 + List.length d + total_size rest)%nat
  end.

(** Sample data for the export: two article records, written below a
    directory that does not exist yet on an empty file system. *)
Definition sample_articles : list PyDict :=
  [to_dict (mkArticle "https://news.google.com/search?q=banana"
                      "https://news.google.com/articles/XYZ"
                      (Some "https://example.com/a")
                      (String "034" "Quoted" ++ String "034" " title \ with a backslash")
                      (Some "2024-05-01T10:00:00+00:00") None (Some "MyLondon")
                      None (Some "By A. Writer"));
   [("title", PyStr (String "010" "line")); ("rank", PyInt (-7)); ("seen", PyBool true)]].

Definition sample_path : list string := ["data"; "sample_output.json"].

Definition empty_fs : FileSystem := mkFS ∅ ∅.

Definition exported_fs : FileSystem :=
  match export_to_json sample_articles sample_path false empty_fs with
  | Ok fs => fs
  | Raise _ => empty_fs
  end.

(** ** Further notions: the page fetch and the records of a search *)

(** The records a run of [search_page] returned (none if it raised). *)
Definition records_of (run : exc (list PyDict) * nat) : list PyDict :=
  match fst run with
  | Ok records => records
  | Raise _ => []
  end.

(** A front end that answers every request with the given status. *)
Definition status_get (status : Z) (url : string) (w : nat) : exc Response * nat :=
  (Ok (mkResponse url status false [] "<html>"), S w).

(** A scraper that does not resolve article links. *)
Definition plain_scraper : GoogleNewsScraper := mkScraper "en" "US" 10 false.

(** The field names of an article record, in the order [asdict] gives. *)
Definition article_fields : list string :=
  ["googleNewsUrl"; "articleUrl"; "decodedArticleUrl"; "title"; "publishedAt";
   "imageUrl"; "source"; "sourceIconUrl"; "author"].

(** ** Further notions: extracted text *)

(** A string without white space at either end. *)
Definition trimmed (s : string) : Prop :=
  lstrip_by is_space s = s /\ rstrip_by is_space s = s.

(** The test [_extract_source] applies to the text of a [span]. *)
Definition short_label (txt : string) : bool :=
  str_nonempty txt && (List.length (split_ws txt) <=? 5)%nat.

(** Cards for the examples of the text extractors. *)
Definition card_with_byline : Tag :=
  mkTag "article" ∅
        [Element (link_to "./articles/1" "  Bananas are back ");
         Element (mkTag "span" ∅ [NavigableString "one two three four five six"]);
         Element (mkTag "span" ∅ [NavigableString "   "]);
         Element (mkTag "span" ∅ [NavigableString " MyLondon "]);
         Element (mkTag "div" ∅ [NavigableString "By Ann  Writer"])].

(** Two images of the same least area, the first of them second in the
    card. *)
Definition img_icon_twin : Tag :=
  mkTag "img" {[ "width" := "5"; "height" := "20"; "src" := "https://example.com/twin.png" ]} [].
Definition card_tied_images : Tag :=
  mkTag "article" ∅
        [Element img_large; Element img_icon; Element img_icon_twin; Element img_unsized].

(** ** Further notions: the state of the file system *)

(** A file system with a directory [data] that holds a file [old.json] and
    a directory [out]. *)
Definition used_fs : FileSystem :=
  mkFS {[ ["data"]; ["data"; "out"] ]} {[ ["data"; "old.json"] := "[]" ]}.

(** ** Further notions: the pretty form *)

(** [GoogleNewsScraper.to_pretty_json(articles)], that is
    [json.dumps(list(articles), indent=2, ensure_ascii=False)]. *)
Definition to_pretty_json (articles : list PyDict) : string :=
  json_dumps true articles.

(** The file system after the sample records were exported in the pretty
    form. *)
Definition exported_pretty_fs : FileSystem :=
  match export_to_json sample_articles sample_path true empty_fs with
  | Ok fs => fs
  | Raise _ => empty_fs
  end.

(** ** Further notions: characters of the output *)

(** A character of code 32 or more: none of the controls below the space,
    so no line feed and no carriage return. *)
Definition no_control (c : ascii) : bool := (32 <=? nat_of_ascii c)%nat.

(** The characters a URL is made of here: ASCII letters and digits, the
    marks [_.-~], the escapes [%] and [+], and the delimiters of the
    search URL [:/?&=]. *)
Definition url_char (c : ascii) : bool :=
  is_ascii_upper c || is_ascii_lower c || is_ascii_digit c
  || char_in c "_.-~%+:/?&=".

(** A link that answers HEAD with 405 and GET with 404, both at the URL
    asked for. *)
Definition head_rejected (url : string) (w : nat) : exc Response * nat :=
  (Ok (mkResponse url 405 false [] ""), S w).
Definition get_not_found (url : string) (w : nat) : exc Response * nat :=
  (Ok (mkResponse (url ++ "/gone") 404 false [] "not found"), S w).

(** ** main.py: the effective configuration *)

(** A value of the settings file as [json.load] returns it: a scalar, a
    [list], or a [dict] in insertion order. *)
#[warnings="-register-all"]
Inductive JVal : Type :=
  | JAtom (v : PyVal)
  | JList (items : list JVal)
  | JDict (members : list (string * JVal)).

Definition JObject : Type := list (string * JVal).

(** Truth value of a settings value: an empty container is false. *)
Definition jtruthy (v : JVal) : bool :=
  match v with
  | JAtom a => truthy a
  | JList [] => false
  | JList (_ :: _) => true
  | JDict [] => false
  | JDict (_ :: _) => true
  end.

(** [a or b] *)
Definition py_or (a b : JVal) : JVal := if jtruthy a then a else b.

(** An [Optional[str]] or [Optional[int]] attribute as a value. *)
Definition of_opt_str (o : option string) : JVal :=
  match o with
  | Some s => JAtom (PyStr s)
  | None => JAtom PyNone
  end.

Definition of_opt_int (o : option Z) : JVal :=
  match o with
  | Some n => JAtom (PyInt n)
  | None => JAtom PyNone
  end.

(** Lookup in a [dict] in insertion order. *)
Fixpoint members_lookup (d : JObject) (key : string) : option JVal :=
  match d with
  | [] => None
  | (k, v) :: rest => if String.eqb k key then Some v else members_lookup rest key
  end.

(** [d.get(key)] and [d.get(key, default)] *)
Definition settings_get (d : JObject) (key : string) : JVal :=
  match members_lookup d key with
  | Some v => v
  | None => JAtom PyNone
  end.

Definition settings_get_default (d : JObject) (key : string) (default : JVal) : JVal :=
  match members_lookup d key with
  | Some v => v
  | None => default
  end.

(** [d[key] = value] on a [dict]: an existing key keeps its place. *)
Fixpoint members_set (d : JObject) (key : string) (value : JVal) : JObject :=
  match d with
  | [] => [(key, value)]
  | (k, v) :: rest =>
      if String.eqb k key then (k, value) :: rest
      else (k, v) :: members_set rest key value
  end.

(** [obj[key] = value] with a [str] key on any value: only a [dict] takes
    it; a [list] wants an integer index and a scalar supports no item
    assignment, both [TypeError]. *)
Definition setitem (obj : JVal) (key : string) (value : JVal) : exc JVal :=
  match obj with
  | JDict d => Ok (JDict (members_set d key value))
  | JList _ => Raise TypeError
  | JAtom _ => Raise TypeError
  end.

(** [x == key] for a [str] [key]: only an equal [str] is equal. *)
Definition is_str (key : string) (x : JVal) : bool :=
  match x with
  | JAtom (PyStr s) => String.eqb s key
  | _ => false
  end.

(** [key in obj] with a [str] key: a key of a [dict], an element of a
    [list], a substring of a [str]; [None], a [bool] and an [int] are not
    iterable. *)
Definition py_in (key : string) (obj : JVal) : exc bool :=
  match obj with
  | JDict d => Ok (match members_lookup d key with Some _ => true | None => false end)
  | JList l => Ok (existsb (is_str key) l)
  | JAtom (PyStr s) => Ok (contains key s)
  | JAtom _ => Raise TypeError
  end.

(** The [argparse.Namespace] of [parse_args]: an option that was not given
    is [None], a flag that was not given is [False]. *)
Record Namespace : Type := mkNamespace {
  args_query : option string;
  args_language : option string;
  args_region : option string;
  args_max_items : option Z;
  args_hours : option Z;
  args_days : option Z;
  args_years : option Z;
  args_config : option string;
  args_output : option string;
  args_timeout : option Z;
  args_no_decode : bool;
  args_verbose : bool
}.

(** [if v is not None: obj[key] = v] *)
Definition set_if_given (obj : JVal) (key : string) (v : option Z) : exc JVal :=
  match v with
  | Some n => setitem obj key (JAtom (PyInt n))
  | None => Ok obj
  end.

(** [if key not in obj: obj[key] = value] *)
Definition set_default (obj : JVal) (key : string) (value : JVal) : exc JVal :=
  let* present := py_in key obj in
  if negb present then setitem obj key value else Ok obj.

(** [merge_cli_with_settings(args, settings)], for [settings] a [dict].
    The sections [relative_time], [output] and [network] are updated in
    place in the source; the function returns the updated sections in
    [result] and [settings] is not read again by the caller. *)
Definition merge_cli_with_settings (args : Namespace) (settings : JObject)
  : exc JObject :=
  let result : JObject := [] in
  let result :=
    members_set result "query"
      (py_or (py_or (of_opt_str (args_query args)) (settings_get settings "query"))
             (JAtom (PyStr "banana"))) in
  let result :=
    members_set result "language"
      (py_or (py_or (of_opt_str (args_language args)) (settings_get settings "language"))
             (JAtom (PyStr "en"))) in
  let result :=
    members_set result "region"
      (py_or (py_or (of_opt_str (args_region args)) (settings_get settings "region"))
             (JAtom (PyStr "US"))) in
  let result :=
    members_set result "max_items"
      (py_or (py_or (of_opt_int (args_max_items args)) (settings_get settings "max_items"))
             (JAtom (PyInt 50))) in
  let time_cfg := settings_get_default settings "relative_time" (JDict []) in
  let* time_cfg := set_if_given time_cfg "hours" (args_hours args) in
  let* time_cfg := set_if_given time_cfg "days" (args_days args) in
  let* time_cfg := set_if_given time_cfg "years" (args_years args) in
  let result := members_set result "relative_time" time_cfg in
  let out_cfg := settings_get_default settings "output" (JDict []) in
  let* out_cfg :=
    if jtruthy (of_opt_str (args_output args))
    then setitem out_cfg "path" (of_opt_str (args_output args))
    else Ok out_cfg in
  let* out_cfg := set_default out_cfg "format" (JAtom (PyStr "json")) in
  let* out_cfg := set_default out_cfg "pretty" (JAtom (PyBool true)) in
  let result := members_set result "output" out_cfg in
  let net_cfg := settings_get_default settings "network" (JDict []) in
  let* net_cfg := set_if_given net_cfg "timeout" (args_timeout args) in
  let result := members_set result "network" net_cfg in
  let result :=
    if args_no_decode args
    then members_set result "decode_articles" (JAtom (PyBool false))
    else members_set result "decode_articles"
           (settings_get_default settings "decode_articles" (JAtom (PyBool true))) in
  Ok result.

(** A section of the settings is well formed when it is a [dict]. *)
Definition is_dict (v : JVal) : bool :=
  match v with
  | JDict _ => true
  | _ => false
  end.

(** The sections [merge_cli_with_settings] updates are [dict]s where the
    settings have them. *)
Definition sections_are_dicts (settings : JObject) : Prop :=
  forall key v,
    key = "relative_time" \/ key = "output" \/ key = "network" ->
    members_lookup settings key = Some v -> is_dict v = true.

(** [--days 3 --max-items 0 --no-decode] *)
Definition sample_args : Namespace :=
  mkNamespace None None None (Some 0) None (Some 3) None None None None true false.

(** A settings file that asks for the last five hours and gives the
    output a path. *)
Definition sample_settings : JObject :=
  [("query", JAtom (PyStr "apple"));
   ("max_items", JAtom (PyInt 20));
   ("relative_time", JDict [("hours", JAtom (PyInt 5))]);
   ("output", JDict [("path", JAtom (PyStr "out/news.json"))]);
   ("decode_articles", JAtom (PyBool true))].

(** A settings file whose output section is [null]. *)
Definition settings_null_output : JObject :=
  [("query", JAtom (PyStr "apple")); ("output", JAtom PyNone)].

(** The members of a section of the settings; none when the section is
    missing. *)
Definition section_members (settings : JObject) (key : string) : JObject :=
  match members_lookup settings key with
  | Some (JDict d) => d
  | _ => []
  end.

(** The value of an integer option after the merge: the one of the command
    line when it was given, else the one of the settings. *)
Definition cli_or_settings (cli : option Z) (configured : option JVal) : option JVal :=
  match cli with
  | Some n => Some (JAtom (PyInt n))
  | None => configured
  end.

(** The value of a key with a default: the configured one when the key is
    there. *)
Definition configured_or (configured : option JVal) (default : JVal) : option JVal :=
  match configured with
  | Some v => Some v
  | None => Some default
  end.

(** [--output out.json --hours 2] *)
Definition args_output_given : Namespace :=
  mkNamespace None None None None (Some 2) None None None (Some "out.json") None
              false false.

(** A card whose [time] element has no [datetime] attribute and a text no
    parser reads. *)
Definition card_with_time : Tag :=
  mkTag "article" ∅
        [Element (link_to "./articles/1" "Bananas are back");
         Element (mkTag "time" ∅ [NavigableString "  a while ago "])].

(** ** Further notions: the value a cutoff is computed from *)

(** The value [parse_since_from_relative_config] converts, with the length
    of its unit in microseconds: the first truthy one of [hours], [days]
    and [years], a year counting 365 days. *)
Definition selected_value (cfg : gmap string PyVal) : option (PyVal * Z) :=
  if truthy (cfg_get cfg "hours") then Some (cfg_get cfg "hours", MICROS_PER_HOUR)
  else if truthy (cfg_get cfg "days") then Some (cfg_get cfg "days", MICROS_PER_DAY)
  else if truthy (cfg_get cfg "years")
       then Some (cfg_get cfg "years", 365 * MICROS_PER_DAY)
  else None.

(** A span of [us] microseconds is one a [timedelta] can hold, and the
    instant that far before [now] is one a [datetime] can hold. *)
Definition cutoff_in_range (now us : Z) : bool :=
  (- MAX_DELTA_DAYS <=? us / MICROS_PER_DAY) && (us / MICROS_PER_DAY <=? MAX_DELTA_DAYS)
  && datetime_in_range (now - us).

(** * Properties *)

(** ** Time window *)

Lemma is_positive_false_iff (v : option Z) :
  is_positive v = false <-> absent_or_nonpositive v.
Proof.
  unfold absent_or_nonpositive. destruct v as [n|]; simpl.
  - rewrite Z.ltb_ge. split.
    + intros H. right. exists n. split; [reflexivity | exact H].
    + intros [H | [m [Hm Hle]]]; [discriminate | congruence].
  - split; [intros _; left; reflexivity | reflexivity].
Qed.

Lemma is_positive_true_iff (v : option Z) :
  is_positive v = true <-> exists n, v = Some n /\ 0 < n.
Proof.
  destruct v as [n|]; simpl.
  - rewrite Z.ltb_lt. split.
    + intros H. exists n. split; [reflexivity | exact H].
    + intros [m [Hm Hlt]]. congruence.
  - split; [discriminate | intros [m [Hm _]]; discriminate].
Qed.

(** C5: [build_time_range] returns the window token of the first positive
    argument in the priority order hours, days, years: the number followed
    by the unit letter of the argument that wins ([h], [d] or [y]); an
    argument that is missing or not positive falls through to the next one,
    and when none is positive the result is absent.  With [hours=2] and
    [days=5] the token is ["2h"]. *)
Theorem build_time_range_priority (hours days years : option Z) :
  (forall h, hours = Some h -> 0 < h ->
     build_time_range hours days years = Some (str_of_int h ++ "h"))
  /\ (forall d, absent_or_nonpositive hours -> days = Some d -> 0 < d ->
        build_time_range hours days years = Some (str_of_int d ++ "d"))
  /\ (forall y, absent_or_nonpositive hours -> absent_or_nonpositive days ->
        years = Some y -> 0 < y ->
        build_time_range hours days years = Some (str_of_int y ++ "y"))
  /\ (absent_or_nonpositive hours -> absent_or_nonpositive days ->
      absent_or_nonpositive years ->
      build_time_range hours days years = None)
  /\ build_time_range (Some 2) (Some 5) years = Some "2h".
Proof.
  unfold build_time_range.
  repeat split.
  - intros h -> Hh. simpl. apply Z.ltb_lt in Hh. rewrite Hh. reflexivity.
  - intros d Hh -> Hd. apply is_positive_false_iff in Hh. rewrite Hh.
    simpl. apply Z.ltb_lt in Hd. rewrite Hd. reflexivity.
  - intros y Hh Hd -> Hy.
    apply is_positive_false_iff in Hh. apply is_positive_false_iff in Hd.
    rewrite Hh, Hd. simpl. apply Z.ltb_lt in Hy. rewrite Hy. reflexivity.
  - intros Hh Hd Hy.
    apply is_positive_false_iff in Hh. apply is_positive_false_iff in Hd.
    apply is_positive_false_iff in Hy.
    rewrite Hh, Hd, Hy. reflexivity.
Qed.

Lemma build_time_range_priority_witness :
  build_time_range (Some 0) (Some 5) (Some 1) = Some "5d".
Proof.
  refine (proj1 (proj2 (build_time_range_priority (Some 0) (Some 5) (Some 1)))
                5 _ eq_refl _).
  - right. exists 0. split; [reflexivity | lia].
  - lia.
Defined.

(** The token is present exactly when some argument is positive. *)
Lemma build_time_range_none_iff (hours days years : option Z) :
  build_time_range hours days years = None <->
  absent_or_nonpositive hours /\ absent_or_nonpositive days
  /\ absent_or_nonpositive years.
Proof.
  rewrite <- !is_positive_false_iff. unfold build_time_range.
  destruct (is_positive hours), (is_positive days), (is_positive years);
    simpl; split; try discriminate; try tauto;
    intros (H1 & H2 & H3); discriminate.
Qed.

(** [parse_since_from_relative_config] on a configuration whose selected
    value is an integer: the cutoff is [now] minus the duration, when both
    the duration and the cutoff are representable. *)
Lemma parse_since_hours (now : Z) (cfg : gmap string PyVal) (h : Z) :
  cfg !! "hours" = Some (PyInt h) -> h <> 0 ->
  - MAX_DELTA_DAYS <= h * MICROS_PER_HOUR / MICROS_PER_DAY <= MAX_DELTA_DAYS ->
  datetime_in_range (now - h * MICROS_PER_HOUR) = true ->
  parse_since_from_relative_config now cfg = Ok (Some (now - h * MICROS_PER_HOUR)).
Proof.
  intros Hc Hh Hd Hr. unfold parse_since_from_relative_config, cfg_get.
  rewrite Hc. simpl.
  destruct (Z.eqb_spec h 0) as [->|_]; [congruence|]. simpl.
  unfold timedelta_hours, timedelta_of_micros.
  destruct Hd as [Hd1 Hd2].
  apply Z.leb_le in Hd1. apply Z.leb_le in Hd2. rewrite Hd1, Hd2. simpl.
  unfold datetime_sub. rewrite Hr. reflexivity.
Qed.

Lemma parse_since_days (now : Z) (cfg : gmap string PyVal) (d : Z) :
  truthy (cfg_get cfg "hours") = false ->
  cfg !! "days" = Some (PyInt d) -> d <> 0 ->
  - MAX_DELTA_DAYS <= d <= MAX_DELTA_DAYS ->
  datetime_in_range (now - d * MICROS_PER_DAY) = true ->
  parse_since_from_relative_config now cfg = Ok (Some (now - d * MICROS_PER_DAY)).
Proof.
  intros Hh Hc Hd Hb Hr. unfold parse_since_from_relative_config.
  rewrite Hh.
  assert (Hv : cfg_get cfg "days" = PyInt d) by (unfold cfg_get; rewrite Hc; reflexivity).
  rewrite Hv. cbn [truthy].
  destruct (Z.eqb_spec d 0) as [->|_]; [congruence|].
  cbn [negb py_int exc_bind].
  unfold timedelta_days, timedelta_of_micros.
  rewrite Z.div_mul by (vm_compute; discriminate).
  destruct Hb as [Hb1 Hb2].
  apply Z.leb_le in Hb1. apply Z.leb_le in Hb2. rewrite Hb1, Hb2.
  cbn [andb exc_bind]. unfold datetime_sub. rewrite Hr. reflexivity.
Qed.

(** A year counts as 365 days. *)
Lemma parse_since_years (now : Z) (cfg : gmap string PyVal) (y : Z) :
  truthy (cfg_get cfg "hours") = false ->
  truthy (cfg_get cfg "days") = false ->
  cfg !! "years" = Some (PyInt y) -> y <> 0 ->
  - MAX_DELTA_DAYS <= y * 365 <= MAX_DELTA_DAYS ->
  datetime_in_range (now - y * 365 * MICROS_PER_DAY) = true ->
  parse_since_from_relative_config now cfg
  = Ok (Some (now - y * 365 * MICROS_PER_DAY)).
Proof.
  intros Hh Hd Hc Hy Hb Hr. unfold parse_since_from_relative_config.
  rewrite Hh, Hd.
  assert (Hv : cfg_get cfg "years" = PyInt y) by (unfold cfg_get; rewrite Hc; reflexivity).
  rewrite Hv. cbn [truthy].
  destruct (Z.eqb_spec y 0) as [->|_]; [congruence|].
  cbn [negb py_int exc_bind].
  unfold timedelta_days, timedelta_of_micros.
  rewrite Z.div_mul by (vm_compute; discriminate).
  destruct Hb as [Hb1 Hb2].
  apply Z.leb_le in Hb1. apply Z.leb_le in Hb2. rewrite Hb1, Hb2.
  cbn [andb exc_bind]. unfold datetime_sub. rewrite Hr. reflexivity.
Qed.

(** With every value missing or falsy ([None], [0], [False], the empty
    string) there is no cutoff. *)
Lemma parse_since_all_falsy (now : Z) (cfg : gmap string PyVal) :
  truthy (cfg_get cfg "hours") = false ->
  truthy (cfg_get cfg "days") = false ->
  truthy (cfg_get cfg "years") = false ->
  parse_since_from_relative_config now cfg = Ok None.
Proof.
  intros H1 H2 H3. unfold parse_since_from_relative_config.
  rewrite H1, H2, H3. reflexivity.
Qed.

(** C2, at the failing input: a negative [hours] is not "no positive
    value given" for [parse_since_from_relative_config]: the result is
    present, a cutoff three hours after [now], while [build_time_range]
    treats the same value as absent. *)
Theorem parse_since_negative_hours_not_absent :
  parse_since_from_relative_config 63870000000000000 {[ "hours" := PyInt (-3) ]}
  = Ok (Some (63870000000000000 + 3 * MICROS_PER_HOUR))
  /\ build_time_range (Some (-3)) None None = None.
Proof. split; vm_compute; reflexivity. Qed.

(** ** Post-filter *)

Section DateFilterFacts.

Variable date_parser_parse : string -> exc PyDatetime.

Local Notation "'parse_utc'" := (parse_published_utc date_parser_parse).
Local Notation "'filter_since'" :=
  (filter_articles_by_published_at date_parser_parse).

Lemma sublist_list_filter {A : Type} (f : A -> bool) (l : list A) :
  sublist (List.filter f l) l.
Proof.
  induction l as [|x l IH]; simpl.
  - apply sublist_nil.
  - destruct (f x).
    + apply sublist_skip. exact IH.
    + apply sublist_cons. exact IH.
Qed.

(** The loop appends, in order, the records the contract retains, and the
    events each record causes. *)
Lemma filter_loop_spec (articles : list PyDict) (since : Z) :
  forall filtered log,
    filter_loop date_parser_parse articles since filtered log
    = ((filtered ++ List.filter (retained_since date_parser_parse since) articles)%list,
       (log ++ List.concat (List.map (events_of date_parser_parse) articles))%list).
Proof.
  induction articles as [|art rest IH]; intros filtered log; simpl.
  - rewrite !app_nil_r. reflexivity.
  - unfold retained_since, events_of.
    destruct (truthy (dict_get art "publishedAt")); simpl.
    + destruct (parse_utc (dict_get art "publishedAt")) as [d|e].
      * destruct (since <=? wall d); rewrite IH; simpl;
          rewrite <- ?app_assoc; reflexivity.
      * rewrite IH. simpl. rewrite <- !app_assoc. reflexivity.
    + rewrite IH. rewrite <- app_assoc. reflexivity.
Qed.

Lemma filter_since_is_filter (articles : list PyDict) (since : Z) :
  filter_since articles since
  = List.filter (retained_since date_parser_parse since) articles.
Proof.
  unfold filter_articles_by_published_at, filter_articles_by_published_at_traced.
  rewrite filter_loop_spec. reflexivity.
Qed.

Lemma normalise_naive (v : PyVal) (t : Z) :
  date_parser_parse (py_str v) = Ok (mkDatetime t None) ->
  parse_utc v = Ok (mkDatetime t (Some 0)).
Proof. intros H. unfold parse_published_utc. rewrite H. reflexivity. Qed.

Lemma normalise_aware (v : PyVal) (t offset : Z) :
  date_parser_parse (py_str v) = Ok (mkDatetime t (Some offset)) ->
  datetime_in_range (t - offset) = true ->
  parse_utc v = Ok (mkDatetime (t - offset) (Some 0)).
Proof.
  intros H Hr. unfold parse_published_utc. rewrite H. simpl.
  unfold astimezone_utc, datetime_sub. simpl. rewrite Hr. reflexivity.
Qed.

(** C3: [filter_articles_by_published_at] returns the records of the
    input that the contract retains, in their input order.  A record
    whose [publishedAt] is absent is kept; a record whose [publishedAt]
    cannot be parsed (or normalised) is kept; a record with a non-empty
    [publishedAt] that parses is kept exactly when its instant is at or
    after the cutoff, where a naive timestamp is read as UTC and an aware
    one is shifted by its offset. *)
Theorem filter_since_spec (articles : list PyDict) (since : Z) :
  filter_since articles since
  = List.filter (retained_since date_parser_parse since) articles
  /\ sublist (filter_since articles since) articles
  /\ forall art, In art articles ->
       let v := dict_get art "publishedAt" in
       (v = PyNone -> In art (filter_since articles since))
       /\ (forall e, parse_utc v = Raise e -> In art (filter_since articles since))
       /\ (forall d, truthy v = true -> parse_utc v = Ok d ->
             (In art (filter_since articles since) <-> since <= wall d))
       /\ (forall t, truthy v = true ->
             date_parser_parse (py_str v) = Ok (mkDatetime t None) ->
             (In art (filter_since articles since) <-> since <= t))
       /\ (forall t offset, truthy v = true ->
             date_parser_parse (py_str v) = Ok (mkDatetime t (Some offset)) ->
             datetime_in_range (t - offset) = true ->
             (In art (filter_since articles since) <-> since <= t - offset)).
Proof.
  pose proof (filter_since_is_filter articles since) as Heq.
  split; [exact Heq|]. split.
  - rewrite Heq. apply sublist_list_filter.
  - intros art Hin v. rewrite Heq.
    assert (Hkeep : forall d, truthy v = true -> parse_utc v = Ok d ->
               (In art (List.filter (retained_since date_parser_parse since) articles)
                <-> since <= wall d)).
    { intros d Ht Hp. rewrite filter_In. unfold retained_since.
      fold v. rewrite Ht, Hp. rewrite Z.leb_le. tauto. }
    split; [|split; [|split; [|split]]].
    + intros Hv. apply filter_In. split; [exact Hin|].
      unfold retained_since. fold v. rewrite Hv. reflexivity.
    + intros e He. apply filter_In. split; [exact Hin|].
      unfold retained_since. fold v. rewrite He.
      destruct (truthy v); reflexivity.
    + exact Hkeep.
    + intros t Ht Hp.
      exact (Hkeep (mkDatetime t (Some 0)) Ht (normalise_naive v t Hp)).
    + intros t offset Ht Hp Hr.
      exact (Hkeep (mkDatetime (t - offset) (Some 0)) Ht
                   (normalise_aware v t offset Hp Hr)).
Qed.

(** The parser is called once for each record with a non-empty
    [publishedAt], in order, and never for the others. *)
Lemma filter_trace_spec (articles : list PyDict) (since : Z) :
  snd (filter_articles_by_published_at_traced date_parser_parse articles since)
  = List.concat (List.map (events_of date_parser_parse) articles).
Proof.
  unfold filter_articles_by_published_at_traced.
  rewrite filter_loop_spec. reflexivity.
Qed.

(** C9: a record whose [publishedAt] is falsy (missing, [None], the empty
    string, [0], [False]) is retained without more ado: the loop appends it
    and goes on with the same log, so no parse is attempted and the cutoff
    is not looked at; filtering the record alone returns it with an empty
    trace, whatever the parser and the cutoff are. *)
Theorem falsy_published_at_retained (articles : list PyDict) (since : Z)
        (art : PyDict) :
  truthy (dict_get art "publishedAt") = false ->
  (forall rest filtered log,
      filter_loop date_parser_parse (art :: rest) since filtered log
      = filter_loop date_parser_parse rest since (filtered ++ [art])%list log)
  /\ filter_articles_by_published_at_traced date_parser_parse [art] since
     = ([art], [])
  /\ (In art articles -> In art (filter_since articles since)).
Proof.
  intros Hf. split; [|split].
  - intros rest filtered log. simpl. rewrite Hf. reflexivity.
  - unfold filter_articles_by_published_at_traced. simpl. rewrite Hf. reflexivity.
  - intros Hin. rewrite filter_since_is_filter. apply filter_In.
    split; [exact Hin|]. unfold retained_since. rewrite Hf. reflexivity.
Qed.

End DateFilterFacts.

Lemma filter_since_spec_witness :
  In record_at_cutoff
     (filter_articles_by_published_at micros_parser sample_records 100)
  /\ ~ In record_before_cutoff
       (filter_articles_by_published_at micros_parser sample_records 100).
Proof.
  destruct (filter_since_spec micros_parser sample_records 100) as (_ & _ & H).
  split.
  - assert (Hin : In record_at_cutoff sample_records) by (simpl; tauto).
    destruct (H record_at_cutoff Hin) as (_ & _ & _ & Hnaive & _).
    apply (Hnaive 100 eq_refl eq_refl). lia.
  - assert (Hin : In record_before_cutoff sample_records) by (simpl; tauto).
    destruct (H record_before_cutoff Hin) as (_ & _ & _ & Hnaive & _).
    intros Hc. apply (Hnaive 99 eq_refl eq_refl) in Hc. lia.
Defined.

Lemma falsy_published_at_retained_witness :
  In record_empty_date
     (filter_articles_by_published_at micros_parser sample_records 100)
  /\ filter_articles_by_published_at_traced micros_parser [record_empty_date] 100
     = ([record_empty_date], []).
Proof.
  destruct (falsy_published_at_retained micros_parser sample_records 100
              record_empty_date eq_refl) as (_ & Hone & Hin).
  split; [apply Hin; simpl; tauto | exact Hone].
Defined.

(** The examples of the contract: the filter keeps the record without a
    timestamp, the one with an unreadable timestamp and the one at the
    cutoff, and drops the one just before it. *)
Example filter_since_examples :
  filter_articles_by_published_at micros_parser sample_records 100
  = [record_without_date; record_empty_date; record_at_cutoff;
     record_unreadable_date].
Proof. vm_compute. reflexivity. Qed.

(** ** Redirect resolver *)

Section ResolverFacts.

Variable World : Type.
Variable session_head : string -> World -> exc Response * World.
Variable session_get : string -> World -> exc Response * World.

Local Notation "'resolve'" := (_resolve_redirect World session_head session_get).

(** The resolver returns normally, whatever the requests do. *)
Lemma resolve_redirect_returns (url : string) (w : World) :
  exists r w', resolve url w = (Ok r, w').
Proof.
  unfold _resolve_redirect, try_except, resolve_redirect_body.
  destruct (session_head url w) as [[resp|e] w1].
  - destruct (is_redirect resp || negb (Nat.eqb (List.length (history resp)) 0)).
    + eauto.
    + destruct (400 <=? status_code resp).
      * destruct (session_get url w1) as [[resp2|e] w2]; eauto.
      * eauto.
  - eauto.
Qed.

Lemma resolve_redirect_head_failure (url : string) (w : World) (e : exn) (w1 : World) :
  session_head url w = (Raise e, w1) -> resolve url w = (Ok None, w1).
Proof.
  unfold _resolve_redirect, try_except, resolve_redirect_body.
  intros ->. reflexivity.
Qed.

Lemma resolve_redirect_get_failure (url : string) (w : World)
      (resp : Response) (w1 : World) (e : exn) (w2 : World) :
  session_head url w = (Ok resp, w1) ->
  is_redirect resp = false -> history resp = [] ->
  400 <= status_code resp ->
  session_get url w1 = (Raise e, w2) ->
  resolve url w = (Ok None, w2).
Proof.
  unfold _resolve_redirect, try_except, resolve_redirect_body.
  intros -> Hr Hh Hs ->. rewrite Hr, Hh. simpl.
  apply Z.leb_le in Hs. rewrite Hs. reflexivity.
Qed.

(** C10, as amended: when the HEAD request succeeds with a status below
    400 and without any redirect (no redirect status, empty history),
    [_resolve_redirect] returns the URL that response reports, not
    absent, and makes no second request.  The resolved URL is the
    article URL exactly when the response reports the URL as it was
    requested. *)
Theorem resolve_redirect_direct_link (url : string) (w : World)
        (resp : Response) (w1 : World) :
  session_head url w = (Ok resp, w1) ->
  is_redirect resp = false -> history resp = [] ->
  status_code resp < 400 ->
  resolve url w = (Ok (Some (resp_url resp)), w1)
  /\ fst (resolve url w) <> Ok None
  /\ (fst (resolve url w) = Ok (Some url) <-> resp_url resp = url).
Proof.
  intros Hh Hr Hi Hs.
  assert (H : resolve url w = (Ok (Some (resp_url resp)), w1)).
  { unfold _resolve_redirect, try_except, resolve_redirect_body.
    rewrite Hh, Hr, Hi. simpl.
    apply Z.leb_gt in Hs. rewrite Hs. reflexivity. }
  split; [exact H|]. rewrite H. cbn [fst].
  split; [discriminate|]. split.
  - intros E. injection E as E. exact E.
  - intros ->. reflexivity.
Qed.

(** When a redirect happened the terminal URL is returned. *)
Lemma resolve_redirect_redirected (url : string) (w : World)
      (resp : Response) (w1 : World) :
  session_head url w = (Ok resp, w1) ->
  is_redirect resp = true \/ history resp <> [] ->
  resolve url w = (Ok (Some (resp_url resp)), w1).
Proof.
  intros Hh Hr.
  unfold _resolve_redirect, try_except, resolve_redirect_body. rewrite Hh.
  destruct Hr as [-> | Hr]; [reflexivity|].
  destruct (history resp); [congruence|].
  rewrite orb_true_r. reflexivity.
Qed.

End ResolverFacts.

Lemma resolve_redirect_direct_link_witness :
  _resolve_redirect nat direct_head offline_get "https://example.com/a" O
  = (Ok (Some "https://example.com/a"), 1%nat).
Proof.
  refine (proj1 (resolve_redirect_direct_link nat direct_head offline_get
                   "https://example.com/a" O
                   (mkResponse "https://example.com/a" 200 false [] "") 1%nat
                   eq_refl eq_refl eq_refl _)).
  simpl. lia.
Defined.

(** C10 as first worded, refuted: the resolved URL of a link that answers
    directly need not equal the article URL.  An HTTP client reports the
    URL of the request in normalised form; asked for
    ["https://example.com"], it answers 200 without any redirect and
    reports ["https://example.com/"], and that is what the resolver
    returns. *)
Lemma resolve_redirect_direct_link_counterexample :
  normalising_head "https://example.com" O
  = (Ok (mkResponse "https://example.com/" 200 false [] ""), 1%nat)
  /\ _resolve_redirect nat normalising_head offline_get "https://example.com" O
     = (Ok (Some "https://example.com/"), 1%nat)
  /\ fst (_resolve_redirect nat normalising_head offline_get "https://example.com" O)
     <> Ok (Some "https://example.com").
Proof.
  split; [reflexivity|]. split; [reflexivity|].
  vm_compute. discriminate.
Qed.

(** ** Field extractors *)

(** The area of an image is defined exactly when both its [width] and its
    [height] attribute are there and read as integers. *)
Lemma image_area_ok_iff (img : Tag) (a : Z) :
  image_area img = Ok a <->
  exists w h, int_of_attr (tag_get img "width") = Ok w
              /\ int_of_attr (tag_get img "height") = Ok h
              /\ a = w * h.
Proof.
  unfold image_area.
  destruct (int_of_attr (tag_get img "width")) as [w|e]; simpl.
  - destruct (int_of_attr (tag_get img "height")) as [h|e]; simpl.
    + split.
      * intros [= <-]. exists w, h. auto.
      * intros (w' & h' & [= <-] & [= <-] & ->). reflexivity.
    + split; [discriminate|]. intros (w' & h' & _ & H & _). discriminate.
  - split; [discriminate|]. intros (w' & h' & H & _). discriminate.
Qed.

(** The loop keeps a sized image of least area among the start value and
    the images it has seen. *)
Lemma smallest_image_spec (imgs : list Tag) :
  forall start,
    match smallest_image imgs start with
    | None =>
        start = None /\ forall img a, In img imgs -> image_area img <> Ok a
    | Some (img, area) =>
        (start = Some (img, area) \/ (In img imgs /\ image_area img = Ok area))
        /\ (forall img' a', In img' imgs -> image_area img' = Ok a' -> area <= a')
        /\ (forall img0 a0, start = Some (img0, a0) -> area <= a0)
    end.
Proof.
  induction imgs as [|img rest IH]; intros start; simpl.
  - destruct start as [[i a]|].
    + split; [left; reflexivity|]. split.
      * intros img' a' [].
      * intros img0 a0 [= <- <-]. lia.
    + split; [reflexivity|]. intros img a [].
  - destruct (image_area img) as [area|e] eqn:Harea.
    + destruct start as [[i0 a0]|].
      * destruct (Z.ltb_spec area a0) as [Hlt|Hge].
        -- specialize (IH (Some (img, area))).
           destruct (smallest_image rest (Some (img, area))) as [[i a]|].
           ++ destruct IH as (Hsrc & Hmin & Hstart).
              specialize (Hstart img area eq_refl).
              split; [|split].
              ** destruct Hsrc as [[= <- <-] | [Hin Ha]]; right; auto.
              ** intros img' a' [<- | Hin] Ha'; [|eauto].
                 rewrite Harea in Ha'. injection Ha' as <-. exact Hstart.
              ** intros img0 a1 [= <- <-]. lia.
           ++ destruct IH as [Hc _]. discriminate.
        -- specialize (IH (Some (i0, a0))).
           destruct (smallest_image rest (Some (i0, a0))) as [[i a]|].
           ++ destruct IH as (Hsrc & Hmin & Hstart).
              specialize (Hstart i0 a0 eq_refl).
              split; [|split].
              ** destruct Hsrc as [Hs | [Hin Ha]]; [left; exact Hs | right; auto].
              ** intros img' a' [<- | Hin] Ha'; [|eauto].
                 rewrite Harea in Ha'. injection Ha' as <-. lia.
              ** intros img0 a1 [= <- <-]. exact Hstart.
           ++ destruct IH as [Hc _]. discriminate.
      * specialize (IH (Some (img, area))).
        destruct (smallest_image rest (Some (img, area))) as [[i a]|].
        -- destruct IH as (Hsrc & Hmin & Hstart).
           specialize (Hstart img area eq_refl).
           split; [|split].
           ++ destruct Hsrc as [[= <- <-] | [Hin Ha]]; right; auto.
           ++ intros img' a' [<- | Hin] Ha'; [|eauto].
              rewrite Harea in Ha'. injection Ha' as <-. exact Hstart.
           ++ intros img0 a0 Hc. discriminate.
        -- destruct IH as [Hc _]. discriminate.
    + specialize (IH start).
      destruct (smallest_image rest start) as [[i a]|].
      * destruct IH as (Hsrc & Hmin & Hstart).
        split; [|split].
        -- destruct Hsrc as [Hs | [Hin Ha]]; [left; exact Hs | right; auto].
        -- intros img' a' [<- | Hin] Ha'; [|eauto].
           rewrite Harea in Ha'. discriminate.
        -- exact Hstart.
      * destruct IH as [Hs Hnone]. split; [exact Hs|].
        intros img' a' [<- | Hin]; [rewrite Harea; discriminate | eauto].
Qed.

(** C6: [_extract_source_icon] looks at the images of the card whose
    [width] and [height] both read as integers.  When there is none the
    result is absent; otherwise it is the [src] (or, failing that, the
    [data-src]) of one of them whose area [width * height] is least.  For
    a card with images of 100 by 100, 10 by 10 and no dimensions, it is the
    source of the 10 by 10 image. *)
Theorem source_icon_smallest_area (article : Tag) :
  ((forall img a, In img (find_all "img" article) -> image_area img <> Ok a) ->
   _extract_source_icon article = None)
  /\ ((exists img a, In img (find_all "img" article) /\ image_area img = Ok a) ->
      exists img area,
        In img (find_all "img" article)
        /\ (exists w h, int_of_attr (tag_get img "width") = Ok w
                        /\ int_of_attr (tag_get img "height") = Ok h
                        /\ area = w * h)
        /\ (forall img' a', In img' (find_all "img" article) ->
                            image_area img' = Ok a' -> area <= a')
        /\ _extract_source_icon article
           = or_else (tag_get img "src") (tag_get img "data-src"))
  /\ _extract_source_icon card_three_images = Some "https://example.com/icon.png".
Proof.
  split; [|split].
  - intros Hnone. unfold _extract_source_icon.
    pose proof (smallest_image_spec (find_all "img" article) None) as H.
    destruct (find_all "img" article) as [|i0 rest] eqn:Himgs; [reflexivity|].
    destruct (smallest_image (i0 :: rest) None) as [[img area]|]; [|reflexivity].
    destruct H as ([Hc | [Hin Ha]] & _); [discriminate|].
    exfalso. exact (Hnone img area Hin Ha).
  - intros (img0 & a0 & Hin0 & Ha0). unfold _extract_source_icon.
    pose proof (smallest_image_spec (find_all "img" article) None) as H.
    destruct (find_all "img" article) as [|i0 rest] eqn:Himgs; [destruct Hin0|].
    destruct (smallest_image (i0 :: rest) None) as [[img area]|].
    + destruct H as ([Hc | [Hin Ha]] & Hmin & _); [discriminate|].
      exists img, area. split; [exact Hin|]. split.
      * apply image_area_ok_iff. exact Ha.
      * split; [exact Hmin | reflexivity].
    + destruct H as [_ Hnone]. exfalso. exact (Hnone img0 a0 Hin0 Ha0).
  - vm_compute. reflexivity.
Qed.

Lemma source_icon_smallest_area_witness :
  exists img area,
    In img (find_all "img" card_three_images)
    /\ (exists w h, int_of_attr (tag_get img "width") = Ok w
                    /\ int_of_attr (tag_get img "height") = Ok h
                    /\ area = w * h)
    /\ (forall img' a', In img' (find_all "img" card_three_images) ->
                        image_area img' = Ok a' -> area <= a')
    /\ _extract_source_icon card_three_images
       = or_else (tag_get img "src") (tag_get img "data-src").
Proof.
  apply (proj1 (proj2 (source_icon_smallest_area card_three_images))).
  exists img_icon, 100. split; [|reflexivity].
  right. left. reflexivity.
Defined.

(** *** Raw URL *)

Lemma head_filter_none {A : Type} (f : A -> bool) (l : list A) :
  List.head (List.filter f l) = None <-> forall x, In x l -> f x = false.
Proof.
  induction l as [|a l IH]; simpl.
  - split; [intros _ x [] | reflexivity].
  - destruct (f a) eqn:Hfa; simpl.
    + split; [discriminate|]. intros H. specialize (H a (or_introl eq_refl)). congruence.
    + rewrite IH. split.
      * intros H x [<- | Hin]; auto.
      * intros H x Hin. apply H. right. exact Hin.
Qed.

Lemma head_filter_some {A : Type} (f : A -> bool) (l : list A) (x : A) :
  List.head (List.filter f l) = Some x <->
  exists before after,
    l = (before ++ x :: after)%list /\ (forall y, In y before -> f y = false)
    /\ f x = true.
Proof.
  induction l as [|a l IH]; simpl.
  - split; [discriminate|]. intros (b & c & H & _). destruct b; discriminate.
  - destruct (f a) eqn:Hfa; simpl.
    + split.
      * intros [= <-]. exists [], l. split; [reflexivity|]. split; [intros y []|exact Hfa].
      * intros (b & c & H & Hb & Hx). destruct b as [|b0 b].
        -- injection H as <- _. reflexivity.
        -- injection H as <- _. specialize (Hb a (or_introl eq_refl)). congruence.
    + rewrite IH. split.
      * intros (b & c & -> & Hb & Hx). exists (a :: b), c.
        split; [reflexivity|]. split; [|exact Hx].
        intros y [<- | Hin]; auto.
      * intros (b & c & H & Hb & Hx). destruct b as [|b0 b].
        -- injection H as <- _. congruence.
        -- injection H as <- ->. exists b, c. split; [reflexivity|].
           split; [|exact Hx]. intros y Hin. apply Hb. right. exact Hin.
Qed.



(** **** The join with the base origin *)

Lemma find_from_char_none (c : ascii) (s : string) :
  char_in c s = false -> forall i, find_from (String c "") s i = None.
Proof.
  induction s as [|a r IH]; simpl; intros H i.
  - reflexivity.
  - apply orb_false_iff in H. destruct H as [Ha Hr].
    rewrite Ha. simpl. apply IH. exact Hr.
Qed.

Lemma char_in_remove_char (c x : ascii) (s : string) :
  char_in c s = false -> char_in c (remove_char x s) = false.
Proof.
  induction s as [|a r IH]; simpl; intros H.
  - reflexivity.
  - apply orb_false_iff in H. destruct H as [Ha Hr].
    destruct (Ascii.eqb a x); simpl; [auto|].
    rewrite Ha. simpl. auto.
Qed.

Lemma char_in_remove_unsafe (c : ascii) (s : string) :
  char_in c s = false -> char_in c (remove_unsafe s) = false.
Proof.
  intros H. unfold remove_unsafe.
  repeat apply char_in_remove_char. exact H.
Qed.

Lemma remove_unsafe_head (c : ascii) (r : string) :
  is_c0_control_or_space c = false ->
  remove_unsafe (String c r) = String c (remove_unsafe r).
Proof.
  intros Hc. unfold remove_unsafe.
  assert (H9 : Ascii.eqb c "009" = false).
  { apply Ascii.eqb_neq. intros ->. vm_compute in Hc. discriminate. }
  assert (H13 : Ascii.eqb c "013" = false).
  { apply Ascii.eqb_neq. intros ->. vm_compute in Hc. discriminate. }
  assert (H10 : Ascii.eqb c "010" = false).
  { apply Ascii.eqb_neq. intros ->. vm_compute in Hc. discriminate. }
  simpl. rewrite H9. simpl. rewrite H13. simpl. rewrite H10. reflexivity.
Qed.



Section JoinFacts.

Variable bracketed_netloc_ok : string -> bool.

Local Notation "'join_base'" := (urljoin bracketed_netloc_ok GOOGLE_NEWS_BASE).



Lemma urlparse_base :
  urlparse bracketed_netloc_ok GOOGLE_NEWS_BASE ""
  = Ok (mkParse "https" "news.google.com" "" "" "" "").
Proof. vm_compute. reflexivity. Qed.



End JoinFacts.







(** Left out of the amended rule: [lstrip("./")] removes characters, not a
    prefix.  What is left of ["/http://example.org/x"] is an absolute URL,
    which the join returns as it is, and ["/.well-known/x"] loses the dot
    of its first segment. *)
Example raw_url_relative_prefix_before_absolute :
  _extract_raw_article_url (fun _ => true) (card_with_link "/http://example.org/x")
  = Ok (Some "http://example.org/x")
  /\ _extract_raw_article_url (fun _ => true) (card_with_link "/.well-known/x")
     = Ok (Some "https://news.google.com/well-known/x").
Proof. split; vm_compute; reflexivity. Qed.

(** A reference with a malformed bracketed host makes the join, and with it
    the extractor, raise [ValueError]. *)
Example raw_url_malformed_host_raises :
  _extract_raw_article_url (fun _ => true) (card_with_link "ftp://[example")
  = Raise ValueError.
Proof. vm_compute. reflexivity. Qed.

(** ** Search orchestrator *)

Lemma records_to_collect_last (max_items : Z) (collected : nat) :
  max_items <= Z.of_nat (S collected) ->
  records_to_collect max_items collected = 1%nat.
Proof. unfold records_to_collect. lia. Qed.

Lemma records_to_collect_more (max_items : Z) (collected : nat) :
  Z.of_nat (S collected) < max_items ->
  records_to_collect max_items collected
  = S (records_to_collect max_items (S collected)).
Proof. unfold records_to_collect. lia. Qed.

Section SearchFacts.

Variable World : Type.
Variable session_head : string -> World -> exc Response * World.
Variable session_get : string -> World -> exc Response * World.
Variable time_sleep : World -> World.
Variable BeautifulSoup : string -> Tag.
Variable date_parser_parse_fuzzy : string -> exc PyDatetime.
Variable isoformat : PyDatetime -> string.
Variable bracketed_netloc_ok : string -> bool.
Variable self : GoogleNewsScraper.

Local Notation "'loop'" :=
  (search_loop World session_head session_get time_sleep
               date_parser_parse_fuzzy isoformat bracketed_netloc_ok self).
Local Notation "'run_search'" :=
  (search World session_head session_get time_sleep BeautifulSoup
          date_parser_parse_fuzzy isoformat bracketed_netloc_ok self).
Local Notation "'url_of'" := (resolvable_url bracketed_netloc_ok).
Local Notation "'resolve_step'" :=
  (decode_step World session_head session_get time_sleep self).

Lemma decode_step_spec (raw_url : string) (w : World) :
  (if decode_articles self
   then let '(r, w1) := _resolve_redirect World session_head session_get raw_url w in
        (r, time_sleep w1)
   else (Ok None, w))
  = (Ok (fst (resolve_step raw_url w)), snd (resolve_step raw_url w)).
Proof.
  unfold decode_step. destruct (decode_articles self); [|reflexivity].
  destruct (resolve_redirect_returns World session_head session_get raw_url w)
    as (r & w' & Hr).
  rewrite Hr. reflexivity.
Qed.

(** A card without a usable URL is passed over: no record, no network
    traffic. *)
Lemma search_loop_skip (search_url : string) (max_items : Z) (card : Tag)
      (rest : list Tag) (articles : list GoogleNewsArticle) (w : World) :
  _extract_raw_article_url bracketed_netloc_ok card = Ok None ->
  loop search_url max_items (card :: rest) articles w
  = loop search_url max_items rest articles w.
Proof. intros H. simpl. rewrite H. reflexivity. Qed.

(** A card with a URL yields one record, appended; the loop stops there
    when the limit is reached and goes on otherwise. *)
Lemma search_loop_collect (search_url : string) (max_items : Z) (card : Tag)
      (rest : list Tag) (articles : list GoogleNewsArticle) (w : World)
      (raw_url : string) :
  url_of card = Some raw_url ->
  let item :=
    mkArticle search_url raw_url (fst (resolve_step raw_url w))
              (_extract_title card)
              (_extract_published_at date_parser_parse_fuzzy isoformat card)
              (_extract_image card) (_extract_source card)
              (_extract_source_icon card) (_extract_author card) in
  loop search_url max_items (card :: rest) articles w
  = if max_items <=? Z.of_nat (List.length (articles ++ [item]))
    then (Ok (articles ++ [item])%list, snd (resolve_step raw_url w))
    else loop search_url max_items rest (articles ++ [item])%list
              (snd (resolve_step raw_url w)).
Proof.
  intros H. unfold resolvable_url in H. cbv zeta. simpl.
  destruct (_extract_raw_article_url bracketed_netloc_ok card) as [[u|]|e];
    try discriminate.
  destruct (str_nonempty u) eqn:Hu; [|discriminate].
  injection H as ->. simpl.
  rewrite decode_step_spec. reflexivity.
Qed.

(** The URLs of the records collected are the URLs of the first cards, in
    document order, that have one; their number is capped by the limit,
    or by one when the limit is below one. *)
Lemma search_loop_urls (search_url : string) (max_items : Z) (tags : list Tag) :
  forall articles w result w',
    loop search_url max_items tags articles w = (Ok result, w') ->
    List.map articleUrl result
    = (List.map articleUrl articles
       ++ firstn (records_to_collect max_items (List.length articles))
                 (omap url_of tags))%list.
Proof.
  induction tags as [|card rest IH]; intros articles w result w' Hrun.
  - simpl in Hrun. injection Hrun as <- _.
    simpl. rewrite firstn_nil, app_nil_r. reflexivity.
  - destruct (url_of card) as [raw_url|] eqn:Hurl.
    + rewrite (search_loop_collect _ _ _ _ _ _ raw_url Hurl) in Hrun.
      cbn [omap list_omap]. rewrite Hurl. cbv zeta in Hrun.
      rewrite length_app in Hrun. simpl List.length in Hrun.
      rewrite Nat.add_1_r in Hrun.
      destruct (Z.leb_spec max_items (Z.of_nat (S (List.length articles))))
        as [Hle|Hgt].
      * injection Hrun as <- _.
        rewrite (records_to_collect_last _ _ Hle).
        rewrite map_app. reflexivity.
      * apply IH in Hrun. rewrite Hrun.
        rewrite (records_to_collect_more _ _ Hgt).
        rewrite map_app, length_app. simpl. rewrite Nat.add_1_r.
        rewrite <- app_assoc. reflexivity.
    + cbn [omap list_omap]. rewrite Hurl.
      unfold resolvable_url in Hurl. simpl in Hrun.
      destruct (_extract_raw_article_url bracketed_netloc_ok card) as [[u|]|e].
      * destruct (str_nonempty u); [discriminate|].
        simpl in Hrun. eauto.
      * eauto.
      * discriminate.
Qed.

Lemma search_loop_length (search_url : string) (max_items : Z) (tags : list Tag) :
  forall articles w result w',
    loop search_url max_items tags articles w = (Ok result, w') ->
    Z.of_nat (List.length result)
    <= Z.max (Z.of_nat (List.length articles) + 1) max_items.
Proof.
  intros articles w result w' Hrun.
  apply search_loop_urls in Hrun.
  apply (f_equal (@List.length string)) in Hrun.
  rewrite length_app, !length_map in Hrun.
  pose proof (firstn_le_length
                (records_to_collect max_items (List.length articles))
                (omap url_of tags)) as Hle.
  unfold records_to_collect in *. lia.
Qed.

(** Early exit: once the limit is reached at a card, what follows that
    card on the page has no effect on the result or on the world. *)
Lemma search_loop_early_exit (search_url : string) (max_items : Z) (card : Tag)
      (rest : list Tag) (articles : list GoogleNewsArticle) (w : World)
      (raw_url : string) :
  url_of card = Some raw_url ->
  max_items <= Z.of_nat (S (List.length articles)) ->
  loop search_url max_items (card :: rest) articles w
  = loop search_url max_items [card] articles w.
Proof.
  intros Hurl Hmax.
  rewrite !(search_loop_collect _ _ _ _ _ _ raw_url Hurl). cbv zeta.
  rewrite length_app. simpl List.length. rewrite Nat.add_1_r.
  apply Z.leb_le in Hmax. rewrite Hmax. reflexivity.
Qed.

(** X18: with a limit of at least one, a [search] that returns gives at
    most that many records, and their URLs are, in order, those of the
    first cards of the page that have a URL. *)
Lemma search_cap (query : string) (when : option string) (max_items : Z)
      (w : World) (records : list PyDict) (w' : World) :
  1 <= max_items ->
  run_search query when max_items w = (Ok records, w') ->
  Z.of_nat (List.length records) <= max_items
  /\ exists html w1,
      _get World session_get (build_search_url self query when) w = (Ok html, w1)
      /\ List.map (fun d => dict_get d "articleUrl") records
         = List.map PyStr
             (firstn (Z.to_nat max_items)
                     (omap url_of (_extract_article_elements (BeautifulSoup html)))).
Proof.
  intros Hmax Hrun. unfold search in Hrun.
  destruct (_get World session_get (build_search_url self query when) w)
    as [[html|e] w1] eqn:Hget; [|discriminate].
  destruct (loop (build_search_url self query when) max_items
                 (_extract_article_elements (BeautifulSoup html)) [] w1)
    as [[arts|e] w2] eqn:Hloop; [|discriminate].
  injection Hrun as <- <-.
  pose proof (search_loop_length _ _ _ _ _ _ _ Hloop) as Hlen.
  pose proof (search_loop_urls _ _ _ _ _ _ _ Hloop) as Hurls.
  simpl in Hlen, Hurls. rewrite length_map. split; [lia|].
  exists html, w1. split; [reflexivity|].
  rewrite map_map. simpl.
  replace (records_to_collect max_items 0) with (Z.to_nat max_items) in Hurls
    by (unfold records_to_collect; simpl; lia).
  rewrite <- Hurls. rewrite map_map. reflexivity.
Qed.

(** C7: [_resolve_redirect] returns normally on every URL and in every
    world.  When the HEAD request raises (timeout, DNS failure, connection
    error) the result is absent; when HEAD is answered with a status of
    400 or more and the fallback GET raises, the result is absent too.
    Nothing propagates: for a card whose link cannot be resolved, [search]
    builds the record with the resolved URL absent and carries on. *)
Theorem resolve_redirect_never_raises (url : string) (w : World) :
  (exists r w',
      _resolve_redirect World session_head session_get url w = (Ok r, w'))
  /\ (forall e w1, session_head url w = (Raise e, w1) ->
        _resolve_redirect World session_head session_get url w = (Ok None, w1))
  /\ (forall resp w1 e w2,
        session_head url w = (Ok resp, w1) ->
        is_redirect resp = false -> history resp = [] ->
        400 <= status_code resp ->
        session_get url w1 = (Raise e, w2) ->
        _resolve_redirect World session_head session_get url w = (Ok None, w2))
  /\ (forall search_url max_items card rest articles e w1,
        url_of card = Some url ->
        decode_articles self = true ->
        session_head url w = (Raise e, w1) ->
        loop search_url max_items (card :: rest) articles w
        = let item :=
            mkArticle search_url url None
                      (_extract_title card)
                      (_extract_published_at date_parser_parse_fuzzy isoformat card)
                      (_extract_image card) (_extract_source card)
                      (_extract_source_icon card) (_extract_author card) in
          if max_items <=? Z.of_nat (List.length (articles ++ [item]))
          then (Ok (articles ++ [item])%list, time_sleep w1)
          else loop search_url max_items rest (articles ++ [item])%list
                    (time_sleep w1)).
Proof.
  split; [apply resolve_redirect_returns|].
  split; [apply resolve_redirect_head_failure|].
  split; [apply resolve_redirect_get_failure|].
  intros search_url max_items card rest articles e w1 Hurl Hdec Hhead.
  rewrite (search_loop_collect _ _ _ _ _ _ url Hurl).
  unfold decode_step. rewrite Hdec.
  rewrite (resolve_redirect_head_failure _ _ _ _ _ _ _ Hhead).
  reflexivity.
Qed.

End SearchFacts.

Lemma resolve_redirect_never_raises_witness :
  _resolve_redirect nat offline_head offline_get "https://news.google.com/articles/XYZ" O
  = (Ok None, 1%nat).
Proof.
  exact (proj1 (proj2 (resolve_redirect_never_raises
                         nat offline_head offline_get S micros_parser micros_isoformat
                         (fun _ => true) sample_scraper
                         "https://news.google.com/articles/XYZ" O))
               (RequestException DNSFailure) 1%nat eq_refl).
Defined.

(** Three of ten: with [max_items = 3] the records are those of the first
    three cards that have a link, the card without one being passed over,
    and only these three links were tried. *)
Example search_three_of_ten :
  exists records,
    search_page page_ten_cards 3 = (Ok records, 7%nat)
    /\ List.map (fun d => dict_get d "articleUrl") records
       = [PyStr "https://example.com/0"; PyStr "https://example.com/1";
          PyStr "https://news.google.com/articles/2"].
Proof. eexists. split; vm_compute; reflexivity. Qed.

(** C1, at the failing input: with [max_items = 0] and a page with one card
    that has a link, [search] returns one record, which is more than the
    limit; the limit is only looked at after a record has been appended. *)
Theorem search_max_items_zero_returns_one :
  search_page page_one_card 0
  = (Ok [to_dict (mkArticle
                    "https://news.google.com/search?q=banana&hl=en-US&gl=US&ceid=US%3Aen"
                    "https://example.com/a" None "Title" None None None None None)],
     3%nat)
  /\ fst (search_page page_one_card (-1)) = fst (search_page page_one_card 0).
Proof. split; vm_compute; reflexivity. Qed.

(** ** Export and the JSON round trip *)

(** *** Strings *)

#[local] Arguments String.append !_ _ / : simpl nomatch.

Lemma append_assoc (a b c : string) : ((a ++ b) ++ c)%string = (a ++ (b ++ c))%string.
Proof. induction a as [|x a IH]; simpl; [reflexivity | f_equal; exact IH]. Qed.

Lemma append_length (a b : string) :
  String.length (a ++ b) = (String.length a + String.length b)%nat.
Proof. induction a as [|x a IH]; simpl; [reflexivity | f_equal; exact IH]. Qed.

(** Reading back one escaped character. *)
Lemma json_scan_escaped_char (c : ascii) (tail t rest : string) :
  json_scan_string tail = Some (t, rest) ->
  json_scan_string (json_escape_char c ++ tail) = Some (String c t, rest).
Proof.
  intros H.
  destruct c as [[] [] [] [] [] [] [] []];
    match goal with
    | |- context [json_escape_char ?c0] =>
        let e := eval vm_compute in (json_escape_char c0) in
        change (json_escape_char c0) with e
    end;
    cbn; rewrite H; reflexivity.
Qed.

(** A string literal reads back as the string it encodes. *)
Lemma json_scan_string_escape (s rest : string) :
  json_scan_string (json_escape s ++ String json_quote rest) = Some (s, rest).
Proof.
  induction s as [|c s IH].
  - reflexivity.
  - cbn [json_escape]. rewrite append_assoc.
    apply json_scan_escaped_char. exact IH.
Qed.

(** *** Integers *)

Lemma uint_value_of_uint_acc (d : Decimal.uint) :
  forall p, Z.pos (Pos.of_uint_acc d p) = uint_value d (Z.pos p).
Proof.
  induction d; intros p; simpl; try reflexivity; rewrite IHd; f_equal; lia.
Qed.

Lemma uint_value_of_uint (d : Decimal.uint) :
  Z.of_N (Pos.of_uint d) = uint_value d 0.
Proof.
  induction d; simpl; try reflexivity; try exact IHd;
    rewrite uint_value_of_uint_acc; reflexivity.
Qed.

Lemma json_scan_digits_step (c : ascii) (r : string) (acc : Z) :
  is_ascii_digit c = true ->
  json_scan_digits acc (String c r)
  = json_scan_digits (10 * acc + (Z.of_nat (nat_of_ascii c) - 48)) r.
Proof. intros H. simpl. rewrite H. reflexivity. Qed.

Lemma continues_number_digit (rest : string) :
  continues_number rest = false ->
  forall acc, json_scan_digits acc rest = (acc, rest).
Proof.
  intros H acc. destruct rest as [|c r]; [reflexivity|].
  simpl in *. apply orb_false_iff in H. destruct H as [H _].
  rewrite H. reflexivity.
Qed.

Lemma json_scan_digits_uint (d : Decimal.uint) (rest : string) :
  continues_number rest = false ->
  forall acc,
    json_scan_digits acc (NilEmpty.string_of_uint d ++ rest)
    = (uint_value d acc, rest).
Proof.
  intros Hrest.
  induction d; intros acc; cbn [NilEmpty.string_of_uint uint_value append];
    try (rewrite json_scan_digits_step by reflexivity; rewrite IHd; reflexivity).
  apply continues_number_digit. exact Hrest.
Qed.

Lemma to_uint_no_leading_zero (p : positive) (l : Decimal.uint) :
  Pos.to_uint p <> Decimal.D0 l.
Proof.
  intros H.
  pose proof (DecimalPos.Unsigned.to_of (Pos.to_uint p)) as Hn.
  rewrite DecimalPos.Unsigned.of_to in Hn. simpl in Hn.
  assert (Hz : Decimal.nzhead (Pos.to_uint p) <> Decimal.Nil).
  { intros Hnil. apply DecimalFacts.unorm_0 in Hnil.
    rewrite <- Hn in Hnil. exact (DecimalPos.Unsigned.to_uint_nonzero p Hnil). }
  rewrite (DecimalFacts.unorm_nzhead _ Hz) in Hn.
  rewrite H in Hn at 1.
  exact (DecimalFacts.nzhead_nonzero _ _ (eq_sym Hn)).
Qed.

(** The decimal digits of a positive number read back as that number. *)
Lemma json_scan_nat_pos (p : positive) (rest : string) :
  continues_number rest = false ->
  json_scan_nat (NilEmpty.string_of_uint (Pos.to_uint p) ++ rest)
  = Some (Z.pos p, rest).
Proof.
  intros Hrest.
  assert (Hval : uint_value (Pos.to_uint p) 0 = Z.pos p).
  { rewrite <- uint_value_of_uint, DecimalPos.Unsigned.of_to. reflexivity. }
  pose proof (json_scan_digits_uint (Pos.to_uint p) rest Hrest 0) as Hscan.
  pose proof (to_uint_no_leading_zero p) as Hlead.
  pose proof (DecimalPos.Unsigned.to_uint_nonnil p) as Hnil.
  destruct (Pos.to_uint p) as [|l|l|l|l|l|l|l|l|l|l];
    try (exfalso; apply Hnil; reflexivity);
    try (exfalso; apply (Hlead l); reflexivity);
    cbn [NilEmpty.string_of_uint append] in *; unfold json_scan_nat;
    match goal with
    | |- context [Ascii.eqb ?c "0"] => change (Ascii.eqb c "0") with false
    end;
    match goal with
    | |- context [is_ascii_digit ?c] => change (is_ascii_digit c) with true
    end;
    cbv iota; rewrite Hscan, Hval, Hrest; reflexivity.
Qed.

(** An integer literal reads back as the integer. *)
Lemma json_scan_val_int (n : Z) (rest : string) :
  continues_number rest = false ->
  json_scan_val (str_of_int n ++ rest) = Some (PyInt n, rest).
Proof.
  intros Hrest. unfold str_of_int. destruct n as [|p|p].
  - simpl. rewrite Hrest. reflexivity.
  - pose proof (json_scan_nat_pos p rest Hrest) as Hp.
    pose proof (DecimalPos.Unsigned.to_uint_nonnil p) as Hnil.
    change (Z.to_int (Z.pos p)) with (Decimal.Pos (Pos.to_uint p)).
    unfold NilZero.string_of_int, NilZero.string_of_uint.
    destruct (Pos.to_uint p) as [|l|l|l|l|l|l|l|l|l|l] eqn:Hd;
      try (exfalso; apply Hnil; reflexivity);
      cbn [NilEmpty.string_of_uint append] in *;
      unfold json_scan_val;
      match goal with
      | |- context [Ascii.eqb ?c json_quote] => change (Ascii.eqb c json_quote) with false
      end;
      match goal with
      | |- context [Ascii.eqb ?c "-"] => change (Ascii.eqb c "-") with false
      end;
      cbv iota;
      match goal with
      | |- context [startswith "null" ?s] => change (startswith "null" s) with false
      end;
      match goal with
      | |- context [startswith "true" ?s] => change (startswith "true" s) with false
      end;
      match goal with
      | |- context [startswith "false" ?s] => change (startswith "false" s) with false
      end;
      cbv iota; rewrite Hp; reflexivity.
  - pose proof (json_scan_nat_pos p rest Hrest) as Hp.
    change (Z.to_int (Z.neg p)) with (Decimal.Neg (Pos.to_uint p)).
    unfold NilZero.string_of_int, NilZero.string_of_uint.
    pose proof (DecimalPos.Unsigned.to_uint_nonnil p) as Hnil.
    assert (Hs : (match Pos.to_uint p with
                  | Decimal.Nil => "0"
                  | _ => NilEmpty.string_of_uint (Pos.to_uint p)
                  end) = NilEmpty.string_of_uint (Pos.to_uint p)).
    { destruct (Pos.to_uint p); [exfalso; apply Hnil|..]; reflexivity. }
    rewrite Hs. cbn [append]. unfold json_scan_val.
    change (Ascii.eqb "-" json_quote) with false.
    change (Ascii.eqb "-" "-") with true. cbv iota.
    rewrite Hp. reflexivity.
Qed.

(** *** Values and members *)

Lemma json_encode_str_app (s rest : string) :
  (json_encode_str s ++ rest)%string
  = String json_quote (json_escape s ++ String json_quote rest).
Proof.
  unfold json_encode_str. cbn [append]. rewrite append_assoc. reflexivity.
Qed.

(** An encoded value reads back as the value, when what follows cannot
    continue a number. *)
Lemma json_scan_val_encode (v : PyVal) (rest : string) :
  continues_number rest = false ->
  json_scan_val (json_encode_val v ++ rest) = Some (v, rest).
Proof.
  intros Hrest. destruct v as [|[]|n|s]; cbn [json_encode_val].
  - reflexivity.
  - reflexivity.
  - reflexivity.
  - apply json_scan_val_int. exact Hrest.
  - rewrite json_encode_str_app. cbn [json_scan_val].
    change (Ascii.eqb json_quote json_quote) with true. cbv iota.
    rewrite json_scan_string_escape. reflexivity.
Qed.

(** An encoded value does not begin with white space. *)
Lemma skip_ws_encode_val (v : PyVal) (rest : string) :
  skip_ws (json_encode_val v ++ rest) = (json_encode_val v ++ rest)%string.
Proof.
  destruct v as [|[]|n|s]; cbn [json_encode_val]; try reflexivity.
  unfold str_of_int. destruct n as [|p|p]; try reflexivity.
  change (Z.to_int (Z.pos p)) with (Decimal.Pos (Pos.to_uint p)).
  unfold NilZero.string_of_int, NilZero.string_of_uint.
  destruct (Pos.to_uint p); reflexivity.
Qed.

Lemma json_scan_member_step (fuel : nat) (k : string) (v : PyVal)
      (tail : string) (acc : PyDict) :
  continues_number tail = false ->
  json_scan_members (S fuel) (json_encode_member false (k, v) ++ tail) acc
  = match skip_ws tail with
    | String "," rest3 => json_scan_members fuel (skip_ws rest3) (dict_set acc k v)
    | String "}" rest3 => Some (dict_set acc k v, rest3)
    | _ => None
    end.
Proof.
  intros Htail. unfold json_encode_member. cbn [fst snd].
  rewrite !append_assoc. rewrite json_encode_str_app.
  cbn [json_scan_members].
  change (Ascii.eqb json_quote json_quote) with true. cbv iota.
  rewrite json_scan_string_escape.
  change (skip_ws (":" ++ json_encode_val v ++ tail))
    with (String ":" (json_encode_val v ++ tail)).
  cbv iota.
  rewrite skip_ws_encode_val, (json_scan_val_encode v tail Htail).
  reflexivity.
Qed.

Lemma dict_set_fresh (acc : PyDict) (k : string) (v : PyVal) :
  ~ In k (List.map fst acc) -> dict_set acc k v = (acc ++ [(k, v)])%list.
Proof.
  induction acc as [|[k0 v0] acc IH]; simpl; intros Hk.
  - reflexivity.
  - destruct (String.eqb_spec k0 k) as [->|Hne].
    + exfalso. apply Hk. left. reflexivity.
    + rewrite IH; [reflexivity|]. intros Hin. apply Hk. right. exact Hin.
Qed.

(** Assigning the members of a well-formed [dict] in order rebuilds it. *)
Lemma dict_of_pairs_unique (d : PyDict) :
  forall acc, List.NoDup (List.map fst (acc ++ d)) ->
              dict_of_pairs d acc = (acc ++ d)%list.
Proof.
  induction d as [|[k v] d IH]; intros acc Hnd; simpl.
  - rewrite app_nil_r. reflexivity.
  - unfold dict_of_pairs in *. simpl.
    rewrite dict_set_fresh.
    + rewrite IH.
      * rewrite <- app_assoc. reflexivity.
      * rewrite <- app_assoc. exact Hnd.
    + rewrite map_app in Hnd. simpl in Hnd.
      apply List.NoDup_remove_2 in Hnd. intros Hin. apply Hnd.
      apply in_or_app. left. exact Hin.
Qed.

Lemma json_members_head (kv : string * PyVal) (d : PyDict) (tail : string) :
  exists body,
    (join "," (List.map (json_encode_member false) (kv :: d)) ++ tail)%string
    = String json_quote body.
Proof.
  destruct d as [|kv2 d]; cbn [List.map join]; unfold json_encode_member at 1.
  - rewrite !append_assoc, json_encode_str_app. eauto.
  - rewrite !append_assoc, json_encode_str_app. eauto.
Qed.

(** The members of an encoded object read back as the assignments they
    stand for, in order. *)
Lemma json_scan_members_encode (d : PyDict) :
  forall acc fuel rest,
    d <> [] -> (List.length d <= fuel)%nat ->
    json_scan_members fuel
      (join "," (List.map (json_encode_member false) d) ++ String "}" rest) acc
    = Some (dict_of_pairs d acc, rest).
Proof.
  induction d as [|[k v] d IH]; intros acc fuel rest Hne Hfuel; [congruence|].
  destruct fuel as [|fuel]; [simpl in Hfuel; lia|].
  destruct d as [|kv2 d].
  - cbn [List.map join].
    rewrite json_scan_member_step by reflexivity. reflexivity.
  - change (join "," (List.map (json_encode_member false) ((k, v) :: kv2 :: d)))
      with (json_encode_member false (k, v) ++ "," ++
            join "," (List.map (json_encode_member false) (kv2 :: d)))%string.
    rewrite !append_assoc.
    rewrite json_scan_member_step by reflexivity.
    change (skip_ws ("," ++ join "," (List.map (json_encode_member false) (kv2 :: d))
                         ++ String "}" rest))
      with (String "," (join "," (List.map (json_encode_member false) (kv2 :: d))
                         ++ String "}" rest)).
    cbv iota.
    destruct (json_members_head kv2 d (String "}" rest)) as (body & Hbody).
    assert (Hskip : skip_ws (join "," (List.map (json_encode_member false) (kv2 :: d))
                             ++ String "}" rest)
                    = (join "," (List.map (json_encode_member false) (kv2 :: d))
                       ++ String "}" rest)%string).
    { rewrite Hbody. reflexivity. }
    rewrite Hskip.
    rewrite IH; [reflexivity | discriminate | simpl in *; lia].
Qed.

Lemma json_scan_object_members (fuel : nat) (body : string) :
  json_scan_object fuel (String "{" (String json_quote body))
  = json_scan_members fuel (String json_quote body) [].
Proof. reflexivity. Qed.

(** An encoded object reads back as the [dict] it encodes. *)
Lemma json_scan_object_encode (d : PyDict) (fuel : nat) (rest : string) :
  unique_keys d -> (List.length d <= fuel)%nat ->
  json_scan_object fuel (json_encode_dict false d ++ rest) = Some (d, rest).
Proof.
  intros Hnd Hfuel. destruct d as [|kv d].
  - reflexivity.
  - unfold json_encode_dict. rewrite !append_assoc.
    destruct (json_members_head kv d (String "}" rest)) as (body & Hbody).
    change (("{" ++ join "," (List.map (json_encode_member false) (kv :: d))
                 ++ "}" ++ rest)%string)
      with (String "{" (join "," (List.map (json_encode_member false) (kv :: d))
                        ++ String "}" rest)).
    rewrite Hbody, json_scan_object_members, <- Hbody.
    rewrite json_scan_members_encode; [|discriminate|exact Hfuel].
    rewrite (dict_of_pairs_unique (kv :: d) []); [reflexivity|].
    exact Hnd.
Qed.

(** *** Arrays and documents *)

Lemma join_cons_cons (sep a b : string) (l : list string) :
  join sep (a :: b :: l) = (a ++ sep ++ join sep (b :: l))%string.
Proof. reflexivity. Qed.

Lemma join_length_count (sep : string) (parts : list string) :
  (forall p, In p parts -> (1 <= String.length p)%nat) ->
  (List.length parts <= String.length (join sep parts))%nat.
Proof.
  induction parts as [|a l IH]; intros Hp; [simpl; lia|].
  destruct l as [|b l].
  - simpl. specialize (Hp a (or_introl eq_refl)). lia.
  - rewrite join_cons_cons, !append_length.
    specialize (IH (fun p Hin => Hp p (or_intror Hin))).
    specialize (Hp a (or_introl eq_refl)). simpl List.length in *. lia.
Qed.

Lemma json_encode_member_length (kv : string * PyVal) :
  (1 <= String.length (json_encode_member false kv))%nat.
Proof.
  unfold json_encode_member, json_encode_str. simpl. lia.
Qed.

Lemma json_encode_dict_length (d : PyDict) :
  (1 + List.length d <= String.length (json_encode_dict false d))%nat.
Proof.
  destruct d as [|kv d]; [simpl; lia|].
  unfold json_encode_dict. rewrite !append_length.
  pose proof (join_length_count "," (List.map (json_encode_member false) (kv :: d))) as H.
  rewrite length_map in H.
  assert (Hp : forall p, In p (List.map (json_encode_member false) (kv :: d)) ->
                         (1 <= String.length p)%nat).
  { intros p Hin. apply in_map_iff in Hin. destruct Hin as (x & <- & _).
    apply json_encode_member_length. }
  specialize (H Hp). simpl String.length at 1. lia.
Qed.

Lemma json_encode_dicts_length (l : list PyDict) :
  (total_size l <= String.length (join "," (List.map (json_encode_dict false) l)))%nat.
Proof.
  induction l as [|d l IH]; [simpl; lia|].
  destruct l as [|d2 l].
  - simpl total_size. simpl List.map. simpl join.
    pose proof (json_encode_dict_length d). lia.
  - change (List.map (json_encode_dict false) (d :: d2 :: l))
      with (json_encode_dict false d :: List.map (json_encode_dict false) (d2 :: l)).
    cbn [List.map] in *. rewrite join_cons_cons, !append_length.
    pose proof (json_encode_dict_length d).
    cbn [total_size] in *. lia.
Qed.

Lemma json_dict_head (d : PyDict) (tail : string) :
  exists body, (json_encode_dict false d ++ tail)%string = String "{" body.
Proof.
  destruct d as [|kv d]; unfold json_encode_dict.
  - eexists. reflexivity.
  - rewrite !append_assoc. eexists. reflexivity.
Qed.

Lemma json_dicts_head (d : PyDict) (l : list PyDict) (tail : string) :
  exists body,
    (join "," (List.map (json_encode_dict false) (d :: l)) ++ tail)%string
    = String "{" body.
Proof.
  destruct l as [|d2 l]; cbn [List.map].
  - cbn [join]. apply json_dict_head.
  - rewrite join_cons_cons, append_assoc. apply json_dict_head.
Qed.

(** The items of an encoded array read back as the records, in order. *)
Lemma json_scan_items_encode (l : list PyDict) :
  forall acc fuel rest,
    l <> [] -> Forall unique_keys l -> (total_size l <= fuel)%nat ->
    json_scan_items fuel
      (join "," (List.map (json_encode_dict false) l) ++ String "]" rest) acc
    = Some ((acc ++ l)%list, rest).
Proof.
  induction l as [|d l IH]; intros acc fuel rest Hne Hall Hfuel; [congruence|].
  destruct fuel as [|fuel]; [simpl in Hfuel; lia|].
  apply Forall_cons_iff in Hall. destruct Hall as [Hd Hall].
  cbn [total_size] in Hfuel.
  destruct l as [|d2 l].
  - cbn [List.map join json_scan_items].
    rewrite json_scan_object_encode; [|exact Hd|lia].
    reflexivity.
  - cbn [List.map] in *. rewrite join_cons_cons, !append_assoc.
    cbn [json_scan_items].
    rewrite json_scan_object_encode; [|exact Hd|lia].
    change (skip_ws ("," ++ join "," (json_encode_dict false d2
                                        :: List.map (json_encode_dict false) l)
                         ++ String "]" rest))
      with (String "," (join "," (json_encode_dict false d2
                                    :: List.map (json_encode_dict false) l)
                         ++ String "]" rest)).
    cbv iota.
    destruct (json_dicts_head d2 l (String "]" rest)) as (body & Hbody).
    cbn [List.map] in Hbody.
    assert (Hskip : skip_ws (join "," (json_encode_dict false d2
                                         :: List.map (json_encode_dict false) l)
                             ++ String "]" rest)
                    = (join "," (json_encode_dict false d2
                                   :: List.map (json_encode_dict false) l)
                       ++ String "]" rest)%string).
    { rewrite Hbody. reflexivity. }
    rewrite Hskip.
    rewrite (IH (acc ++ [d])%list fuel rest); [|discriminate|exact Hall|lia].
    rewrite <- app_assoc. reflexivity.
Qed.

Lemma json_loads_array (body : string) :
  json_loads (String "[" (String "{" body))
  = match json_scan_items (S (String.length (String "[" (String "{" body))))
                          (String "{" body) [] with
    | Some (items, rest) =>
        match skip_ws rest with
        | EmptyString => Some items
        | _ => None
        end
    | None => None
    end.
Proof. reflexivity. Qed.

(** Parsing the compact text of a list of well-formed records gives the
    list back. *)
Lemma json_loads_dumps (articles : list PyDict) :
  Forall unique_keys articles ->
  json_loads (json_dumps false articles) = Some articles.
Proof.
  intros Hall. destruct articles as [|d l]; [reflexivity|].
  unfold json_dumps.
  change (("[" ++ join "," (List.map (json_encode_dict false) (d :: l)) ++ "]")%string)
    with (String "[" (join "," (List.map (json_encode_dict false) (d :: l))
                      ++ String "]" "")).
  destruct (json_dicts_head d l (String "]" "")) as (body & Hbody).
  pose proof (json_encode_dicts_length (d :: l)) as Hlen.
  assert (Hfuel : (total_size (d :: l)
                   <= S (String.length (String "["
                         (join "," (List.map (json_encode_dict false) (d :: l))
                          ++ String "]" ""))))%nat).
  { cbn [String.length]. rewrite append_length. lia. }
  rewrite Hbody.
  rewrite json_loads_array, <- Hbody.
  rewrite (json_scan_items_encode (d :: l) [] _ "" ltac:(discriminate) Hall Hfuel).
  reflexivity.
Qed.

(** *** The exporter *)

Lemma to_dict_unique_keys (a : GoogleNewsArticle) : unique_keys (to_dict a).
Proof.
  unfold unique_keys, to_dict. cbn [List.map fst].
  repeat (apply List.NoDup_cons; [cbn [In]; intuition discriminate|]).
  apply List.NoDup_nil.
Qed.

Lemma write_text_read (path : list string) (text : string) (fs fs' : FileSystem) :
  write_text path text fs = Ok fs' -> fs_files fs' !! path = Some text.
Proof.
  unfold write_text. intros H.
  destruct (is_dir fs path); [discriminate|].
  destruct (is_dir fs (path_parent path)); [|discriminate].
  simpl in H. injection H as <-. simpl. apply lookup_insert_eq.
Qed.

(** C8: when [export_to_json] with [pretty = false] has written a list of
    well-formed records to a file, parsing that file yields a list of the
    same length that is equal to the list written, record by record and
    field by field. *)
Theorem export_json_round_trip (articles : list PyDict) (output_path : list string)
        (fs fs' : FileSystem) :
  Forall unique_keys articles ->
  export_to_json articles output_path false fs = Ok fs' ->
  exists loaded,
    json_load output_path fs' = Some loaded
    /\ List.length loaded = List.length articles
    /\ loaded = articles.
Proof.
  intros Hall Hexp. unfold export_to_json in Hexp.
  destruct (_ensure_parent_dir output_path fs) as [fs1|e]; [|discriminate].
  simpl in Hexp. apply write_text_read in Hexp.
  exists articles. unfold json_load. rewrite Hexp.
  split; [apply json_loads_dumps; exact Hall|]. split; reflexivity.
Qed.

Lemma export_json_round_trip_witness :
  exists loaded,
    json_load sample_path exported_fs = Some loaded
    /\ List.length loaded = List.length sample_articles
    /\ loaded = sample_articles.
Proof.
  apply (export_json_round_trip sample_articles sample_path empty_fs exported_fs).
  - unfold sample_articles.
    constructor; [apply to_dict_unique_keys|].
    constructor; [|constructor].
    unfold unique_keys. cbn [List.map fst].
    repeat (apply List.NoDup_cons; [cbn [In]; intuition discriminate|]).
    apply List.NoDup_nil.
  - vm_compute. reflexivity.
Defined.

(** The records [search] returns are well-formed, so what it returns
    survives the export. *)
Corollary export_search_records_round_trip (records : list GoogleNewsArticle)
          (output_path : list string) (fs fs' : FileSystem) :
  export_to_json (List.map to_dict records) output_path false fs = Ok fs' ->
  json_load output_path fs' = Some (List.map to_dict records).
Proof.
  intros Hexp. unfold export_to_json in Hexp.
  destruct (_ensure_parent_dir output_path fs) as [fs1|e]; [|discriminate].
  simpl in Hexp. apply write_text_read in Hexp.
  unfold json_load. rewrite Hexp. apply json_loads_dumps.
  apply List.Forall_forall. intros d Hin. apply in_map_iff in Hin.
  destruct Hin as (a & <- & _). apply to_dict_unique_keys.
Qed.

(** On the empty file system the export creates the missing directory and
    the file. *)
Example export_creates_parent_directory :
  is_dir exported_fs ["data"] = true
  /\ fs_files exported_fs !! sample_path = Some (json_dumps false sample_articles).
Proof. split; vm_compute; reflexivity. Qed.

(** * Further properties *)

(** ** The search run as a whole *)

Lemma urlunparse_https_nonempty (netloc path params query fragment : string) :
  str_nonempty (urlunparse "https" netloc path params query fragment) = true.
Proof.
  unfold urlunparse, urlunsplit.
  change (str_nonempty "https") with true. cbv iota. cbn [andb].
  repeat match goal with
         | |- context [if ?b then _ else _] => destruct b
         end; reflexivity.
Qed.

Lemma urljoin_base_nonempty (bracketed_netloc_ok : string -> bool) (r u : string) :
  urljoin bracketed_netloc_ok GOOGLE_NEWS_BASE r = Ok u -> str_nonempty u = true.
Proof.
  unfold urljoin.
  change (str_nonempty GOOGLE_NEWS_BASE) with true. cbv [negb].
  destruct (str_nonempty r) eqn:Hr.
  - rewrite urlparse_base. simpl exc_bind. cbv [pr_scheme].
    destruct (urlparse bracketed_netloc_ok r "https") as [p|e]; [|discriminate].
    simpl exc_bind.
    destruct p as [scheme netloc path params query fragment].
    cbv [pr_scheme pr_netloc pr_path pr_params pr_query pr_fragment].
    destruct (String.eqb_spec scheme "https") as [->|Hne].
    + change (str_in "https" uses_relative) with true.
      change (str_in "https" uses_netloc) with true.
      cbv [negb orb andb].
      repeat match goal with
             | |- context [if ?b then _ else _] => destruct b
             end;
        intros [= <-]; first [apply urlunparse_https_nonempty | exact Hr].
    + cbn [negb orb]. intros [= <-]. exact Hr.
  - intros [= <-]. reflexivity.
Qed.

(** X1: a raw URL that is present is never the empty string: the join with
    the base origin cannot produce one and an [href] that passes through
    starts with its scheme.  So [search] passes over a card exactly when
    the extraction yields absent. *)
Theorem raw_article_url_nonempty (bracketed_netloc_ok : string -> bool)
        (article : Tag) (u : string) :
  _extract_raw_article_url bracketed_netloc_ok article = Ok (Some u) ->
  u <> "" /\ resolvable_url bracketed_netloc_ok article = Some u.
Proof.
  intros H.
  assert (Hne : str_nonempty u = true).
  { unfold _extract_raw_article_url in H.
    destruct (find_tag_with_href "a" article) as [link|]; [|discriminate].
    destruct (tag_get link "href") as [href|]; [|discriminate].
    destruct (startswith "./" href || startswith "/" href).
    - destruct (urljoin bracketed_netloc_ok GOOGLE_NEWS_BASE (lstrip "./" href))
        as [v|e] eqn:Hj; [|discriminate].
      simpl in H. injection H as <-. exact (urljoin_base_nonempty _ _ _ Hj).
    - destruct (startswith "http://" href || startswith "https://" href) eqn:Hh.
      + injection H as <-. destruct href; [discriminate | reflexivity].
      + destruct (urljoin bracketed_netloc_ok GOOGLE_NEWS_BASE href)
          as [v|e] eqn:Hj; [|discriminate].
        simpl in H. injection H as <-. exact (urljoin_base_nonempty _ _ _ Hj). }
  split.
  - intros ->. discriminate.
  - unfold resolvable_url. rewrite H, Hne. reflexivity.
Qed.

Lemma raw_article_url_nonempty_witness :
  "https://news.google.com/articles/XYZ" <> ""
  /\ resolvable_url (fun _ => true) (card_with_link "./articles/XYZ")
     = Some "https://news.google.com/articles/XYZ".
Proof.
  exact (raw_article_url_nonempty (fun _ => true) (card_with_link "./articles/XYZ")
           "https://news.google.com/articles/XYZ" eq_refl).
Defined.

Section SearchRunFacts.

Variable World : Type.
Variable session_head : string -> World -> exc Response * World.
Variable session_get : string -> World -> exc Response * World.
Variable time_sleep : World -> World.
Variable BeautifulSoup : string -> Tag.
Variable date_parser_parse_fuzzy : string -> exc PyDatetime.
Variable isoformat : PyDatetime -> string.
Variable bracketed_netloc_ok : string -> bool.
Variable self : GoogleNewsScraper.

Local Notation "'loop'" :=
(search_loop World session_head session_get time_sleep
             date_parser_parse_fuzzy isoformat bracketed_netloc_ok self).
Local Notation "'run_search'" :=
(search World session_head session_get time_sleep BeautifulSoup
        date_parser_parse_fuzzy isoformat bracketed_netloc_ok self).

(** X2: a failed page fetch is fatal to the run.  When the GET of the
  search page raises, or is answered with a status from 400 to 599,
  [search] raises (with the request's exception, or [HTTPError] of the
  status) in the world right after that one request: no card is looked
  at and no article link is tried. *)
Theorem search_fetch_failure (query : string) (when : option string)
      (max_items : Z) (w : World) :
(forall e w1,
    session_get (build_search_url self query when) w = (Raise e, w1) ->
    run_search query when max_items w = (Raise e, w1))
/\ (forall resp w1,
      session_get (build_search_url self query when) w = (Ok resp, w1) ->
      400 <= status_code resp < 600 ->
      run_search query when max_items w
      = (Raise (HTTPError (status_code resp)), w1)).
Proof.
split.
- intros e w1 H. unfold search, _get. rewrite H. reflexivity.
- intros resp w1 H [Hlo Hhi]. unfold search, _get, raise_for_status.
  rewrite H.
  apply Z.leb_le in Hlo. apply Z.ltb_lt in Hhi. rewrite Hlo, Hhi.
  reflexivity.
Qed.

(** Every record the loop adds carries the search URL and a non-empty
  article URL, and has no resolved URL when resolution is off, in which
  case the world is left as it was. *)
Lemma search_loop_records (search_url : string) (max_items : Z) (tags : list Tag) :
forall articles w result w',
  loop search_url max_items tags articles w = (Ok result, w') ->
  exists added,
    result = (articles ++ added)%list
    /\ Forall (fun a => googleNewsUrl a = search_url
                        /\ str_nonempty (articleUrl a) = true
                        /\ (decode_articles self = false ->
                            decodedArticleUrl a = None)) added
    /\ (decode_articles self = false -> w' = w).
Proof.
induction tags as [|card rest IH]; intros articles w result w' Hrun.
- simpl in Hrun. injection Hrun as <- <-. exists [].
  rewrite app_nil_r. split; [reflexivity|]. split; [constructor | reflexivity].
- destruct (resolvable_url bracketed_netloc_ok card) as [raw_url|] eqn:Hurl.
  + rewrite (search_loop_collect World session_head session_get time_sleep
               date_parser_parse_fuzzy isoformat bracketed_netloc_ok self
               _ _ _ _ _ _ raw_url Hurl) in Hrun.
    cbv zeta in Hrun.
    assert (Hne : str_nonempty raw_url = true).
    { unfold resolvable_url in Hurl.
      destruct (_extract_raw_article_url bracketed_netloc_ok card) as [[u|]|e];
        try discriminate.
      destruct (str_nonempty u) eqn:Hu; [|discriminate].
      injection Hurl as <-. exact Hu. }
    assert (Hoff : decode_articles self = false ->
                   decode_step World session_head session_get time_sleep self raw_url w
                   = (None, w)).
    { intros Hd. unfold decode_step. rewrite Hd. reflexivity. }
    match type of Hrun with
    | (if ?c then _ else _) = _ => destruct c
    end.
    * injection Hrun as <- <-. eexists [_].
      split; [reflexivity|]. split.
      -- constructor; [|constructor]. cbn.
         split; [reflexivity|]. split; [exact Hne|].
         intros Hd. rewrite (Hoff Hd). reflexivity.
      -- intros Hd. rewrite (Hoff Hd). reflexivity.
    * apply IH in Hrun. destruct Hrun as (added & -> & Hall & Hw).
      eexists (_ :: added). rewrite <- app_assoc.
      split; [reflexivity|]. split.
      -- constructor; [|exact Hall]. cbn.
         split; [reflexivity|]. split; [exact Hne|].
         intros Hd. rewrite (Hoff Hd). reflexivity.
      -- intros Hd. rewrite (Hw Hd), (Hoff Hd). reflexivity.
  + unfold resolvable_url in Hurl. simpl in Hrun.
    destruct (_extract_raw_article_url bracketed_netloc_ok card) as [[u|]|e].
    * destruct (str_nonempty u); [discriminate|]. simpl in Hrun. eauto.
    * eauto.
    * discriminate.
Qed.

(** X3: every record [search] returns has the nine fields of the
  dataclass, in declaration order; its [googleNewsUrl] is the URL of the
  search page that was fetched and its [articleUrl] is a non-empty
  string. *)
Theorem search_records_invariant (query : string) (when : option string)
      (max_items : Z) (w : World) (records : list PyDict) (w' : World) :
run_search query when max_items w = (Ok records, w') ->
Forall (fun d => List.map fst d = article_fields
                 /\ dict_get d "googleNewsUrl"
                    = PyStr (build_search_url self query when)
                 /\ exists u, dict_get d "articleUrl" = PyStr u /\ u <> "")
       records.
Proof.
intros Hrun. unfold search in Hrun.
destruct (_get World session_get (build_search_url self query when) w)
  as [[html|e] w1]; [|discriminate].
destruct (loop (build_search_url self query when) max_items
               (_extract_article_elements (BeautifulSoup html)) [] w1)
  as [[arts|e] w2] eqn:Hloop; [|discriminate].
injection Hrun as <- <-.
apply search_loop_records in Hloop.
destruct Hloop as (added & -> & Hall & _). simpl.
induction Hall as [|a l (Hg & Hu & _) Hall IH]; [constructor|].
constructor; [|exact IH].
split; [reflexivity|]. split.
- simpl. rewrite Hg. reflexivity.
- exists (articleUrl a). split; [reflexivity|].
  intros Hc. rewrite Hc in Hu. discriminate.
Qed.

(** X4: with link resolution switched off, the only network request of a
  run is the page fetch: the world [search] ends in is the one right
  after the fetch, and every record has its [decodedArticleUrl]
  absent. *)
Theorem search_without_decoding (query : string) (when : option string)
      (max_items : Z) (w : World) (records : list PyDict) (w' : World) :
decode_articles self = false ->
run_search query when max_items w = (Ok records, w') ->
(exists html,
    _get World session_get (build_search_url self query when) w = (Ok html, w'))
/\ Forall (fun d => dict_get d "decodedArticleUrl" = PyNone) records.
Proof.
intros Hd Hrun. unfold search in Hrun.
destruct (_get World session_get (build_search_url self query when) w)
  as [[html|e] w1]; [|discriminate].
destruct (loop (build_search_url self query when) max_items
               (_extract_article_elements (BeautifulSoup html)) [] w1)
  as [[arts|e] w2] eqn:Hloop; [|discriminate].
injection Hrun as <- <-.
apply search_loop_records in Hloop.
destruct Hloop as (added & -> & Hall & Hw). simpl.
rewrite (Hw Hd). split; [exists html; reflexivity|].
induction Hall as [|a l (_ & _ & Hdec) Hall IH]; [constructor|].
constructor; [|exact IH].
simpl. rewrite (Hdec Hd). reflexivity.
Qed.

End SearchRunFacts.

Lemma search_fetch_failure_witness :
  search nat offline_head (status_get 503) S (fun _ => page_ten_cards)
         micros_parser micros_isoformat (fun _ => true) sample_scraper
         "banana" None 3 O
  = (Raise (HTTPError 503), 1%nat).
Proof.
  refine (proj2 (search_fetch_failure nat offline_head (status_get 503) S
                   (fun _ => page_ten_cards) micros_parser micros_isoformat
                   (fun _ => true) sample_scraper "banana" None 3 O)
                (mkResponse (build_search_url sample_scraper "banana" None)
                            503 false [] "<html>")
                1%nat eq_refl _).
  simpl. lia.
Defined.

Lemma search_records_invariant_witness :
  Forall (fun d => List.map fst d = article_fields
                   /\ dict_get d "googleNewsUrl"
                      = PyStr (build_search_url sample_scraper "banana" None)
                   /\ exists u, dict_get d "articleUrl" = PyStr u /\ u <> "")
         (records_of (search_page page_ten_cards 3)).
Proof.
  apply (search_records_invariant nat offline_head page_get S
           (fun _ => page_ten_cards) micros_parser micros_isoformat
           (fun _ => true) sample_scraper "banana" None 3 O
           (records_of (search_page page_ten_cards 3)) 7%nat).
  vm_compute. reflexivity.
Defined.

Lemma search_without_decoding_witness :
  (exists html,
      _get nat page_get (build_search_url plain_scraper "banana" None) O
      = (Ok html, 1%nat))
  /\ Forall (fun d => dict_get d "decodedArticleUrl" = PyNone)
            (records_of (search nat direct_head page_get S (fun _ => page_ten_cards)
                                micros_parser micros_isoformat (fun _ => true)
                                plain_scraper "banana" None 3 O)).
Proof.
  apply (search_without_decoding nat direct_head page_get S
           (fun _ => page_ten_cards) micros_parser micros_isoformat
           (fun _ => true) plain_scraper "banana" None 3 O).
  - reflexivity.
  - vm_compute. reflexivity.
Defined.

(** ** Extracted text and images *)

Lemma lstrip_by_idem (p : ascii -> bool) (s : string) :
  lstrip_by p (lstrip_by p s) = lstrip_by p s.
Proof.
  induction s as [|c r IH]; simpl; [reflexivity|].
  destruct (p c) eqn:Hc; [exact IH|]. simpl. rewrite Hc. reflexivity.
Qed.

Lemma rstrip_by_idem (p : ascii -> bool) (s : string) :
  rstrip_by p (rstrip_by p s) = rstrip_by p s.
Proof.
  induction s as [|c r IH]; simpl; [reflexivity|].
  destruct (rstrip_by p r) as [|d t] eqn:Hr.
  - destruct (p c) eqn:Hc; simpl; [reflexivity|]. rewrite Hc. reflexivity.
  - cbn [rstrip_by]. cbn [rstrip_by] in IH. rewrite IH. reflexivity.
Qed.

(** Dropping leading characters from a string that has nothing to drop at
    its end leaves nothing to drop at its end. *)
Lemma rstrip_by_lstrip_by (p : ascii -> bool) (s : string) :
  rstrip_by p s = s -> rstrip_by p (lstrip_by p s) = lstrip_by p s.
Proof.
  induction s as [|c r IH]; intros H; [reflexivity|].
  cbn [lstrip_by]. destruct (p c) eqn:Hc; [|exact H].
  apply IH. cbn [rstrip_by] in H.
  destruct (rstrip_by p r) as [|d t] eqn:Hr.
  - rewrite Hc in H. discriminate.
  - injection H as H. exact H.
Qed.

Lemma strip_trimmed (s : string) : trimmed (strip s).
Proof.
  unfold trimmed, strip. split.
  - apply lstrip_by_idem.
  - apply rstrip_by_lstrip_by. apply rstrip_by_idem.
Qed.

Lemma lstrip_by_app (p : ascii -> bool) (a b : string) :
  str_nonempty a = true -> lstrip_by p a = a ->
  lstrip_by p (a ++ b) = (a ++ b)%string.
Proof.
  destruct a as [|c r]; [discriminate|]. intros _ H.
  cbn [append lstrip_by] in *. destruct (p c) eqn:Hc; [|reflexivity].
  exfalso.
  assert (Hlen : forall t, (String.length (lstrip_by p t) <= String.length t)%nat).
  { induction t as [|x t IHt]; simpl; [lia|]. destruct (p x); simpl; lia. }
  specialize (Hlen r). rewrite H in Hlen. simpl in Hlen. lia.
Qed.

Lemma rstrip_by_nonempty (p : ascii -> bool) (b : string) :
  str_nonempty b = true -> rstrip_by p b = b ->
  forall a, rstrip_by p (a ++ b) = (a ++ b)%string.
Proof.
  intros Hb H a. induction a as [|c r IH]; [exact H|].
  cbn [append rstrip_by]. rewrite IH.
  destruct (r ++ b)%string as [|d t] eqn:Hrb; [|reflexivity].
  destruct r; [|discriminate]. simpl in Hrb. subst b. discriminate.
Qed.

Lemma join_nonempty_parts (sep : string) (parts : list string) :
  parts <> [] -> Forall (fun p => str_nonempty p = true) parts ->
  str_nonempty (join sep parts) = true.
Proof.
  intros Hne Hall. destruct parts as [|a l]; [congruence|].
  apply Forall_cons_iff in Hall. destruct Hall as [Ha _].
  destruct l as [|b l]; [exact Ha|].
  rewrite join_cons_cons. destruct a; [discriminate | reflexivity].
Qed.

(** Joining non-empty trimmed pieces gives a trimmed string. *)
Lemma join_trimmed (sep : string) (parts : list string) :
  Forall (fun p => str_nonempty p = true /\ trimmed p) parts ->
  trimmed (join sep parts).
Proof.
  induction parts as [|a l IH]; intros Hall.
  - split; reflexivity.
  - apply Forall_cons_iff in Hall. destruct Hall as [[Ha [Hl Hr]] Hall].
    destruct l as [|b l]; [split; assumption|].
    rewrite join_cons_cons. specialize (IH Hall). destruct IH as [_ IHr].
    split.
    + apply lstrip_by_app; assumption.
    + rewrite <- append_assoc. apply rstrip_by_nonempty; [|exact IHr].
      apply join_nonempty_parts; [discriminate|].
      apply (List.Forall_impl (fun p => str_nonempty p = true)
                              (fun x Hx => proj1 Hx) Hall).
Qed.

Lemma stripped_pieces (strings : list string) :
  Forall (fun p => str_nonempty p = true /\ trimmed p)
         (List.filter str_nonempty (List.map strip strings)).
Proof.
  apply List.Forall_forall. intros p Hin.
  apply filter_In in Hin. destruct Hin as [Hin Hne].
  apply in_map_iff in Hin. destruct Hin as (s & <- & _).
  split; [exact Hne | apply strip_trimmed].
Qed.

Lemma get_text_trimmed (separator : string) (t : Tag) :
  trimmed (get_text separator true t).
Proof. unfold get_text. apply join_trimmed. apply stripped_pieces. Qed.

(** X5: the title and the source name never carry white space at either
    end, and a source name that is present is the text of the first [span]
    of the card, in document order, whose text is non-empty and has at most
    five words; the source is absent exactly when no [span] has such a
    text. *)
Theorem title_and_source_text (article : Tag) :
  trimmed (_extract_title article)
  /\ (forall s, _extract_source article = Some s ->
        trimmed s /\ s <> "" /\ (List.length (split_ws s) <= 5)%nat
        /\ exists before span after,
            find_all "span" article = (before ++ span :: after)%list
            /\ get_text "" true span = s
            /\ forall x, In x before -> short_label (get_text "" true x) = false)
  /\ (_extract_source article = None <->
      forall span, In span (find_all "span" article) ->
                   short_label (get_text "" true span) = false).
Proof.
  assert (Hfirst : forall spans,
             first_short_text spans
             = option_map (get_text "" true)
                          (List.head (List.filter
                                        (fun x => short_label (get_text "" true x))
                                        spans))).
  { induction spans as [|x l IH]; [reflexivity|].
    cbn [first_short_text List.filter]. unfold short_label at 1.
    destruct (str_nonempty (get_text "" true x)
              && (List.length (split_ws (get_text "" true x)) <=? 5)%nat);
      [reflexivity | exact IH]. }
  split; [|split].
  - unfold _extract_title. destruct (find_tag "a" article).
    + apply get_text_trimmed.
    + split; reflexivity.
  - intros s Hs. unfold _extract_source in Hs. rewrite Hfirst in Hs.
    destruct (List.head _) as [span|] eqn:Hhead; [|discriminate].
    injection Hs as <-.
    apply head_filter_some in Hhead.
    destruct Hhead as (before & after & Hl & Hb & Hx).
    unfold short_label in Hx. apply andb_true_iff in Hx. destruct Hx as [Hne Hw].
    split; [apply get_text_trimmed|]. split.
    + intros Hc. rewrite Hc in Hne. discriminate.
    + split; [apply Nat.leb_le; exact Hw|].
      exists before, span, after. auto.
  - unfold _extract_source. rewrite Hfirst.
    rewrite <- head_filter_none.
    destruct (List.head _); simpl; split; congruence.
Qed.

Lemma title_and_source_text_witness :
  trimmed "MyLondon" /\ "MyLondon" <> ""
  /\ (List.length (split_ws "MyLondon") <= 5)%nat
  /\ exists before span after,
      find_all "span" card_with_byline = (before ++ span :: after)%list
      /\ get_text "" true span = "MyLondon"
      /\ forall x, In x before -> short_label (get_text "" true x) = false.
Proof.
  exact (proj1 (proj2 (title_and_source_text card_with_byline)) "MyLondon" eq_refl).
Defined.

Lemma drop_str_length (n : nat) (s : string) :
  (String.length (drop_str n s) <= String.length s)%nat.
Proof.
  revert s. induction n as [|n IH]; intros s; [simpl; lia|].
  destruct s as [|c r]; simpl; [lia|]. specialize (IH r). lia.
Qed.

(** X6: an author that is present is ["By "] followed by a name of one to
    eighty characters without white space at either end, and the text of
    the card holds the marker ["By "]; a card whose text lacks the marker
    has no author. *)
Theorem author_shape (article : Tag) :
  (forall s, _extract_author article = Some s ->
     exists name,
       s = ("By " ++ name)%string
       /\ (1 <= String.length name <= 80)%nat
       /\ trimmed name
       /\ contains "By " (get_text " " true article) = true)
  /\ (contains "By " (get_text " " true article) = false ->
      _extract_author article = None).
Proof.
  unfold _extract_author, contains. split.
  - intros s Hs.
    destruct (str_nonempty (get_text " " true article)); [|discriminate].
    cbn [negb] in Hs.
    destruct (find "By " (get_text " " true article)) as [idx|]; [|discriminate].
    match type of Hs with
    | (if str_nonempty ?seg && _ then _ else _) = _ => set (name := seg) in *
    end.
    destruct (str_nonempty name) eqn:Hne; [|discriminate].
    destruct (String.length name <=? 80)%nat eqn:Hlen; [|discriminate].
    cbn [andb] in Hs. injection Hs as <-.
    exists name. split; [reflexivity|]. split.
    + apply Nat.leb_le in Hlen. destruct name; [discriminate|]. simpl in *. lia.
    + split; [apply strip_trimmed | reflexivity].
  - intros Hc.
    destruct (str_nonempty (get_text " " true article)); [|reflexivity].
    cbn [negb].
    destruct (find "By " (get_text " " true article)); [discriminate | reflexivity].
Qed.

Lemma author_shape_witness :
  exists name,
    "By Ann" = ("By " ++ name)%string
    /\ (1 <= String.length name <= 80)%nat
    /\ trimmed name
    /\ contains "By " (get_text " " true card_with_byline) = true.
Proof.
  exact (proj1 (author_shape card_with_byline) "By Ann" eq_refl).
Defined.

(** The image the loop keeps is the earliest one of least area: every
    sized image before it is strictly larger, every one after it is at
    least as large. *)
Lemma smallest_image_earliest (imgs : list Tag) :
  forall start,
    match smallest_image imgs start with
    | None => True
    | Some (img, area) =>
        (start = Some (img, area)
         /\ forall x a, In x imgs -> image_area x = Ok a -> area <= a)
        \/ (exists before after,
               imgs = (before ++ img :: after)%list
               /\ image_area img = Ok area
               /\ (forall i0 a0, start = Some (i0, a0) -> area < a0)
               /\ (forall x a, In x before -> image_area x = Ok a -> area < a)
               /\ (forall x a, In x after -> image_area x = Ok a -> area <= a))
    end.
Proof.
  induction imgs as [|img rest IH]; intros start.
  - simpl. destruct start as [[i a]|]; [|exact I].
    left. split; [reflexivity|]. intros x a' [].
  - cbn [smallest_image].
    destruct (image_area img) as [area0|e] eqn:Harea.
    + assert (Hnew :
                match smallest_image rest (Some (img, area0)) with
                | None => True
                | Some (i, area) =>
                    exists before after,
                      (img :: rest) = (before ++ i :: after)%list
                      /\ image_area i = Ok area
                      /\ area <= area0
                      /\ (forall x a, In x before -> image_area x = Ok a -> area < a)
                      /\ (forall x a, In x after -> image_area x = Ok a -> area <= a)
                end).
      { specialize (IH (Some (img, area0))).
        destruct (smallest_image rest (Some (img, area0))) as [[i area]|]; [|exact I].
        destruct IH as [[Hs Hmin] | (before & after & Hl & Ha & Hst & Hb & Haf)].
        - injection Hs as <- <-. exists [], rest.
          split; [reflexivity|]. split; [exact Harea|]. split; [lia|].
          split; [intros x a []|exact Hmin].
        - exists (img :: before), after.
          split; [rewrite Hl; reflexivity|]. split; [exact Ha|].
          specialize (Hst img area0 eq_refl). split; [lia|].
          split; [|exact Haf].
          intros x a [<- | Hin] Hx; [|eauto].
          rewrite Harea in Hx. injection Hx as <-. exact Hst. }
      destruct start as [[i0 a0]|].
      * destruct (Z.ltb_spec area0 a0) as [Hlt|Hge].
        -- destruct (smallest_image rest (Some (img, area0))) as [[i area]|]; [|exact I].
           destruct Hnew as (before & after & Hl & Ha & Hle & Hb & Haf).
           right. exists before, after.
           split; [exact Hl|]. split; [exact Ha|]. split; [|split; assumption].
           intros i1 a1 [= <- <-]. lia.
        -- specialize (IH (Some (i0, a0))).
           destruct (smallest_image rest (Some (i0, a0))) as [[i area]|]; [|exact I].
           destruct IH as [[Hs Hmin] | (before & after & Hl & Ha & Hst & Hb & Haf)].
           ++ left. split; [exact Hs|]. injection Hs as <- <-.
              intros x a [<- | Hin] Hx; [|eauto].
              rewrite Harea in Hx. injection Hx as <-. lia.
           ++ right. exists (img :: before), after.
              split; [rewrite Hl; reflexivity|]. split; [exact Ha|].
              split; [exact Hst|]. split; [|exact Haf].
              specialize (Hst i0 a0 eq_refl).
              intros x a [<- | Hin] Hx; [|eauto].
              rewrite Harea in Hx. injection Hx as <-. lia.
      * destruct (smallest_image rest (Some (img, area0))) as [[i area]|]; [|exact I].
        destruct Hnew as (before & after & Hl & Ha & Hle & Hb & Haf).
        right. exists before, after.
        split; [exact Hl|]. split; [exact Ha|]. split; [|split; assumption].
        intros i1 a1 Hc. discriminate.
    + specialize (IH start).
      destruct (smallest_image rest start) as [[i area]|]; [|exact I].
      destruct IH as [[Hs Hmin] | (before & after & Hl & Ha & Hst & Hb & Haf)].
      * left. split; [exact Hs|].
        intros x a [<- | Hin] Hx; [|eauto]. rewrite Harea in Hx. discriminate.
      * right. exists (img :: before), after.
        split; [rewrite Hl; reflexivity|]. split; [exact Ha|].
        split; [exact Hst|]. split; [|exact Haf].
        intros x a [<- | Hin] Hx; [|eauto]. rewrite Harea in Hx. discriminate.
Qed.

(** X7: among images of the same least area the source icon is taken from
    the earliest in document order: every sized image before the chosen
    one is strictly larger, every one after it at least as large.  In a
    card with a single image that has integer dimensions, the icon is the
    card's image. *)
Theorem source_icon_earliest_smallest (article : Tag) :
  ((exists img a, In img (find_all "img" article) /\ image_area img = Ok a) ->
   exists before img after area,
     find_all "img" article = (before ++ img :: after)%list
     /\ image_area img = Ok area
     /\ (forall x a, In x before -> image_area x = Ok a -> area < a)
     /\ (forall x a, In x after -> image_area x = Ok a -> area <= a)
     /\ _extract_source_icon article
        = or_else (tag_get img "src") (tag_get img "data-src"))
  /\ (forall img a, find_all "img" article = [img] -> image_area img = Ok a ->
        _extract_source_icon article = _extract_image article).
Proof.
  split.
  - intros (img0 & a0 & Hin0 & Ha0). unfold _extract_source_icon.
    pose proof (smallest_image_earliest (find_all "img" article) None) as H.
    pose proof (smallest_image_spec (find_all "img" article) None) as Hs.
    destruct (find_all "img" article) as [|i0 rest] eqn:Himgs; [destruct Hin0|].
    destruct (smallest_image (i0 :: rest) None) as [[img area]|].
    + destruct H as [[Hc _] | (before & after & Hl & Ha & _ & Hb & Haf)];
        [discriminate|].
      exists before, img, after, area. auto.
    + destruct Hs as [_ Hnone]. exfalso. exact (Hnone img0 a0 Hin0 Ha0).
  - intros img a Himgs Ha. unfold _extract_source_icon, _extract_image, find_tag.
    rewrite Himgs. cbn [smallest_image List.head]. rewrite Ha. reflexivity.
Qed.

Lemma source_icon_earliest_smallest_witness :
  exists before img after area,
    find_all "img" card_tied_images = (before ++ img :: after)%list
    /\ image_area img = Ok area
    /\ (forall x a, In x before -> image_area x = Ok a -> area < a)
    /\ (forall x a, In x after -> image_area x = Ok a -> area <= a)
    /\ _extract_source_icon card_tied_images
       = or_else (tag_get img "src") (tag_get img "data-src").
Proof.
  apply (proj1 (source_icon_earliest_smallest card_tied_images)).
  exists img_icon, 100. split; [|reflexivity].
  right. left. reflexivity.
Defined.

Example source_icon_tie :
  _extract_source_icon card_tied_images = Some "https://example.com/icon.png".
Proof. vm_compute. reflexivity. Qed.

(** ** The post-filter and the cutoff, further *)

Lemma list_filter_filter_implied {A : Type} (f g : A -> bool) (l : list A) :
  (forall x, g x = true -> f x = true) ->
  List.filter f (List.filter g l) = List.filter g l.
Proof.
  intros Himp. induction l as [|x l IH]; [reflexivity|].
  cbn [List.filter]. destruct (g x) eqn:Hg; [|exact IH].
  cbn [List.filter]. rewrite (Himp x Hg), IH. reflexivity.
Qed.

Lemma list_filter_filter_narrow {A : Type} (f g : A -> bool) (l : list A) :
  (forall x, f x = true -> g x = true) ->
  List.filter f (List.filter g l) = List.filter f l.
Proof.
  intros Himp. induction l as [|x l IH]; [reflexivity|].
  cbn [List.filter]. destruct (g x) eqn:Hg.
  - cbn [List.filter]. destruct (f x); rewrite IH; reflexivity.
  - destruct (f x) eqn:Hf; [|exact IH].
    rewrite (Himp x Hf) in Hg. discriminate.
Qed.

Section DateFilterComposition.

Variable date_parser_parse : string -> exc PyDatetime.

Local Notation "'filter_since'" :=
(filter_articles_by_published_at date_parser_parse).

Lemma retained_since_earlier (s1 s2 : Z) (art : PyDict) :
s1 <= s2 ->
retained_since date_parser_parse s2 art = true ->
retained_since date_parser_parse s1 art = true.
Proof.
unfold retained_since. intros Hle.
destruct (truthy (dict_get art "publishedAt")); [|auto].
destruct (parse_published_utc date_parser_parse (dict_get art "publishedAt"));
  [|auto].
rewrite !Z.leb_le. lia.
Qed.

(** X8: filtering is idempotent and never adds records, and a later cutoff
  only removes more: filtering at an earlier cutoff and then at a later
  one is filtering at the later one. *)
Theorem filter_since_composes (articles : list PyDict) (s1 s2 : Z) :
filter_since (filter_since articles s1) s1 = filter_since articles s1
/\ (List.length (filter_since articles s1) <= List.length articles)%nat
/\ (s1 <= s2 ->
    filter_since (filter_since articles s1) s2 = filter_since articles s2
    /\ sublist (filter_since articles s2) (filter_since articles s1)).
Proof.
rewrite !filter_since_is_filter. split; [|split].
- apply list_filter_filter_implied. auto.
- apply List.filter_length_le.
- intros Hle.
  assert (Heq : List.filter (retained_since date_parser_parse s2)
                  (List.filter (retained_since date_parser_parse s1) articles)
                = List.filter (retained_since date_parser_parse s2) articles).
  { apply list_filter_filter_narrow. intros x. apply retained_since_earlier. exact Hle. }
  split; [exact Heq|].
  rewrite <- Heq. apply sublist_list_filter.
Qed.

End DateFilterComposition.

Lemma filter_since_composes_witness :
  filter_articles_by_published_at micros_parser
    (filter_articles_by_published_at micros_parser sample_records 100) 101
  = filter_articles_by_published_at micros_parser sample_records 101
  /\ sublist (filter_articles_by_published_at micros_parser sample_records 101)
             (filter_articles_by_published_at micros_parser sample_records 100).
Proof.
  apply (proj2 (proj2 (filter_since_composes micros_parser sample_records 100 101))).
  lia.
Defined.

Lemma cfg_get_singleton (key : string) (v : PyVal) :
  cfg_get {[ key := v ]} key = v.
Proof. unfold cfg_get. rewrite lookup_singleton_eq. reflexivity. Qed.

Lemma cfg_get_singleton_other (key other : string) (v : PyVal) :
  key <> other -> cfg_get {[ key := v ]} other = PyNone.
Proof. intros H. unfold cfg_get. rewrite lookup_singleton_ne by exact H. reflexivity. Qed.

(** X9: the cutoff depends on the first truthy value alone, in the order
    hours, days, years: with [hours] set, [days] and [years] play no part,
    and with [hours] unset and [days] set, [years] plays no part. *)
Theorem parse_since_first_value_decides (now : Z) (cfg : gmap string PyVal) :
  (truthy (cfg_get cfg "hours") = true ->
   parse_since_from_relative_config now cfg
   = parse_since_from_relative_config now {[ "hours" := cfg_get cfg "hours" ]})
  /\ (truthy (cfg_get cfg "hours") = false ->
      truthy (cfg_get cfg "days") = true ->
      parse_since_from_relative_config now cfg
      = parse_since_from_relative_config now {[ "days" := cfg_get cfg "days" ]}).
Proof.
  split.
  - intros Hh. unfold parse_since_from_relative_config.
    rewrite cfg_get_singleton, Hh. reflexivity.
  - intros Hh Hd. unfold parse_since_from_relative_config.
    rewrite cfg_get_singleton, (cfg_get_singleton_other "days" "hours") by discriminate.
    rewrite Hh, Hd. reflexivity.
Qed.

Lemma parse_since_first_value_decides_witness :
  parse_since_from_relative_config 63870000000000000
    {[ "hours" := PyInt 2; "days" := PyInt 5; "years" := PyStr "soon" ]}
  = parse_since_from_relative_config 63870000000000000 {[ "hours" := PyInt 2 ]}.
Proof.
  exact (proj1 (parse_since_first_value_decides 63870000000000000
                  {[ "hours" := PyInt 2; "days" := PyInt 5; "years" := PyStr "soon" ]})
               eq_refl).
Defined.

(** The cutoff computed from the selected value and its unit. *)
Lemma parse_since_selected (now : Z) (cfg : gmap string PyVal) :
  parse_since_from_relative_config now cfg
  = match selected_value cfg with
    | None => Ok None
    | Some (v, unit) =>
        let* n := py_int v in
        let* delta := timedelta_of_micros (n * unit) in
        let* t := datetime_sub now delta in
        Ok (Some t)
    end.
Proof.
  unfold parse_since_from_relative_config, selected_value.
  destruct (truthy (cfg_get cfg "hours")); [reflexivity|].
  destruct (truthy (cfg_get cfg "days")); [reflexivity|].
  destruct (truthy (cfg_get cfg "years")); [|reflexivity].
  destruct (py_int (cfg_get cfg "years")) as [y|e]; [|reflexivity].
  cbn [exc_bind]. unfold timedelta_days.
  rewrite <- Z.mul_assoc. reflexivity.
Qed.

(** X10: what makes [parse_since_from_relative_config] raise, whichever of
    [hours], [days] and [years] is selected (the first truthy one).  A
    selected string that is no integer literal raises [ValueError].  A
    selected value that reads as the integer [n], a numeric string being
    read with [int()], raises [OverflowError] when [n] units are more than
    a [timedelta] holds or lead out of the years 1 to 9999, and gives the
    cutoff [now] minus [n] units otherwise.  The number [0] is not
    selected, but the string ["0"], being non-empty, is: it gives a cutoff
    of [now]. *)
Theorem parse_since_raises (now : Z) (cfg : gmap string PyVal) :
  (forall v unit, selected_value cfg = Some (v, unit) ->
     (forall s, v = PyStr s -> int_of_str s = None ->
        parse_since_from_relative_config now cfg = Raise ValueError)
     /\ (forall n, py_int v = Ok n -> cutoff_in_range now (n * unit) = false ->
           parse_since_from_relative_config now cfg = Raise OverflowError)
     /\ (forall n, py_int v = Ok n -> cutoff_in_range now (n * unit) = true ->
           parse_since_from_relative_config now cfg = Ok (Some (now - n * unit))))
  /\ (forall key,
        key = "hours" \/ key = "days" \/ key = "years" ->
        selected_value {[ key := PyInt 0 ]} = None
        /\ parse_since_from_relative_config now {[ key := PyInt 0 ]} = Ok None
        /\ (datetime_in_range now = true ->
            parse_since_from_relative_config now {[ key := PyStr "0" ]}
            = Ok (Some now))).
Proof.
  split.
  - intros v unit Hsel. rewrite parse_since_selected, Hsel.
    split; [|split].
    + intros s -> Hi. cbn [py_int]. rewrite Hi. reflexivity.
    + intros n Hn Hrange. rewrite Hn. cbn [exc_bind].
      unfold cutoff_in_range in Hrange. unfold timedelta_of_micros.
      destruct ((- MAX_DELTA_DAYS <=? n * unit / MICROS_PER_DAY)
                && (n * unit / MICROS_PER_DAY <=? MAX_DELTA_DAYS)); [|reflexivity].
      cbn [andb exc_bind] in *. unfold datetime_sub. rewrite Hrange. reflexivity.
    + intros n Hn Hrange. rewrite Hn. cbn [exc_bind].
      unfold cutoff_in_range in Hrange. unfold timedelta_of_micros.
      apply andb_true_iff in Hrange. destruct Hrange as [Hd Hr].
      rewrite Hd. cbn [exc_bind]. unfold datetime_sub. rewrite Hr. reflexivity.
  - intros key Hkey.
    assert (Hzero : selected_value {[ key := PyInt 0 ]} = None).
    { destruct Hkey as [-> | [-> | ->]]; vm_compute; reflexivity. }
    split; [exact Hzero|]. split.
    + rewrite parse_since_selected, Hzero. reflexivity.
    + intros Hnow. rewrite parse_since_selected.
      assert (Hsel : exists unit, selected_value {[ key := PyStr "0" ]}
                                  = Some (PyStr "0", unit)).
      { destruct Hkey as [-> | [-> | ->]]; eexists; vm_compute; reflexivity. }
      destruct Hsel as (unit & ->).
      change (py_int (PyStr "0")) with (@Ok Z 0). cbn [exc_bind].
      change (0 * unit) with 0.
      change (timedelta_of_micros 0) with (@Ok Z 0). cbn [exc_bind].
      unfold datetime_sub. rewrite Z.sub_0_r, Hnow. reflexivity.
Qed.

Lemma parse_since_raises_witness :
  parse_since_from_relative_config 63870000000000000
    {[ "hours" := PyInt 0; "days" := PyStr "soon" ]}
  = Raise ValueError
  /\ parse_since_from_relative_config 63870000000000000
       {[ "years" := PyStr "3000" ]}
     = Raise OverflowError
  /\ parse_since_from_relative_config 63870000000000000 {[ "days" := PyStr " 2 " ]}
     = Ok (Some (63870000000000000 - 2 * MICROS_PER_DAY)).
Proof.
  split; [|split].
  - exact (proj1 (proj1 (parse_since_raises 63870000000000000
                           {[ "hours" := PyInt 0; "days" := PyStr "soon" ]})
                        (PyStr "soon") MICROS_PER_DAY eq_refl)
                 "soon" eq_refl eq_refl).
  - exact (proj1 (proj2 (proj1 (parse_since_raises 63870000000000000
                                  {[ "years" := PyStr "3000" ]})
                               (PyStr "3000") (365 * MICROS_PER_DAY) eq_refl))
                 3000 eq_refl eq_refl).
  - exact (proj2 (proj2 (proj1 (parse_since_raises 63870000000000000
                                  {[ "days" := PyStr " 2 " ]})
                               (PyStr " 2 ") MICROS_PER_DAY eq_refl))
                 2 eq_refl eq_refl).
Defined.

(** ** The exporter and the file system *)

(** A sequence that returned went through both of its steps. *)
Lemma exc_bind_ok {A B : Type} (m : exc A) (k : A -> exc B) (b : B) :
  exc_bind m k = Ok b -> exists a, m = Ok a /\ k a = Ok b.
Proof. destruct m as [a|e]; [|discriminate]. intros H. exists a. auto. Qed.

(** Creating directories leaves the files alone and only adds
    directories. *)
Lemma mkdir_parents_frame (todo : list string) :
  forall fs done fs',
    mkdir_parents fs done todo = Ok fs' ->
    fs_files fs' = fs_files fs /\ fs_dirs fs ⊆ fs_dirs fs'.
Proof.
  induction todo as [|c rest IH]; intros fs done fs' H; simpl in H.
  - injection H as <-. split; [reflexivity | set_solver].
  - destruct (is_file fs (done ++ [c])); [discriminate|].
    apply IH in H. simpl in H. destruct H as [Hf Hd].
    split; [exact Hf|]. intros x Hx. apply Hd. apply elem_of_union_r. exact Hx.
Qed.

Lemma is_dir_more_dirs (fs fs' : FileSystem) (path : list string) :
  fs_dirs fs ⊆ fs_dirs fs' -> is_dir fs path = true -> is_dir fs' path = true.
Proof.
  unfold is_dir. intros Hsub H.
  apply bool_decide_eq_true in H. apply bool_decide_eq_true.
  destruct H as [H | H]; [left; exact H | right; set_solver].
Qed.

(** The directories [mkdir] creates are those on the way down: [done]
    followed by a non-empty prefix of [todo]. *)
Lemma mkdir_parents_created (todo : list string) :
  forall fs done fs',
    mkdir_parents fs done todo = Ok fs' ->
    forall p, p ∈ fs_dirs fs' ->
              p ∈ fs_dirs fs
              \/ exists n, (0 < n <= List.length todo)%nat
                           /\ p = (done ++ take n todo)%list.
Proof.
  induction todo as [|c rest IH]; intros fs done fs' H p Hp; simpl in H.
  - injection H as <-. left. exact Hp.
  - destruct (is_file fs (done ++ [c])); [discriminate|].
    destruct (IH _ _ _ H p Hp) as [Hin | (n & Hn & Hpn)].
    + simpl in Hin. apply elem_of_union in Hin. destruct Hin as [Hin | Hin].
      * apply elem_of_singleton in Hin. right. exists 1%nat.
        split; [simpl; lia|]. exact Hin.
      * left. exact Hin.
    + right. exists (S n). split; [simpl; lia|].
      rewrite Hpn, <- app_assoc. reflexivity.
Qed.

(** The parent directories are made from the root down, touching no
    file. *)
Lemma ensure_parent_dir_effect (path : list string) (fs fs1 : FileSystem) :
  _ensure_parent_dir path fs = Ok fs1 ->
  fs_files fs1 = fs_files fs
  /\ fs_dirs fs ⊆ fs_dirs fs1
  /\ forall d, d ∈ fs_dirs fs1 ->
               d ∈ fs_dirs fs
               \/ exists n, (0 < n <= List.length (path_parent path))%nat
                            /\ d = take n (path_parent path).
Proof.
  unfold _ensure_parent_dir.
  destruct (negb (path_exists fs (path_parent path))).
  - intros Hm. destruct (mkdir_parents_frame _ _ _ _ Hm) as [Hf Hd].
    split; [exact Hf|]. split; [exact Hd|].
    intros d Hin. exact (mkdir_parents_created _ _ _ _ Hm d Hin).
  - intros H. injection H as <-. split; [reflexivity|]. split; [set_solver|].
    intros d Hin. left. exact Hin.
Qed.

Lemma write_text_ok (path : list string) (text : string) (fs fs' : FileSystem) :
  write_text path text fs = Ok fs' ->
  is_dir fs path = false
  /\ is_dir fs (path_parent path) = true
  /\ fs' = mkFS (fs_dirs fs) (<[path := text]> (fs_files fs)).
Proof.
  unfold write_text.
  destruct (is_dir fs path); [discriminate|].
  destruct (is_dir fs (path_parent path)); [|discriminate].
  cbn [negb]. intros H. injection H as <-. auto.
Qed.

(** X11: what an export that returns has done.  The output file holds
    exactly the encoded records, whatever it held before; every other file
    is as it was; no directory is gone, and the only directories created
    are those on the way to the output file, whose parent now exists.
    The output path was no directory. *)
Theorem export_to_json_touches_only_target (articles : list PyDict)
        (path : list string) (pretty : bool) (fs fs' : FileSystem) :
  export_to_json articles path pretty fs = Ok fs' ->
  fs_files fs' !! path = Some (json_dumps pretty articles)
  /\ (forall other, other <> path -> fs_files fs' !! other = fs_files fs !! other)
  /\ fs_dirs fs ⊆ fs_dirs fs'
  /\ (forall d, d ∈ fs_dirs fs' ->
                d ∈ fs_dirs fs
                \/ exists n, (0 < n <= List.length (path_parent path))%nat
                             /\ d = take n (path_parent path))
  /\ is_dir fs' (path_parent path) = true
  /\ is_dir fs path = false.
Proof.
  unfold export_to_json. intros H.
  apply exc_bind_ok in H. destruct H as (fs1 & Hens & Hw).
  destruct (ensure_parent_dir_effect _ _ _ Hens) as (Hf & Hsub & Hnew).
  destruct (write_text_ok _ _ _ _ Hw) as (Hp & Hpp & ->). cbn [fs_files fs_dirs].
  split; [apply lookup_insert_eq|].
  split; [intros other Hne; rewrite lookup_insert_ne by congruence;
          rewrite Hf; reflexivity|].
  split; [exact Hsub|]. split; [exact Hnew|]. split; [exact Hpp|].
  destruct (is_dir fs path) eqn:E; [|reflexivity].
  rewrite (is_dir_more_dirs fs fs1 path Hsub E) in Hp. discriminate.
Qed.

Lemma export_to_json_touches_only_target_witness :
  fs_files exported_pretty_fs !! sample_path = Some (json_dumps true sample_articles)
  /\ (forall other, other <> sample_path ->
                    fs_files exported_pretty_fs !! other = fs_files empty_fs !! other)
  /\ fs_dirs empty_fs ⊆ fs_dirs exported_pretty_fs
  /\ (forall d, d ∈ fs_dirs exported_pretty_fs ->
                d ∈ fs_dirs empty_fs
                \/ exists n, (0 < n <= List.length (path_parent sample_path))%nat
                             /\ d = take n (path_parent sample_path))
  /\ is_dir exported_pretty_fs (path_parent sample_path) = true
  /\ is_dir empty_fs sample_path = false.
Proof.
  apply (export_to_json_touches_only_target sample_articles sample_path true
           empty_fs exported_pretty_fs).
  vm_compute. reflexivity.
Defined.

(** X12: the last export wins.  When two exports to the same path have
    both returned, the file system is exactly what the second export
    alone would have left: the file holds the records of the second call
    only, nothing of the first is kept or merged, and the second call
    creates no directory. *)
Theorem export_to_json_last_wins (first second : list PyDict) (path : list string)
        (pretty1 pretty2 : bool) (fs fs1 fs2 : FileSystem) :
  export_to_json first path pretty1 fs = Ok fs1 ->
  export_to_json second path pretty2 fs1 = Ok fs2 ->
  export_to_json second path pretty2 fs = Ok fs2
  /\ fs_files fs2 = <[path := json_dumps pretty2 second]> (fs_files fs)
  /\ fs_dirs fs2 = fs_dirs fs1.
Proof.
  unfold export_to_json. intros H1 H2.
  apply exc_bind_ok in H1. destruct H1 as (fsm & Hens & Hw1).
  destruct (ensure_parent_dir_effect _ _ _ Hens) as (Hf & _ & _).
  destruct (write_text_ok _ _ _ _ Hw1) as (Hp & Hpp & ->).
  assert (Hens2 : _ensure_parent_dir path
                    (mkFS (fs_dirs fsm) (<[path := json_dumps pretty1 first]> (fs_files fsm)))
                  = Ok (mkFS (fs_dirs fsm)
                             (<[path := json_dumps pretty1 first]> (fs_files fsm)))).
  { unfold _ensure_parent_dir, path_exists.
    change (is_dir (mkFS (fs_dirs fsm) _) (path_parent path))
      with (is_dir fsm (path_parent path)).
    rewrite Hpp. reflexivity. }
  rewrite Hens2 in H2. cbn [exc_bind] in H2.
  destruct (write_text_ok _ _ _ _ H2) as (_ & _ & ->). cbn [fs_files fs_dirs].
  rewrite insert_insert_eq.
  split; [|split; [rewrite Hf; reflexivity | reflexivity]].
  rewrite Hens. cbn [exc_bind]. unfold write_text. rewrite Hp, Hpp. reflexivity.
Qed.

Lemma export_to_json_last_wins_witness :
  export_to_json [] sample_path true empty_fs
  = Ok (mkFS {[ ["data"] ]} {[ sample_path := "[]" ]})
  /\ fs_files (mkFS {[ ["data"] ]} {[ sample_path := "[]" ]})
     = <[sample_path := json_dumps true []]> (fs_files empty_fs)
  /\ fs_dirs (mkFS {[ ["data"] ]} {[ sample_path := "[]" ]}) = fs_dirs exported_fs.
Proof.
  apply (export_to_json_last_wins sample_articles [] sample_path false true
           empty_fs exported_fs).
  - vm_compute. reflexivity.
  - vm_compute. reflexivity.
Defined.

(** X13: the export raises [OSError] when the output path is a directory,
    and when its parent exists as a file and not as a directory. *)
Theorem export_to_json_fails (articles : list PyDict) (path : list string)
        (pretty : bool) (fs : FileSystem) :
  (is_dir fs path = true ->
   export_to_json articles path pretty fs = Raise OSError)
  /\ (is_file fs (path_parent path) = true ->
      is_dir fs (path_parent path) = false ->
      export_to_json articles path pretty fs = Raise OSError).
Proof.
  split.
  - intros Hd. unfold export_to_json, _ensure_parent_dir.
    destruct (negb (path_exists fs (path_parent path))).
    + destruct (mkdir_parents fs [] (path_parent path)) as [fs1|e] eqn:Hm.
      * cbn [exc_bind]. unfold write_text.
        pose proof (mkdir_parents_frame _ _ _ _ Hm) as [_ Hsub].
        rewrite (is_dir_more_dirs fs fs1 path Hsub Hd). reflexivity.
      * assert (He : e = OSError).
        { clear -Hm. revert Hm. generalize (@nil string). revert fs.
          induction (path_parent path) as [|c rest IH]; intros fs done H; simpl in H.
          - discriminate.
          - destruct (is_file fs (done ++ [c])); [congruence|]. eauto. }
        rewrite He. reflexivity.
    + cbn [exc_bind]. unfold write_text. rewrite Hd. reflexivity.
  - intros Hf Hd. unfold export_to_json, _ensure_parent_dir, path_exists.
    rewrite Hf, orb_true_r. cbn [negb exc_bind]. unfold write_text.
    rewrite Hd. destruct (is_dir fs path); reflexivity.
Qed.

Lemma export_to_json_fails_witness :
  export_to_json sample_articles ["data"; "out"] false used_fs = Raise OSError
  /\ export_to_json sample_articles ["data"; "old.json"; "x.json"] false used_fs
     = Raise OSError.
Proof.
  split.
  - apply (proj1 (export_to_json_fails sample_articles ["data"; "out"] false used_fs)).
    vm_compute. reflexivity.
  - apply (proj2 (export_to_json_fails sample_articles
                    ["data"; "old.json"; "x.json"] false used_fs));
      vm_compute; reflexivity.
Defined.

(** ** The pretty form of the export *)

Lemma json_scan_member_step_pretty (fuel : nat) (k : string) (v : PyVal)
      (tail : string) (acc : PyDict) :
  continues_number tail = false ->
  json_scan_members (S fuel) (json_encode_member true (k, v) ++ tail) acc
  = match skip_ws tail with
    | String "," rest3 => json_scan_members fuel (skip_ws rest3) (dict_set acc k v)
    | String "}" rest3 => Some (dict_set acc k v, rest3)
    | _ => None
    end.
Proof.
  intros Htail. unfold json_encode_member. cbn [fst snd].
  rewrite !append_assoc. rewrite json_encode_str_app.
  cbn [json_scan_members].
  change (Ascii.eqb json_quote json_quote) with true. cbv iota.
  rewrite json_scan_string_escape.
  change (skip_ws (": " ++ json_encode_val v ++ tail))
    with (String ":" (String " " (json_encode_val v ++ tail))).
  cbv iota.
  change (skip_ws (String " " (json_encode_val v ++ tail)))
    with (skip_ws (json_encode_val v ++ tail)).
  rewrite skip_ws_encode_val, (json_scan_val_encode v tail Htail).
  reflexivity.
Qed.

Lemma json_members_head_pretty (sep : string) (kv : string * PyVal) (d : PyDict)
      (tail : string) :
  exists body,
    (join sep (List.map (json_encode_member true) (kv :: d)) ++ tail)%string
    = String json_quote body.
Proof.
  destruct d as [|kv2 d]; cbn [List.map join]; unfold json_encode_member at 1.
  - rewrite !append_assoc, json_encode_str_app. eauto.
  - rewrite !append_assoc, json_encode_str_app. eauto.
Qed.

Lemma json_scan_members_pretty (d : PyDict) :
  forall acc fuel rest,
    d <> [] -> (List.length d <= fuel)%nat ->
    json_scan_members fuel
      (join ("," ++ newline ++ "    ") (List.map (json_encode_member true) d)
       ++ newline ++ "  " ++ String "}" rest) acc
    = Some (dict_of_pairs d acc, rest).
Proof.
  induction d as [|[k v] d IH]; intros acc fuel rest Hne Hfuel; [congruence|].
  destruct fuel as [|fuel]; [simpl in Hfuel; lia|].
  destruct d as [|kv2 d].
  - cbn [List.map join].
    rewrite json_scan_member_step_pretty by reflexivity. reflexivity.
  - change (join ("," ++ newline ++ "    ")
                 (List.map (json_encode_member true) ((k, v) :: kv2 :: d)))
      with (json_encode_member true (k, v) ++ ("," ++ newline ++ "    ") ++
            join ("," ++ newline ++ "    ")
                 (List.map (json_encode_member true) (kv2 :: d)))%string.
    rewrite !append_assoc.
    rewrite json_scan_member_step_pretty by reflexivity.
    destruct (json_members_head_pretty ("," ++ newline ++ "    ") kv2 d
                (newline ++ "  " ++ String "}" rest)) as (body & Hbody).
    rewrite Hbody.
    change (skip_ws ("," ++ newline ++ "    " ++ String json_quote body))
      with (String "," (newline ++ "    " ++ String json_quote body)).
    cbv iota.
    change (skip_ws (newline ++ "    " ++ String json_quote body))
      with (String json_quote body).
    rewrite <- Hbody.
    rewrite IH; [reflexivity | discriminate | simpl in *; lia].
Qed.

Lemma json_scan_object_members_pretty (fuel : nat) (body : string) :
  json_scan_object fuel ("{" ++ newline ++ "    " ++ String json_quote body)
  = json_scan_members fuel (String json_quote body) [].
Proof. reflexivity. Qed.

Lemma json_scan_object_pretty (d : PyDict) (fuel : nat) (rest : string) :
  unique_keys d -> (List.length d <= fuel)%nat ->
  json_scan_object fuel (json_encode_dict true d ++ rest) = Some (d, rest).
Proof.
  intros Hnd Hfuel. destruct d as [|kv d].
  - reflexivity.
  - unfold json_encode_dict. rewrite !append_assoc.
    destruct (json_members_head_pretty ("," ++ newline ++ "    ") kv d
                (newline ++ "  " ++ String "}" rest)) as (body & Hbody).
    change ("}" ++ rest)%string with (String "}" rest).
    rewrite Hbody, json_scan_object_members_pretty, <- Hbody.
    rewrite json_scan_members_pretty; [|discriminate|exact Hfuel].
    rewrite (dict_of_pairs_unique (kv :: d) []); [reflexivity|].
    exact Hnd.
Qed.

Lemma json_encode_dict_length_pretty (d : PyDict) :
  (1 + List.length d <= String.length (json_encode_dict true d))%nat.
Proof.
  destruct d as [|kv d]; [simpl; lia|].
  unfold json_encode_dict. rewrite !append_length.
  pose proof (join_length_count ("," ++ newline ++ "    ")
                (List.map (json_encode_member true) (kv :: d))) as H.
  rewrite length_map in H.
  assert (Hp : forall p, In p (List.map (json_encode_member true) (kv :: d)) ->
                         (1 <= String.length p)%nat).
  { intros p Hin. apply in_map_iff in Hin. destruct Hin as (x & <- & _).
    unfold json_encode_member, json_encode_str. simpl. lia. }
  specialize (H Hp). simpl String.length at 1. lia.
Qed.

Lemma json_encode_dicts_length_pretty (sep : string) (l : list PyDict) :
  (total_size l <= String.length (join sep (List.map (json_encode_dict true) l)))%nat.
Proof.
  induction l as [|d l IH]; [simpl; lia|].
  destruct l as [|d2 l].
  - simpl total_size. simpl List.map. simpl join.
    pose proof (json_encode_dict_length_pretty d). lia.
  - change (List.map (json_encode_dict true) (d :: d2 :: l))
      with (json_encode_dict true d :: List.map (json_encode_dict true) (d2 :: l)).
    cbn [List.map] in *. rewrite join_cons_cons, !append_length.
    pose proof (json_encode_dict_length_pretty d).
    cbn [total_size] in *. lia.
Qed.

Lemma json_dict_head_pretty (d : PyDict) (tail : string) :
  exists body, (json_encode_dict true d ++ tail)%string = String "{" body.
Proof.
  destruct d as [|kv d]; unfold json_encode_dict.
  - eexists. reflexivity.
  - rewrite !append_assoc. eexists. reflexivity.
Qed.

Lemma json_dicts_head_pretty (sep : string) (d : PyDict) (l : list PyDict)
      (tail : string) :
  exists body,
    (join sep (List.map (json_encode_dict true) (d :: l)) ++ tail)%string
    = String "{" body.
Proof.
  destruct l as [|d2 l]; cbn [List.map].
  - cbn [join]. apply json_dict_head_pretty.
  - rewrite join_cons_cons, append_assoc. apply json_dict_head_pretty.
Qed.

Lemma json_scan_items_pretty (l : list PyDict) :
  forall acc fuel rest,
    l <> [] -> Forall unique_keys l -> (total_size l <= fuel)%nat ->
    json_scan_items fuel
      (join ("," ++ newline ++ "  ") (List.map (json_encode_dict true) l)
       ++ newline ++ String "]" rest) acc
    = Some ((acc ++ l)%list, rest).
Proof.
  induction l as [|d l IH]; intros acc fuel rest Hne Hall Hfuel; [congruence|].
  destruct fuel as [|fuel]; [simpl in Hfuel; lia|].
  apply Forall_cons_iff in Hall. destruct Hall as [Hd Hall].
  cbn [total_size] in Hfuel.
  destruct l as [|d2 l].
  - cbn [List.map join json_scan_items].
    rewrite json_scan_object_pretty; [|exact Hd|lia].
    reflexivity.
  - cbn [List.map] in *. rewrite join_cons_cons, !append_assoc.
    cbn [json_scan_items].
    rewrite json_scan_object_pretty; [|exact Hd|lia].
    destruct (json_dicts_head_pretty ("," ++ newline ++ "  ") d2 l
                (newline ++ String "]" rest)) as (body & Hbody).
    cbn [List.map] in Hbody. rewrite Hbody.
    change (skip_ws ("," ++ newline ++ "  " ++ String "{" body))
      with (String "," (newline ++ "  " ++ String "{" body)).
    cbv iota.
    change (skip_ws (newline ++ "  " ++ String "{" body)) with (String "{" body).
    rewrite <- Hbody.
    rewrite (IH (acc ++ [d])%list fuel rest); [|discriminate|exact Hall|lia].
    rewrite <- app_assoc. reflexivity.
Qed.

Lemma json_loads_array_pretty (body : string) :
  json_loads ("[" ++ newline ++ "  " ++ String "{" body)
  = match json_scan_items
            (S (String.length ("[" ++ newline ++ "  " ++ String "{" body)))
            (String "{" body) [] with
    | Some (items, rest) =>
        match skip_ws rest with
        | EmptyString => Some items
        | _ => None
        end
    | None => None
    end.
Proof. reflexivity. Qed.

Lemma json_loads_dumps_pretty (articles : list PyDict) :
  Forall unique_keys articles ->
  json_loads (json_dumps true articles) = Some articles.
Proof.
  intros Hall. destruct articles as [|d l]; [reflexivity|].
  unfold json_dumps.
  destruct (json_dicts_head_pretty ("," ++ newline ++ "  ") d l
              (newline ++ String "]" "")) as (body & Hbody).
  pose proof (json_encode_dicts_length_pretty ("," ++ newline ++ "  ") (d :: l)) as Hlen.
  assert (Hfuel : (total_size (d :: l)
                   <= S (String.length ("[" ++ newline ++ "  " ++
                         (join ("," ++ newline ++ "  ")
                               (List.map (json_encode_dict true) (d :: l))
                          ++ newline ++ String "]" ""))))%nat).
  { rewrite !append_length. lia. }
  change (newline ++ "]")%string with (newline ++ String "]" "")%string.
  rewrite Hbody.
  rewrite json_loads_array_pretty, <- Hbody.
  rewrite (json_scan_items_pretty (d :: l) [] _ "" ltac:(discriminate) Hall Hfuel).
  reflexivity.
Qed.

(** X14: the pretty form reads back too.  When [export_to_json] has written
    well-formed records with [pretty = true] (its default), the file holds
    exactly the text [to_pretty_json] gives for them, and parsing it yields
    the records written; so the pretty and the compact form of the same
    records decode to the same list. *)
Theorem export_pretty_round_trip (articles : list PyDict) (output_path : list string)
        (fs fs' : FileSystem) :
  Forall unique_keys articles ->
  export_to_json articles output_path true fs = Ok fs' ->
  fs_files fs' !! output_path = Some (to_pretty_json articles)
  /\ json_load output_path fs' = Some articles
  /\ json_loads (to_pretty_json articles) = json_loads (json_dumps false articles).
Proof.
  intros Hall Hexp. unfold export_to_json in Hexp.
  destruct (_ensure_parent_dir output_path fs) as [fs1|e]; [|discriminate].
  simpl in Hexp. apply write_text_read in Hexp.
  unfold json_load, to_pretty_json. rewrite Hexp.
  rewrite (json_loads_dumps_pretty articles Hall), (json_loads_dumps articles Hall).
  auto.
Qed.

Lemma export_pretty_round_trip_witness :
  fs_files exported_pretty_fs !! sample_path = Some (to_pretty_json sample_articles)
  /\ json_load sample_path exported_pretty_fs = Some sample_articles
  /\ json_loads (to_pretty_json sample_articles)
     = json_loads (json_dumps false sample_articles).
Proof.
  apply (export_pretty_round_trip sample_articles sample_path empty_fs
           exported_pretty_fs).
  - unfold sample_articles.
    constructor; [apply to_dict_unique_keys|].
    constructor; [|constructor].
    unfold unique_keys. cbn [List.map fst].
    repeat (apply List.NoDup_cons; [cbn [In]; intuition discriminate|]).
    apply List.NoDup_nil.
  - vm_compute. reflexivity.
Defined.

(** ** Characters of the output *)

Lemma all_chars_app (p : ascii -> bool) (a b : string) :
  all_chars p (a ++ b) = all_chars p a && all_chars p b.
Proof.
  induction a as [|c r IH]; [reflexivity|].
  cbn [append all_chars]. rewrite IH, andb_assoc. reflexivity.
Qed.

Lemma all_chars_join (p : ascii -> bool) (sep : string) (parts : list string) :
  all_chars p sep = true ->
  Forall (fun s => all_chars p s = true) parts ->
  all_chars p (join sep parts) = true.
Proof.
  intros Hsep Hall. induction parts as [|a l IH]; [reflexivity|].
  apply Forall_cons_iff in Hall. destruct Hall as [Ha Hall].
  destruct l as [|b l]; [exact Ha|].
  rewrite join_cons_cons, !all_chars_app, Ha, Hsep, (IH Hall). reflexivity.
Qed.

Lemma json_escape_no_control (s : string) :
  all_chars no_control (json_escape s) = true.
Proof.
  induction s as [|c r IH]; [reflexivity|].
  cbn [json_escape]. rewrite all_chars_app, IH, andb_true_r.
  destruct c as [[] [] [] [] [] [] [] []]; vm_compute; reflexivity.
Qed.

Lemma string_of_uint_no_control (d : Decimal.uint) :
  all_chars no_control (NilEmpty.string_of_uint d) = true.
Proof. induction d; cbn [NilEmpty.string_of_uint all_chars]; auto. Qed.

Lemma str_of_int_no_control (n : Z) : all_chars no_control (str_of_int n) = true.
Proof.
  unfold str_of_int, NilZero.string_of_int, NilZero.string_of_uint.
  destruct (Z.to_int n) as [d|d]; destruct d;
    try reflexivity;
    cbn [all_chars append NilEmpty.string_of_uint];
    try apply string_of_uint_no_control;
    rewrite ?string_of_uint_no_control; reflexivity.
Qed.

Lemma json_encode_str_no_control (s : string) :
  all_chars no_control (json_encode_str s) = true.
Proof.
  unfold json_encode_str. cbn [all_chars].
  rewrite all_chars_app, json_escape_no_control. reflexivity.
Qed.

Lemma json_encode_dict_no_control (d : PyDict) :
  all_chars no_control (json_encode_dict false d) = true.
Proof.
  destruct d as [|kv d]; [reflexivity|].
  unfold json_encode_dict. rewrite !all_chars_app.
  rewrite all_chars_join; [reflexivity | reflexivity |].
  apply List.Forall_forall. intros s Hin. apply in_map_iff in Hin.
  destruct Hin as ([k v] & <- & _).
  unfold json_encode_member. cbn [fst snd].
  rewrite !all_chars_app, json_encode_str_no_control.
  destruct v as [|[]|n|t]; cbn [json_encode_val]; try reflexivity.
  - rewrite str_of_int_no_control. reflexivity.
  - rewrite json_encode_str_no_control. reflexivity.
Qed.

(** X15: the compact form of an export is a single line: whatever the
    records hold, the text [json.dump] writes with [pretty = false] has no
    character below code 32 in it, so no line feed and no carriage
    return. *)
Theorem json_compact_single_line (articles : list PyDict) :
  all_chars no_control (json_dumps false articles) = true.
Proof.
  destruct articles as [|d l]; [reflexivity|].
  unfold json_dumps. rewrite !all_chars_app.
  rewrite all_chars_join; [reflexivity | reflexivity |].
  apply List.Forall_forall. intros s Hin. apply in_map_iff in Hin.
  destruct Hin as (x & <- & _). apply json_encode_dict_no_control.
Qed.

Lemma quote_plus_url_chars (s : string) : all_chars url_char (quote_plus s) = true.
Proof.
  induction s as [|c r IH]; [reflexivity|].
  cbn [quote_plus]. rewrite all_chars_app, IH, andb_true_r.
  destruct c as [[] [] [] [] [] [] [] []]; vm_compute; reflexivity.
Qed.

(** X16: the search URL is a plain ASCII URL below the base origin: it
    starts with the base origin and the path [/search?q=], and whatever the
    query, the window, the language and the region hold, every character
    of it is a letter, a digit, one of [_.-~], an escape or a delimiter of
    the URL; there is no space and no raw special character in it. *)
Theorem build_search_url_shape (self : GoogleNewsScraper) (query : string)
        (when : option string) :
  startswith (GOOGLE_NEWS_BASE ++ "/search?q=") (build_search_url self query when)
  = true
  /\ all_chars url_char (build_search_url self query when) = true.
Proof.
  unfold build_search_url, urlencode. cbn [List.map fst snd].
  split.
  - reflexivity.
  - rewrite !all_chars_app.
    rewrite all_chars_join; [reflexivity | reflexivity |].
    repeat (apply List.Forall_cons;
            [rewrite !all_chars_app, !quote_plus_url_chars; reflexivity|]).
    apply List.Forall_nil.
Qed.

(** ** The resolver's second request *)

Section ResolverFallback.

Variable World : Type.
Variable session_head : string -> World -> exc Response * World.
Variable session_get : string -> World -> exc Response * World.

(** X17: when HEAD is answered with a status of 400 or more and without a
  redirect, the resolver asks again with GET and returns the URL of that
  second response whatever its status is, even an error status; when
  HEAD reports a redirect, its URL is returned without a second request,
  even if the status at the end of the redirects is an error. *)
Theorem resolve_redirect_second_request (url : string) (w : World)
      (resp : Response) (w1 : World) :
session_head url w = (Ok resp, w1) ->
(is_redirect resp = false -> history resp = [] -> 400 <= status_code resp ->
 forall resp2 w2,
   session_get url w1 = (Ok resp2, w2) ->
   _resolve_redirect World session_head session_get url w
   = (Ok (Some (resp_url resp2)), w2))
/\ (is_redirect resp = true \/ history resp <> [] ->
    _resolve_redirect World session_head session_get url w
    = (Ok (Some (resp_url resp)), w1)).
Proof.
intros Hh. split.
- intros Hr Hi Hs resp2 w2 Hg.
  unfold _resolve_redirect, try_except, resolve_redirect_body.
  rewrite Hh, Hr, Hi. simpl.
  apply Z.leb_le in Hs. rewrite Hs, Hg. reflexivity.
- apply resolve_redirect_redirected. exact Hh.
Qed.

End ResolverFallback.

Lemma resolve_redirect_second_request_witness :
  _resolve_redirect nat head_rejected get_not_found "https://example.com/a" O
  = (Ok (Some "https://example.com/a/gone"), 2%nat).
Proof.
  refine (proj1 (resolve_redirect_second_request nat head_rejected get_not_found
                   "https://example.com/a" O
                   (mkResponse "https://example.com/a" 405 false [] "") 1%nat
                   eq_refl)
                eq_refl eq_refl _
                (mkResponse "https://example.com/a/gone" 404 false [] "not found")
                2%nat eq_refl).
  simpl. lia.
Defined.

Lemma search_cap_witness :
  Z.of_nat (List.length (records_of (search_page page_ten_cards 3))) <= 3
  /\ exists html w1,
      _get nat page_get (build_search_url sample_scraper "banana" None) O
      = (Ok html, w1)
      /\ List.map (fun d => dict_get d "articleUrl")
                  (records_of (search_page page_ten_cards 3))
         = List.map PyStr
             (firstn (Z.to_nat 3)
                     (omap (resolvable_url (fun _ => true))
                           (_extract_article_elements page_ten_cards))).
Proof.
  apply (search_cap nat offline_head page_get S (fun _ => page_ten_cards)
           micros_parser micros_isoformat (fun _ => true) sample_scraper
           "banana" None 3 O (records_of (search_page page_ten_cards 3)) 7%nat).
  - lia.
  - vm_compute. reflexivity.
Defined.

(** ** The effective configuration *)

Lemma members_lookup_set_same (d : JObject) (key : string) (value : JVal) :
  members_lookup (members_set d key value) key = Some value.
Proof.
  induction d as [|[k v] rest IH]; cbn [members_set members_lookup].
  - rewrite String.eqb_refl. reflexivity.
  - destruct (String.eqb k key) eqn:E; cbn [members_lookup]; rewrite E; auto.
Qed.

Lemma members_lookup_set_other (d : JObject) (key key' : string) (value : JVal) :
  key' <> key ->
  members_lookup (members_set d key value) key' = members_lookup d key'.
Proof.
  intros Hne. induction d as [|[k v] rest IH]; cbn [members_set members_lookup].
  - destruct (String.eqb key key') eqn:E; [|reflexivity].
    apply String.eqb_eq in E. congruence.
  - destruct (String.eqb k key) eqn:E; cbn [members_lookup].
    + apply String.eqb_eq in E. subst k.
      destruct (String.eqb key key') eqn:E'; [|reflexivity].
      apply String.eqb_eq in E'. congruence.
    + rewrite IH. reflexivity.
Qed.

(** What the run of [merge_cli_with_settings] went through when it
    returned. *)
Lemma merge_ok_inv (args : Namespace) (settings result : JObject) :
  merge_cli_with_settings args settings = Ok result ->
  exists t1 t2 t3 o1 o2 o3 n1,
    set_if_given (settings_get_default settings "relative_time" (JDict []))
                 "hours" (args_hours args) = Ok t1
    /\ set_if_given t1 "days" (args_days args) = Ok t2
    /\ set_if_given t2 "years" (args_years args) = Ok t3
    /\ (if jtruthy (of_opt_str (args_output args))
        then setitem (settings_get_default settings "output" (JDict []))
                     "path" (of_opt_str (args_output args))
        else Ok (settings_get_default settings "output" (JDict []))) = Ok o1
    /\ set_default o1 "format" (JAtom (PyStr "json")) = Ok o2
    /\ set_default o2 "pretty" (JAtom (PyBool true)) = Ok o3
    /\ set_if_given (settings_get_default settings "network" (JDict []))
                    "timeout" (args_timeout args) = Ok n1
    /\ result =
       [("query",
         py_or (py_or (of_opt_str (args_query args)) (settings_get settings "query"))
               (JAtom (PyStr "banana")));
        ("language",
         py_or (py_or (of_opt_str (args_language args))
                      (settings_get settings "language"))
               (JAtom (PyStr "en")));
        ("region",
         py_or (py_or (of_opt_str (args_region args)) (settings_get settings "region"))
               (JAtom (PyStr "US")));
        ("max_items",
         py_or (py_or (of_opt_int (args_max_items args))
                      (settings_get settings "max_items"))
               (JAtom (PyInt 50)));
        ("relative_time", t3);
        ("output", o3);
        ("network", n1);
        ("decode_articles",
         if args_no_decode args then JAtom (PyBool false)
         else settings_get_default settings "decode_articles" (JAtom (PyBool true)))].
Proof.
  unfold merge_cli_with_settings. intros H.
  apply exc_bind_ok in H. destruct H as (t1 & Ht1 & H).
  apply exc_bind_ok in H. destruct H as (t2 & Ht2 & H).
  apply exc_bind_ok in H. destruct H as (t3 & Ht3 & H).
  apply exc_bind_ok in H. destruct H as (o1 & Ho1 & H).
  apply exc_bind_ok in H. destruct H as (o2 & Ho2 & H).
  apply exc_bind_ok in H. destruct H as (o3 & Ho3 & H).
  apply exc_bind_ok in H. destruct H as (n1 & Hn1 & H).
  exists t1, t2, t3, o1, o2, o3, n1. repeat (split; [assumption|]).
  destruct (args_no_decode args); injection H as <-; reflexivity.
Qed.

Lemma py_or_truthy (a b : JVal) : jtruthy b = true -> jtruthy (py_or a b) = true.
Proof. intros Hb. unfold py_or. destruct (jtruthy a) eqn:E; assumption. Qed.

Lemma py_or_left (a b : JVal) : jtruthy a = true -> py_or a b = a.
Proof. intros Ha. unfold py_or. rewrite Ha. reflexivity. Qed.

Lemma py_or_right (a b : JVal) : jtruthy a = false -> py_or a b = b.
Proof. intros Ha. unfold py_or. rewrite Ha. reflexivity. Qed.

(** X19: the effective configuration always has the same eight keys, in
    the same order, and its query, language, region and item limit are
    never [None], empty or zero: a value that is missing or falsy on the
    command line and in the settings is replaced by the default. *)
Theorem merge_result_shape (args : Namespace) (settings result : JObject) :
  merge_cli_with_settings args settings = Ok result ->
  List.map fst result
  = ["query"; "language"; "region"; "max_items"; "relative_time"; "output";
     "network"; "decode_articles"]
  /\ jtruthy (settings_get result "query") = true
  /\ jtruthy (settings_get result "language") = true
  /\ jtruthy (settings_get result "region") = true
  /\ jtruthy (settings_get result "max_items") = true.
Proof.
  intros H. apply merge_ok_inv in H.
  destruct H as (t1 & t2 & t3 & o1 & o2 & o3 & n1 & _ & _ & _ & _ & _ & _ & _ & ->).
  split; [reflexivity|].
  unfold settings_get. cbn [members_lookup String.eqb Ascii.eqb Bool.eqb].
  repeat split; apply py_or_truthy; reflexivity.
Qed.

Lemma merge_result_shape_witness :
  List.map fst
    [("query", JAtom (PyStr "apple")); ("language", JAtom (PyStr "en"));
     ("region", JAtom (PyStr "US")); ("max_items", JAtom (PyInt 20));
     ("relative_time", JDict [("hours", JAtom (PyInt 5)); ("days", JAtom (PyInt 3))]);
     ("output",
      JDict [("path", JAtom (PyStr "out/news.json"));
             ("format", JAtom (PyStr "json")); ("pretty", JAtom (PyBool true))]);
     ("network", JDict []); ("decode_articles", JAtom (PyBool false))]
  = ["query"; "language"; "region"; "max_items"; "relative_time"; "output";
     "network"; "decode_articles"].
Proof.
  exact (proj1 (merge_result_shape sample_args sample_settings _ eq_refl)).
Defined.

Lemma merge_cli_precedence_aux (args : Namespace) (settings result : JObject) :
  merge_cli_with_settings args settings = Ok result ->
  settings_get result "query"
  = py_or (py_or (of_opt_str (args_query args)) (settings_get settings "query"))
          (JAtom (PyStr "banana"))
  /\ settings_get result "language"
     = py_or (py_or (of_opt_str (args_language args)) (settings_get settings "language"))
             (JAtom (PyStr "en"))
  /\ settings_get result "region"
     = py_or (py_or (of_opt_str (args_region args)) (settings_get settings "region"))
             (JAtom (PyStr "US"))
  /\ settings_get result "max_items"
     = py_or (py_or (of_opt_int (args_max_items args)) (settings_get settings "max_items"))
             (JAtom (PyInt 50))
  /\ settings_get result "decode_articles"
     = if args_no_decode args then JAtom (PyBool false)
       else settings_get_default settings "decode_articles" (JAtom (PyBool true)).
Proof.
  intros H. apply merge_ok_inv in H.
  destruct H as (t1 & t2 & t3 & o1 & o2 & o3 & n1 & _ & _ & _ & _ & _ & _ & _ & ->).
  repeat split; reflexivity.
Qed.

Lemma str_nonempty_true (s : string) : s <> "" -> str_nonempty s = true.
Proof. destruct s; [congruence | reflexivity]. Qed.

(** X20: on the command line a non-empty [--query], [--language] or
    [--region] and a non-zero [--max-items] win over the settings file,
    whatever it holds.  [--max-items 0] counts as not given: the limit is
    then the one of the settings, or 50 when that is missing or falsy too.
    [--no-decode] switches decoding off whatever the settings say. *)
Theorem merge_cli_precedence (args : Namespace) (settings result : JObject) :
  merge_cli_with_settings args settings = Ok result ->
  (forall q, args_query args = Some q -> q <> "" ->
     settings_get result "query" = JAtom (PyStr q))
  /\ (forall l, args_language args = Some l -> l <> "" ->
        settings_get result "language" = JAtom (PyStr l))
  /\ (forall r, args_region args = Some r -> r <> "" ->
        settings_get result "region" = JAtom (PyStr r))
  /\ (forall n, args_max_items args = Some n -> n <> 0 ->
        settings_get result "max_items" = JAtom (PyInt n))
  /\ (args_max_items args = Some 0 ->
        settings_get result "max_items"
        = py_or (settings_get settings "max_items") (JAtom (PyInt 50)))
  /\ (args_no_decode args = true ->
        settings_get result "decode_articles" = JAtom (PyBool false)).
Proof.
  intros H. apply merge_cli_precedence_aux in H.
  destruct H as (Hq & Hl & Hr & Hm & Hd).
  repeat split.
  - intros q Ha Hne. rewrite Hq, Ha. cbn [of_opt_str].
    rewrite (py_or_left (JAtom (PyStr q))), py_or_left;
      cbn [jtruthy truthy]; auto using str_nonempty_true.
  - intros l Ha Hne. rewrite Hl, Ha. cbn [of_opt_str].
    rewrite (py_or_left (JAtom (PyStr l))), py_or_left;
      cbn [jtruthy truthy]; auto using str_nonempty_true.
  - intros r Ha Hne. rewrite Hr, Ha. cbn [of_opt_str].
    rewrite (py_or_left (JAtom (PyStr r))), py_or_left;
      cbn [jtruthy truthy]; auto using str_nonempty_true.
  - intros n Ha Hne. rewrite Hm, Ha. cbn [of_opt_int].
    assert (Ht : jtruthy (JAtom (PyInt n)) = true).
    { cbn [jtruthy truthy]. apply negb_true_iff, Z.eqb_neq. exact Hne. }
    rewrite (py_or_left (JAtom (PyInt n))), py_or_left; auto.
  - intros Ha. rewrite Hm, Ha. cbn [of_opt_int].
    rewrite (py_or_right (JAtom (PyInt 0))); reflexivity.
  - intros Ha. rewrite Hd, Ha. reflexivity.
Qed.

Lemma merge_cli_precedence_witness :
  settings_get
    [("query", JAtom (PyStr "apple")); ("language", JAtom (PyStr "en"));
     ("region", JAtom (PyStr "US")); ("max_items", JAtom (PyInt 20));
     ("relative_time", JDict [("hours", JAtom (PyInt 5)); ("days", JAtom (PyInt 3))]);
     ("output",
      JDict [("path", JAtom (PyStr "out/news.json"));
             ("format", JAtom (PyStr "json")); ("pretty", JAtom (PyBool true))]);
     ("network", JDict []); ("decode_articles", JAtom (PyBool false))]
    "max_items"
  = py_or (settings_get sample_settings "max_items") (JAtom (PyInt 50)).
Proof.
  exact (proj1 (proj2 (proj2 (proj2 (proj2
           (merge_cli_precedence sample_args sample_settings _ eq_refl)))))
           eq_refl).
Defined.

(** *** The sections *)

Lemma section_get_default (settings : JObject) (key : string) :
  (forall v, members_lookup settings key = Some v -> is_dict v = true) ->
  settings_get_default settings key (JDict []) = JDict (section_members settings key).
Proof.
  intros Hd. unfold settings_get_default, section_members.
  destruct (members_lookup settings key) as [v|] eqn:E; [|reflexivity].
  specialize (Hd v eq_refl). destruct v; try discriminate. reflexivity.
Qed.

Lemma set_if_given_dict (d : JObject) (key : string) (v : option Z) :
  exists d',
    set_if_given (JDict d) key v = Ok (JDict d')
    /\ members_lookup d' key = cli_or_settings v (members_lookup d key)
    /\ forall k, k <> key -> members_lookup d' k = members_lookup d k.
Proof.
  destruct v as [n|]; cbn [set_if_given setitem cli_or_settings].
  - eexists. split; [reflexivity|]. split.
    + apply members_lookup_set_same.
    + intros k Hk. apply members_lookup_set_other. exact Hk.
  - exists d. auto.
Qed.

Lemma set_default_dict (d : JObject) (key : string) (value : JVal) :
  exists d',
    set_default (JDict d) key value = Ok (JDict d')
    /\ members_lookup d' key = configured_or (members_lookup d key) value
    /\ forall k, k <> key -> members_lookup d' k = members_lookup d k.
Proof.
  unfold set_default. cbn [py_in exc_bind].
  destruct (members_lookup d key) as [v|] eqn:E; cbn [negb setitem configured_or].
  - exists d. auto.
  - eexists. split; [reflexivity|]. split.
    + apply members_lookup_set_same.
    + intros k Hk. apply members_lookup_set_other. exact Hk.
Qed.

(** X21: when the sections [relative_time], [output] and [network] of the
    settings are objects (or missing), the merge returns, and each section
    of the result is the section of the settings with the command line
    laid over it: [--hours], [--days], [--years] and [--timeout] replace
    their own key whenever they are given, even with 0, and every other
    key keeps its configured value, so a configured [hours] stays beside a
    [--days] of the command line; a non-empty [--output] replaces [path];
    [format] and [pretty] keep a configured value and get ["json"] and
    [True] only when the key is missing. *)
Theorem merge_sections (args : Namespace) (settings : JObject) :
  sections_are_dicts settings ->
  exists result t o n,
    merge_cli_with_settings args settings = Ok result
    /\ settings_get result "relative_time" = JDict t
    /\ settings_get result "output" = JDict o
    /\ settings_get result "network" = JDict n
    /\ members_lookup t "hours"
       = cli_or_settings (args_hours args)
           (members_lookup (section_members settings "relative_time") "hours")
    /\ members_lookup t "days"
       = cli_or_settings (args_days args)
           (members_lookup (section_members settings "relative_time") "days")
    /\ members_lookup t "years"
       = cli_or_settings (args_years args)
           (members_lookup (section_members settings "relative_time") "years")
    /\ (forall k, k <> "hours" -> k <> "days" -> k <> "years" ->
          members_lookup t k
          = members_lookup (section_members settings "relative_time") k)
    /\ members_lookup o "path"
       = (if jtruthy (of_opt_str (args_output args))
          then Some (of_opt_str (args_output args))
          else members_lookup (section_members settings "output") "path")
    /\ members_lookup o "format"
       = configured_or (members_lookup (section_members settings "output") "format")
                       (JAtom (PyStr "json"))
    /\ members_lookup o "pretty"
       = configured_or (members_lookup (section_members settings "output") "pretty")
                       (JAtom (PyBool true))
    /\ (forall k, k <> "path" -> k <> "format" -> k <> "pretty" ->
          members_lookup o k = members_lookup (section_members settings "output") k)
    /\ members_lookup n "timeout"
       = cli_or_settings (args_timeout args)
           (members_lookup (section_members settings "network") "timeout")
    /\ (forall k, k <> "timeout" ->
          members_lookup n k = members_lookup (section_members settings "network") k).
Proof.
  intros Hwf.
  assert (Ht0 := section_get_default settings "relative_time"
                   (fun v => Hwf _ v (or_introl eq_refl))).
  assert (Ho0 := section_get_default settings "output"
                   (fun v => Hwf _ v (or_intror (or_introl eq_refl)))).
  assert (Hn0 := section_get_default settings "network"
                   (fun v => Hwf _ v (or_intror (or_intror eq_refl)))).
  set (t0 := section_members settings "relative_time") in *.
  set (o0 := section_members settings "output") in *.
  set (n0 := section_members settings "network") in *.
  destruct (set_if_given_dict t0 "hours" (args_hours args)) as (t1 & Et1 & Ht1 & Ft1).
  destruct (set_if_given_dict t1 "days" (args_days args)) as (t2 & Et2 & Ht2 & Ft2).
  destruct (set_if_given_dict t2 "years" (args_years args)) as (t3 & Et3 & Ht3 & Ft3).
  assert (Ho1 : exists o1,
             (if jtruthy (of_opt_str (args_output args))
              then setitem (JDict o0) "path" (of_opt_str (args_output args))
              else Ok (JDict o0)) = Ok (JDict o1)
             /\ members_lookup o1 "path"
                = (if jtruthy (of_opt_str (args_output args))
                   then Some (of_opt_str (args_output args))
                   else members_lookup o0 "path")
             /\ forall k, k <> "path" -> members_lookup o1 k = members_lookup o0 k).
  { destruct (jtruthy (of_opt_str (args_output args))); cbn [setitem].
    - eexists. split; [reflexivity|]. split.
      + apply members_lookup_set_same.
      + intros k Hk. apply members_lookup_set_other. exact Hk.
    - exists o0. auto. }
  destruct Ho1 as (o1 & Eo1 & Ho1 & Fo1).
  destruct (set_default_dict o1 "format" (JAtom (PyStr "json"))) as (o2 & Eo2 & Ho2 & Fo2).
  destruct (set_default_dict o2 "pretty" (JAtom (PyBool true))) as (o3 & Eo3 & Ho3 & Fo3).
  destruct (set_if_given_dict n0 "timeout" (args_timeout args)) as (n1 & En1 & Hn1 & Fn1).
  eexists _, t3, o3, n1. split.
  { unfold merge_cli_with_settings.
    rewrite Ht0, Ho0, Hn0, Et1. cbn [exc_bind]. rewrite Et2. cbn [exc_bind].
    rewrite Et3. cbn [exc_bind]. rewrite Eo1. cbn [exc_bind].
    rewrite Eo2. cbn [exc_bind]. rewrite Eo3. cbn [exc_bind].
    rewrite En1. cbn [exc_bind]. reflexivity. }
  split; [destruct (args_no_decode args); reflexivity|].
  split; [destruct (args_no_decode args); reflexivity|].
  split; [destruct (args_no_decode args); reflexivity|].
  split. { rewrite Ft3, Ft2, Ht1 by discriminate. reflexivity. }
  split. { rewrite Ft3, Ht2, Ft1 by discriminate. reflexivity. }
  split. { rewrite Ht3, Ft2, Ft1 by discriminate. reflexivity. }
  split. { intros k H1 H2 H3. rewrite Ft3, Ft2, Ft1 by assumption. reflexivity. }
  split. { rewrite Fo3, Fo2, Ho1 by discriminate. reflexivity. }
  split. { rewrite Fo3, Ho2, Fo1 by discriminate. reflexivity. }
  split. { rewrite Ho3, Fo2, Fo1 by discriminate. reflexivity. }
  split. { intros k H1 H2 H3. rewrite Fo3, Fo2, Fo1 by assumption. reflexivity. }
  split. { exact Hn1. }
  exact Fn1.
Qed.

Lemma sample_settings_sections : sections_are_dicts sample_settings.
Proof.
  intros key v [-> | [-> | ->]] H; vm_compute in H;
    try discriminate; injection H as <-; reflexivity.
Defined.

Lemma merge_sections_witness :
  sections_are_dicts sample_settings
  /\ exists result,
      merge_cli_with_settings sample_args sample_settings = Ok result
      /\ settings_get result "relative_time"
         = JDict [("hours", JAtom (PyInt 5)); ("days", JAtom (PyInt 3))].
Proof.
  split; [exact sample_settings_sections|].
  destruct (merge_sections sample_args sample_settings sample_settings_sections)
    as (result & t & o & n & Hm & _).
  exists result. split; [exact Hm|].
  vm_compute in Hm. injection Hm as <-. reflexivity.
Defined.

(** *** Sections that are no objects *)

Lemma setitem_raises (obj : JVal) (key : string) (value : JVal) (e : exn) :
  setitem obj key value = Raise e -> e = TypeError.
Proof. destruct obj; cbn [setitem]; congruence. Qed.

Lemma set_if_given_raises (obj : JVal) (key : string) (v : option Z) (e : exn) :
  set_if_given obj key v = Raise e -> e = TypeError.
Proof.
  destruct v; cbn [set_if_given]; [apply setitem_raises | discriminate].
Qed.

Lemma set_default_raises (obj : JVal) (key : string) (value : JVal) (e : exn) :
  set_default obj key value = Raise e -> e = TypeError.
Proof.
  unfold set_default. destruct (py_in key obj) as [b|e'] eqn:E; cbn [exc_bind].
  - destruct b; cbn [negb]; [discriminate | apply setitem_raises].
  - intros H. injection H as <-.
    destruct obj as [[| | |]| |]; cbn [py_in] in E; congruence.
Qed.

(** [TypeError] is the only exception of [merge_cli_with_settings]. *)
Lemma merge_raises_type_error (args : Namespace) (settings : JObject) (e : exn) :
  merge_cli_with_settings args settings = Raise e -> e = TypeError.
Proof.
  unfold merge_cli_with_settings.
  destruct (set_if_given _ "hours" _) as [t1|e1] eqn:E1; cbn [exc_bind];
    [|intros H; injection H as <-; eapply set_if_given_raises; eassumption].
  destruct (set_if_given _ "days" _) as [t2|e2] eqn:E2; cbn [exc_bind];
    [|intros H; injection H as <-; eapply set_if_given_raises; eassumption].
  destruct (set_if_given _ "years" _) as [t3|e3] eqn:E3; cbn [exc_bind];
    [|intros H; injection H as <-; eapply set_if_given_raises; eassumption].
  match goal with
  | |- exc_bind ?m _ = _ -> _ => destruct m as [o1|e4] eqn:E4; cbn [exc_bind]
  end.
  2:{ intros H; injection H as <-.
      destruct (jtruthy _); [eapply setitem_raises; eassumption | discriminate]. }
  destruct (set_default o1 "format" _) as [o2|e5] eqn:E5; cbn [exc_bind];
    [|intros H; injection H as <-; eapply set_default_raises; eassumption].
  destruct (set_default o2 "pretty" _) as [o3|e6] eqn:E6; cbn [exc_bind];
    [|intros H; injection H as <-; eapply set_default_raises; eassumption].
  destruct (set_if_given _ "timeout" _) as [n1|e7] eqn:E7; cbn [exc_bind];
    [|intros H; injection H as <-; eapply set_if_given_raises; eassumption].
  discriminate.
Qed.

Lemma set_if_given_not_dict (obj obj' : JVal) (key : string) (v : option Z) :
  is_dict obj = false ->
  set_if_given obj key v = Ok obj' -> v = None /\ obj' = obj.
Proof.
  intros Hd. destruct v as [n|]; cbn [set_if_given].
  - destruct obj; cbn [setitem]; discriminate.
  - intros H. injection H as <-. auto.
Qed.

Lemma get_default_found (settings : JObject) (key : string) (v default : JVal) :
  members_lookup settings key = Some v ->
  settings_get_default settings key default = v.
Proof. intros H. unfold settings_get_default. rewrite H. reflexivity. Qed.

(** X22: a section of the settings that is no object makes the merge raise
    [TypeError] as soon as the section has to be written or searched:
    [relative_time] when one of [--hours], [--days], [--years] is given,
    [network] when [--timeout] is given, [output] when a non-empty
    [--output] is given, and an [output] that is [null], a number or a
    boolean in every run. *)
Theorem merge_raises (args : Namespace) (settings : JObject) :
  (forall v, members_lookup settings "relative_time" = Some v ->
             is_dict v = false ->
             args_hours args <> None \/ args_days args <> None
             \/ args_years args <> None ->
             merge_cli_with_settings args settings = Raise TypeError)
  /\ (forall v, members_lookup settings "network" = Some v ->
                is_dict v = false -> args_timeout args <> None ->
                merge_cli_with_settings args settings = Raise TypeError)
  /\ (forall v, members_lookup settings "output" = Some v ->
                is_dict v = false ->
                jtruthy (of_opt_str (args_output args)) = true ->
                merge_cli_with_settings args settings = Raise TypeError)
  /\ (forall a, members_lookup settings "output" = Some (JAtom a) ->
                (forall s, a <> PyStr s) ->
                merge_cli_with_settings args settings = Raise TypeError).
Proof.
  assert (Hr : (forall result, merge_cli_with_settings args settings <> Ok result) ->
               merge_cli_with_settings args settings = Raise TypeError).
  { intros Hno.
    destruct (merge_cli_with_settings args settings) as [result|e] eqn:E.
    - destruct (Hno result eq_refl).
    - f_equal. eapply merge_raises_type_error. exact E. }
  repeat split.
  - intros v Hv Hd Hgiven. apply Hr. intros result Hm.
    apply merge_ok_inv in Hm.
    destruct Hm as (t1 & t2 & t3 & o1 & o2 & o3 & n1 & H1 & H2 & H3 & _).
    rewrite (get_default_found _ _ _ _ Hv) in H1.
    apply set_if_given_not_dict in H1; [|exact Hd]. destruct H1 as [Hh ->].
    apply set_if_given_not_dict in H2; [|exact Hd]. destruct H2 as [Hdy ->].
    apply set_if_given_not_dict in H3; [|exact Hd]. destruct H3 as [Hy ->].
    tauto.
  - intros v Hv Hd Hgiven. apply Hr. intros result Hm.
    apply merge_ok_inv in Hm.
    destruct Hm as (t1 & t2 & t3 & o1 & o2 & o3 & n1 & _ & _ & _ & _ & _ & _ & H7 & _).
    rewrite (get_default_found _ _ _ _ Hv) in H7.
    apply set_if_given_not_dict in H7; [|exact Hd]. tauto.
  - intros v Hv Hd Hgiven. apply Hr. intros result Hm.
    apply merge_ok_inv in Hm.
    destruct Hm as (t1 & t2 & t3 & o1 & o2 & o3 & n1 & _ & _ & _ & H4 & _).
    rewrite (get_default_found _ _ _ _ Hv), Hgiven in H4.
    destruct v; cbn [setitem] in H4; discriminate.
  - intros a Hv Ha. apply Hr. intros result Hm.
    apply merge_ok_inv in Hm.
    destruct Hm as (t1 & t2 & t3 & o1 & o2 & o3 & n1 & _ & _ & _ & H4 & H5 & _).
    rewrite (get_default_found _ _ _ _ Hv) in H4.
    destruct (jtruthy (of_opt_str (args_output args))).
    + cbn [setitem] in H4. discriminate.
    + injection H4 as <-. unfold set_default in H5.
      destruct a as [| | |s]; cbn [py_in exc_bind] in H5; try discriminate.
      destruct (Ha s eq_refl).
Qed.

Lemma merge_raises_witness :
  merge_cli_with_settings sample_args settings_null_output = Raise TypeError.
Proof.
  apply (proj2 (proj2 (proj2 (merge_raises sample_args settings_null_output))) PyNone).
  - reflexivity.
  - discriminate.
Defined.

(** ** The timestamp of a card *)

Lemma str_of_int_nonempty (n : Z) : str_of_int n <> "".
Proof.
  unfold str_of_int, NilZero.string_of_int, NilZero.string_of_uint.
  destruct (Z.to_int n) as [d|d]; destruct d; discriminate.
Qed.

(** X23: the timestamp [_extract_published_at] reads off a card is never
    the empty string (an ISO rendering being non-empty).  A non-empty
    [datetime] attribute of the first [time] element is returned as it
    stands, without being parsed; without one, a text of the element that
    the parser rejects is returned as it stands, trimmed, instead of being
    dropped. *)
Theorem published_at_shape (date_parser_parse_fuzzy : string -> exc PyDatetime)
        (isoformat : PyDatetime -> string) (article : Tag) :
  (forall d, isoformat d <> "") ->
  (forall s, _extract_published_at date_parser_parse_fuzzy isoformat article = Some s ->
             s <> "")
  /\ (forall time_tag v,
        find_tag "time" article = Some time_tag ->
        tag_get time_tag "datetime" = Some v -> v <> "" ->
        _extract_published_at date_parser_parse_fuzzy isoformat article = Some v)
  /\ (forall time_tag e,
        find_tag "time" article = Some time_tag ->
        or_else (tag_get time_tag "datetime") None = None ->
        get_text "" true time_tag <> "" ->
        date_parser_parse_fuzzy (get_text "" true time_tag) = Raise e ->
        _extract_published_at date_parser_parse_fuzzy isoformat article
        = Some (get_text "" true time_tag)
        /\ trimmed (get_text "" true time_tag)).
Proof.
  intros Hiso. unfold _extract_published_at. split; [|split].
  - intros s. destruct (find_tag "time" article) as [time_tag|]; [|discriminate].
    unfold or_else.
    destruct (tag_get time_tag "datetime") as [v|].
    + destruct (str_nonempty v) eqn:Ev.
      * intros H. injection H as <-. destruct v; [discriminate | discriminate].
      * destruct (str_nonempty (get_text "" true time_tag)) eqn:Et; [|discriminate].
        destruct (date_parser_parse_fuzzy _) as [d|e]; intros H; injection H as <-.
        -- apply Hiso.
        -- destruct (get_text "" true time_tag); discriminate.
    + destruct (str_nonempty (get_text "" true time_tag)) eqn:Et; [|discriminate].
      destruct (date_parser_parse_fuzzy _) as [d|e]; intros H; injection H as <-.
      * apply Hiso.
      * destruct (get_text "" true time_tag); discriminate.
  - intros time_tag v Hf Hv Hne. rewrite Hf, Hv. unfold or_else.
    rewrite (str_nonempty_true v Hne). reflexivity.
  - intros time_tag e Hf Hv Hne Hp. split; [|apply get_text_trimmed].
    rewrite Hf, Hv, (str_nonempty_true _ Hne), Hp. reflexivity.
Qed.

Lemma published_at_shape_witness :
  _extract_published_at micros_parser micros_isoformat card_with_time
  = Some "a while ago".
Proof.
  refine (proj1 (proj2 (proj2 (published_at_shape micros_parser micros_isoformat
                                 card_with_time
                                 (fun d => str_of_int_nonempty (wall d))))
                  (mkTag "time" ∅ [NavigableString "  a while ago "]) ValueError
                  eq_refl eq_refl _ eq_refl)).
  vm_compute. discriminate.
Defined.
